(** * finance_tracker: the tolerant CSV ingestion pipeline of [src/utils.py]

    A shallow embedding of the load / normalise / save pipeline and of the
    library calls it is built from ([str.strip], [float], [round],
    [datetime.strptime], [csv.writer], [csv.DictReader]), and of the
    interactive entry of [src/add_expense.py], followed by the properties
    of both.

    Modelling choices:
    - text is a [string]; a character stands for the code point of the same
      number, so the model covers text over U+0000..U+00FF;
    - a [float] is a binary64 value ([spec_float]); [float(s)], [round(x, 2)]
      and [f"{x:.2f}"] are correctly rounded, as in CPython;
    - [strftime("%Y")] prints the year as the C library of the platform
      does: glibc writes it without leading zeros, so that a year below
      1000 has fewer than four digits;
    - [datetime.fromisoformat] is a parameter;
    - the files are a map from path to content; directories, I/O errors
      and encodings are not modelled; the CSV reader has its default field
      size limit;
    - the lines typed at the prompts are a list that is passed along; the
      messages printed and the depth of the retries of [prompt_date] are not
      modelled, [datetime.today()] is a parameter. *)

From Stdlib Require Import ZArith NArith QArith Bool List String Ascii Lia.
From Stdlib Require Import Floats.SpecFloat.
From stdpp Require Import base option list gmap strings.

Local Open Scope string_scope.
Local Open Scope Z_scope.

(** ** Text primitives *)

Module Text.

Definition code (c : ascii) : Z := Z.of_N (N_of_ascii c).

Definition LF : ascii := ascii_of_nat 10.
Definition CR : ascii := ascii_of_nat 13.
Definition NUL : ascii := ascii_of_nat 0.

(** The quote character, code 34. *)
Abbreviation DQUOTE := (Ascii false true false false false true false false).

(** The characters [str.strip()] removes: those for which [str.isspace]
    holds (U+0009..U+000D, U+001C..U+0020, U+0085 and U+00A0 below U+0100). *)
Definition isspace (c : ascii) : bool :=
  let n := code c in
  ((9 <=? n) && (n <=? 13)) || ((28 <=? n) && (n <=? 32))
  || (n =? 133) || (n =? 160).

(** C's [Py_ISSPACE], the whitespace [float()] skips by itself. *)
Definition c_isspace (c : ascii) : bool :=
  let n := code c in ((9 <=? n) && (n <=? 13)) || (n =? 32).

Definition isdigit (c : ascii) : bool :=
  let n := code c in (48 <=? n) && (n <=? 57).

Definition digit_val (c : ascii) : Z := code c - 48.

Fixpoint lstrip_by (p : ascii -> bool) (s : string) : string :=
  match s with
  | String c r => if p c then lstrip_by p r else s
  | EmptyString => EmptyString
  end.

Fixpoint rstrip_by (p : ascii -> bool) (s : string) : string :=
  match s with
  | String c r =>
      match rstrip_by p r with
      | EmptyString => if p c then EmptyString else String c EmptyString
      | r' => String c r'
      end
  | EmptyString => EmptyString
  end.

(** [s.strip()] *)
Definition strip (s : string) : string := rstrip_by isspace (lstrip_by isspace s).

(** [s.replace(c, "")] for a one-character pattern. *)
Fixpoint remove_char (x : ascii) (s : string) : string :=
  match s with
  | String c r => if Ascii.eqb c x then remove_char x r else String c (remove_char x r)
  | EmptyString => EmptyString
  end.

Definition lower_char (c : ascii) : ascii :=
  let n := code c in
  if ((65 <=? n) && (n <=? 90))
     || ((192 <=? n) && (n <=? 222) && negb (n =? 215))
  then ascii_of_N (Z.to_N (n + 32)) else c.

(** [s.lower()] *)
Fixpoint lower (s : string) : string :=
  match s with
  | String c r => String (lower_char c) (lower r)
  | EmptyString => EmptyString
  end.

Fixpoint contains (x : ascii) (s : string) : bool :=
  match s with
  | String c r => Ascii.eqb c x || contains x r
  | EmptyString => false
  end.

Definition is_empty (s : string) : bool :=
  match s with EmptyString => true | _ => false end.

(** [len(s)] *)
Definition len (s : string) : Z := Z.of_nat (String.length s).

Fixpoint all_chars (p : ascii -> bool) (s : string) : bool :=
  match s with
  | String c r => p c && all_chars p r
  | EmptyString => true
  end.

Definition DEL : ascii := ascii_of_nat 127.

(** The information separators U+001C..U+001F: white space for
    [str.strip], not for [float]. *)
Definition info_separator (c : ascii) : bool := (28 <=? code c) && (code c <=? 31).

End Text.
Import Text.

(** ** Exceptions

    A call either returns or raises: [ValueError] from the conversions of the
    field parsers, [csv.Error] from the CSV reader. *)

Inductive exn := ValueError | CsvError.

Inductive outcome (A : Type) :=
| Return (a : A)
| Raise (e : exn).
Arguments Return {A} a.
Arguments Raise {A} e.

(** [try: body  except ValueError: handler] *)
Definition try_except {A} (body : outcome A) (handler : outcome A) : outcome A :=
  match body with
  | Raise ValueError => handler
  | _ => body
  end.

(** A library call that returns a value or raises [ValueError]. *)
Definition or_value_error {A} (o : option A) : outcome A :=
  match o with
  | Some a => Return a
  | None => Raise ValueError
  end.

Definition bind {A B} (m : outcome A) (k : A -> outcome B) : outcome B :=
  match m with
  | Return a => k a
  | Raise e => Raise e
  end.

(** ** Binary64 floats: [float(str)], [round(x, 2)], [f"{x:.2f}"], [x <= 0] *)

Module Float.

Definition prec : Z := 53.
Definition emax : Z := 1024.

Definition float := spec_float.

Definition zero : float := S754_zero false.

(** The double nearest to the positive rational [p/q] (ties to even,
    overflow to infinity, gradual underflow). *)
Definition round_ratio (neg : bool) (p q : positive) : float :=
  let '(mz, ez, lz) := SFdiv_core_binary prec emax (Zpos p) 0 (Zpos q) 0 in
  binary_round_aux prec emax neg mz ez lz.

(** Correctly rounded conversion of the magnitude [q >= 0] with sign
    [neg], as [strtod] performs it.  The result depends on the value of
    [q] only. *)
Definition nearest_double (neg : bool) (q : Q) : float :=
  let r := Qred q in
  match Qnum r with
  | Zpos p => round_ratio neg p (Qden r)
  | _ => S754_zero neg
  end.

(** Value [m * 10^e] of a decimal literal. *)
Definition dec_value (m e : Z) : Q :=
  if 0 <=? e then Qmake (m * 10 ^ e) 1
  else Qmake m (Z.to_pos (10 ^ (- e))).

(** *** [float(s)] *)

(** [_PyUnicode_TransformDecimalAndSpaceToASCII]: an ASCII string is kept;
    otherwise white space becomes a blank and the first other character
    from U+007F on becomes ['?'] and ends the string. *)
Fixpoint transform_nonascii (s : string) : string :=
  match s with
  | String c r =>
      if code c <? 127 then String c (transform_nonascii r)
      else if isspace c then String " " (transform_nonascii r)
      else String "?" EmptyString
  | EmptyString => EmptyString
  end.

Definition transform (s : string) : string :=
  if all_chars (fun c => code c <? 128) s then s else transform_nonascii s.

(** The check of [_Py_string_to_number_with_underscores]: an underscore
    must stand between two digits; the underscores are then dropped. *)
Fixpoint drop_underscores (prev : ascii) (s : string) : option string :=
  match s with
  | String c r =>
      if Ascii.eqb c "_" then
        if isdigit prev then drop_underscores c r else None
      else if Ascii.eqb prev "_" && negb (isdigit c) then None
      else String c <$> drop_underscores c r
  | EmptyString => if Ascii.eqb prev "_" then None else Some EmptyString
  end.

(** Reads a run of decimal digits: the accumulated value, the number of
    digits read and the rest of the text. *)
Fixpoint take_digits (s : string) (acc : Z) (cnt : Z) : Z * Z * string :=
  match s with
  | String c r =>
      if isdigit c then take_digits r (10 * acc + digit_val c) (cnt + 1)
      else (acc, cnt, s)
  | EmptyString => (acc, cnt, s)
  end.

Definition take_sign (s : string) : bool * string :=
  match s with
  | String c r =>
      if Ascii.eqb c "-" then (true, r)
      else if Ascii.eqb c "+" then (false, r)
      else (false, s)
  | EmptyString => (false, s)
  end.

(** The exponent part [e[+-]digits]; without a digit nothing is consumed. *)
Definition take_exponent (s : string) : Z * string :=
  match s with
  | String c r =>
      if Ascii.eqb c "e" || Ascii.eqb c "E" then
        let '(neg, r1) := take_sign r in
        let '(v, cnt, r2) := take_digits r1 0 0 in
        if cnt =? 0 then (0, s) else ((if neg then - v else v), r2)
      else (0, s)
  | EmptyString => (0, s)
  end.

(** [_Py_dg_strtod]: sign, digits with an optional point, optional
    exponent.  [None] when no digit was found (nothing is consumed). *)
Definition strtod (s : string) : option (float * string) :=
  let '(neg, s0) := take_sign s in
  let '(m1, n1, s1) := take_digits s0 0 0 in
  let '(m2, n2, s2) :=
    match s1 with
    | String c r => if Ascii.eqb c "." then take_digits r m1 0 else (m1, 0, s1)
    | EmptyString => (m1, 0, s1)
    end in
  if n1 + n2 =? 0 then None
  else
    let '(e, s3) := take_exponent s2 in
    Some (nearest_double neg (dec_value m2 (e - n2)), s3).

(** Case-insensitive prefix test against a lower-case word. *)
Fixpoint skip_word (w s : string) : option string :=
  match w, s with
  | EmptyString, _ => Some s
  | String a w', String c r =>
      if Ascii.eqb (lower_char c) a && (code c <? 128) then skip_word w' r else None
  | String _ _, EmptyString => None
  end.

(** [_Py_parse_inf_or_nan] *)
Definition parse_inf_or_nan (s : string) : option (float * string) :=
  let '(neg, s0) := take_sign s in
  match skip_word "inf" s0 with
  | Some r =>
      match skip_word "inity" r with
      | Some r' => Some (S754_infinity neg, r')
      | None => Some (S754_infinity neg, r)
      end
  | None =>
      match skip_word "nan" s0 with
      | Some r => Some (S754_nan, r)
      | None => None
      end
  end.

(** [_PyOS_ascii_strtod] *)
Definition ascii_strtod (s : string) : option (float * string) :=
  match strtod s with
  | Some r => Some r
  | None => parse_inf_or_nan s
  end.

(** [float_from_string_inner]: blanks around the number are skipped and
    the whole rest has to be consumed. *)
Definition float_from_string_inner (s : string) : outcome float :=
  let s1 := lstrip_by c_isspace s in
  if is_empty s1 then Raise ValueError
  else
    match ascii_strtod (rstrip_by c_isspace s1) with
    | Some (x, EmptyString) => Return x
    | _ => Raise ValueError
    end.

(** [_Py_string_to_number_with_underscores] around the conversion. *)
Definition string_to_number_with_underscores (t : string) : outcome float :=
  if contains "_" t then
    match drop_underscores NUL t with
    | Some t' => float_from_string_inner t'
    | None => Raise ValueError
    end
  else float_from_string_inner t.

(** [float(s)] for a [str] argument. *)
Definition py_float (s : string) : outcome float :=
  string_to_number_with_underscores (transform s).

(** *** Rounding to two decimals *)

Definition round_half_even_div (a b : Z) : Z :=
  let '(q, r) := Z.div_eucl a b in
  match 2 * r ?= b with
  | Lt => q
  | Gt => q + 1
  | Eq => if Z.even q then q else q + 1
  end.

(** The number of hundredths nearest to [m * 2^e] (ties to even): the
    digits [_Py_dg_dtoa] yields in mode 3 for two decimals. *)
Definition hundredths (m : positive) (e : Z) : Z :=
  if 0 <=? e then Zpos m * 2 ^ e * 100
  else round_half_even_div (Zpos m * 100) (2 ^ (- e)).

(** [round(x, 2)]: the rounded decimal converted back to a double. *)
Definition round2 (x : float) : float :=
  match x with
  | S754_finite s m e => nearest_double s (Qmake (hundredths m e) 100)
  | _ => x
  end.

(** Decimal digits of a natural number, most significant first, put in
    front of [acc]; at most [fuel + 1] digits. *)
Fixpoint digits_fuel (fuel : nat) (n : Z) (acc : string) : string :=
  let d := String (ascii_of_N (Z.to_N (48 + n mod 10))) acc in
  match fuel with
  | O => d
  | S f => if n <? 10 then d else digits_fuel f (n / 10) d
  end.

(** The digits of [n] in front of [tl]. *)
Definition digits_onto (n : Z) (tl : string) : string :=
  digits_fuel (Z.to_nat (Z.log2 n)) n tl.

(** [n] hundredths in fixed notation, as [d...d.dd]. *)
Definition fixed2 (neg : bool) (n : Z) : string :=
  (if neg then "-" else "")
    ++ digits_onto (n / 100)
         (String "." (digits_fuel 0 (n / 10) (digits_fuel 0 n EmptyString))).

(** [f"{x:.2f}"] *)
Definition format2 (x : float) : string :=
  match x with
  | S754_nan => "nan"
  | S754_infinity s => if s then "-inf" else "inf"
  | S754_zero s => fixed2 s 0
  | S754_finite s m e => fixed2 s (hundredths m e)
  end.

(** "Rounded to 2 decimal places", in the words of the specification:
    [k] is a whole number of hundredths that lies at most half a hundredth
    from the value [m * 2^e]. *)
Definition nearest_hundredths (m : positive) (e k : Z) : Prop :=
  2 * Z.abs (Zpos m * 2 ^ Z.max e 0 * 100 - k * 2 ^ Z.max (- e) 0)
  <= 2 ^ Z.max (- e) 0.

(** ... and of the two whole numbers half a hundredth away from a value the
    even one is taken, as [round] documents. *)
Definition rounded_hundredths (m : positive) (e k : Z) : Prop :=
  nearest_hundredths m e k
  /\ (2 * Z.abs (Zpos m * 2 ^ Z.max e 0 * 100 - k * 2 ^ Z.max (- e) 0)
      = 2 ^ Z.max (- e) 0 -> Z.even k = true).

(** [x <= 0] *)
Definition le_zero (x : float) : bool := SFleb x zero.

(** [x > 0] *)
Definition gt_zero (x : float) : bool := SFltb zero x.

(** *** Character classes of the texts [float] reads *)

(** The characters of a number in fixed notation. *)
Definition numchar (c : ascii) : bool := isdigit c || Ascii.eqb c ".".

(** The characters a text that [float] accepts can contain. *)
Definition float_char (c : ascii) : bool :=
  c_isspace c || isdigit c || contains c "+-._eE"
  || ((code c <? 128) && contains (lower_char c) "infatyn").

End Float.
Import Float.

(** ** Calendar dates: [datetime.strptime], [strftime("%Y-%m-%d")] *)

Module Date.

Definition is_leap (y : Z) : bool :=
  (y mod 4 =? 0) && (negb (y mod 100 =? 0) || (y mod 400 =? 0)).

Definition days_in_month (y m : Z) : Z :=
  if m =? 2 then (if is_leap y then 29 else 28)
  else if (m =? 4) || (m =? 6) || (m =? 9) || (m =? 11) then 30
  else 31.

(** The range check of the [datetime] constructor. *)
Definition valid_ymd (y m d : Z) : bool :=
  (1 <=? y) && (y <=? 9999) && (1 <=? m) && (m <=? 12)
  && (1 <=? d) && (d <=? days_in_month y m).

(** A [datetime] object, as far as [strftime("%Y-%m-%d")] looks at it.
    Every object satisfies the constructor's range check. *)
Record datetime := mk_datetime {
  year : Z;
  month : Z;
  day : Z;
  date_ok : valid_ymd year month day = true
}.

Definition make_date (y m d : Z) : outcome datetime :=
  match Sumbool.sumbool_of_bool (valid_ymd y m d) with
  | left H => Return (mk_datetime y m d H)
  | right _ => Raise ValueError
  end.

(** Directives and literal characters of a format string. *)
Inductive item := DirY | Dirm | Dird | Lit (c : ascii).

Definition fmt_ymd : list item := [DirY; Lit "-"; Dirm; Lit "-"; Dird].
Definition fmt_dmy : list item := [Dird; Lit "/"; Dirm; Lit "/"; DirY].
Definition fmt_mdy : list item := [Dirm; Lit "/"; Dird; Lit "/"; DirY].

Definition in_range (lo hi : Z) (c : ascii) : bool :=
  (lo <=? digit_val c) && (digit_val c <=? hi) && isdigit c.

(** One alternative [a[lo-hi]] of a directive's regular expression,
    with [a] a fixed first character. *)
Definition alt2 (a : ascii) (base lo hi : Z) (s : string) : list (Z * string) :=
  match s with
  | String c (String c' r) =>
      if Ascii.eqb c a && in_range lo hi c' then [(base + digit_val c', r)] else []
  | _ => []
  end.

(** [%m] is [1[0-2]|0[1-9]|[1-9]]: the matches at the head of [s], in
    the order the regular expression tries them. *)
Definition alts_m (s : string) : list (Z * string) :=
  alt2 "1" 10 0 2 s ++ alt2 "0" 0 1 9 s
  ++ match s with
     | String c r => if in_range 1 9 c then [(digit_val c, r)] else []
     | EmptyString => []
     end.

(** [%d] is [3[0-1]|[1-2]\d|0[1-9]|[1-9]| [1-9]]. *)
Definition alts_d (s : string) : list (Z * string) :=
  alt2 "3" 30 0 1 s
  ++ match s with
     | String c (String c' r) =>
         if in_range 1 2 c && isdigit c' then [(10 * digit_val c + digit_val c', r)] else []
     | _ => []
     end
  ++ alt2 "0" 0 1 9 s
  ++ match s with
     | String c r => if in_range 1 9 c then [(digit_val c, r)] else []
     | EmptyString => []
     end
  ++ alt2 " " 0 1 9 s.

(** [%Y] is [\d\d\d\d]. *)
Definition alts_Y (s : string) : list (Z * string) :=
  match s with
  | String a (String b (String c (String d r))) =>
      if isdigit a && isdigit b && isdigit c && isdigit d
      then [(1000 * digit_val a + 100 * digit_val b + 10 * digit_val c + digit_val d, r)]
      else []
  | _ => []
  end.

Fixpoint first_some {A B} (f : A -> option B) (l : list A) : option B :=
  match l with
  | [] => None
  | a :: r => match f a with Some b => Some b | None => first_some f r end
  end.

(** [format_regex.match(data_string)]: the first match in the order of a
    backtracking matcher, with the fields found and the unmatched rest. *)
Fixpoint regex_match (fmt : list item) (s : string) (ymd : Z * Z * Z)
  : option (Z * Z * Z * string) :=
  match fmt with
  | [] => Some (ymd, s)
  | Lit c :: f =>
      match s with
      | String c' r => if Ascii.eqb c' c then regex_match f r ymd else None
      | EmptyString => None
      end
  | DirY :: f =>
      first_some (fun '(v, r) => regex_match f r (v, ymd.1.2, ymd.2)) (alts_Y s)
  | Dirm :: f =>
      first_some (fun '(v, r) => regex_match f r (ymd.1.1, v, ymd.2)) (alts_m s)
  | Dird :: f =>
      first_some (fun '(v, r) => regex_match f r (ymd.1, v)) (alts_d s)
  end.

(** [datetime.strptime(s, fmt)] *)
Definition strptime (s : string) (fmt : list item) : outcome datetime :=
  match regex_match fmt s (1900, 1, 1) with
  | Some (y, m, d, EmptyString) => make_date y m d
  | _ => Raise ValueError
  end.

Definition digit_char (n : Z) : ascii := ascii_of_N (Z.to_N (48 + n mod 10)).

Definition pad2 (n : Z) : string :=
  String (digit_char (n / 10)) (String (digit_char n) EmptyString).

Definition pad4 (n : Z) : string :=
  String (digit_char (n / 1000)) (String (digit_char (n / 100)) (pad2 n)).

(** [%Y] of the C library: the decimal digits of the year, with no
    leading zero. *)
Definition year_text (y : Z) : string := digits_onto y EmptyString.

(** [dt.strftime("%Y-%m-%d")] *)
Definition strftime (dt : datetime) : string :=
  year_text (year dt) ++ "-" ++ pad2 (month dt) ++ "-" ++ pad2 (day dt).

(** The canonical form [YYYY-MM-DD] of a calendar date. *)
Definition canonical_date (s : string) : Prop :=
  exists y m d : Z,
    valid_ymd y m d = true /\ s = pad4 y ++ "-" ++ pad2 m ++ "-" ++ pad2 d.

(** A canonical date of the year 1000 or later: its year is written
    without a leading zero. *)
Definition four_digit_year (s : string) : Prop :=
  exists y m d : Z,
    valid_ymd y m d = true /\ 1000 <= y
    /\ s = pad4 y ++ "-" ++ pad2 m ++ "-" ++ pad2 d.

End Date.
Import Date.

(** ** The field parsers and the column normaliser of [utils.py] *)

Definition STANDARD_COLUMNS : list string :=
  ["date"; "amount"; "category"; "description"].

Record Expense := mk_Expense {
  date : string;
  amount : float;
  category : string;
  description : string
}.

Definition mapping : gmap string string :=
  list_to_map
    [("date", "date"); ("transaction date", "date"); ("txn date", "date");
     ("amount", "amount"); ("amt", "amount"); ("value", "amount"); ("debit", "amount");
     ("category", "category"); ("type", "category");
     ("description", "description"); ("desc", "description");
     ("merchant", "description"); ("narration", "description");
     ("details", "description"); ("notes", "description")].

Definition _standardize_col_name (col : string) : string :=
  let c := lower (strip col) in
  default c (mapping !! c).
Arguments _standardize_col_name : simpl never.

Definition _parse_amount (value : string) : outcome (option float) :=
  let v := remove_char "," (remove_char "$" (strip value)) in
  if is_empty v then Return None
  else
    try_except
      (bind (py_float v) (fun amt =>
         if le_zero amt then Return None
         else Return (Some (round2 amt))))
      (Return None).

Section ParseDate.

(** [datetime.fromisoformat]: the general timestamp parse of the library,
    taken as it is.  It returns a [datetime], or raises [ValueError]
    ([None]). *)
Variable fromisoformat : string -> option datetime.

Fixpoint try_formats (fmts : list (list item)) (v : string)
    (otherwise : outcome (option string)) : outcome (option string) :=
  match fmts with
  | [] => otherwise
  | fmt :: rest =>
      try_except
        (bind (strptime v fmt) (fun dt => Return (Some (strftime dt))))
        (try_formats rest v otherwise)
  end.

Definition _parse_date (value : string) : outcome (option string) :=
  let v := strip value in
  if is_empty v then Return None
  else
    try_formats [fmt_ymd; fmt_dmy; fmt_mdy] v
      (try_except
         (bind (or_value_error (fromisoformat (remove_char "Z" v)))
               (fun dt => Return (Some (strftime dt))))
         (Return None)).

End ParseDate.

(** ** The [csv] module with the default dialect *)

Module Csv.

(** *** [csv.writer(f).writerow(row)] *)

Definition needs_quotes (c : ascii) : bool :=
  Ascii.eqb c "," || Ascii.eqb c DQUOTE || Ascii.eqb c CR || Ascii.eqb c LF.

Fixpoint double_quotes (s : string) : string :=
  match s with
  | String c r =>
      if Ascii.eqb c DQUOTE then String c (String c (double_quotes r))
      else String c (double_quotes r)
  | EmptyString => EmptyString
  end.

Definition has_special (s : string) : bool := negb (all_chars (fun c => negb (needs_quotes c)) s).

Definition quote_field (s : string) : string :=
  if has_special s
  then String DQUOTE (double_quotes s ++ String DQUOTE EmptyString)
  else s.

Fixpoint join_fields (l : list string) : string :=
  match l with
  | [] => EmptyString
  | [f] => quote_field f
  | f :: r => quote_field f ++ String "," (join_fields r)
  end.

Definition lineterminator : string := String CR (String LF EmptyString).

(** The text one [writerow] call writes; a record of one empty field is
    written as a pair of quotes. *)
Definition writerow (row : list string) : string :=
  let rec := join_fields row in
  (if is_empty rec && negb (length row =? 0)%nat
   then String DQUOTE (String DQUOTE EmptyString)
   else rec)
  ++ lineterminator.

(** *** [csv.reader(f)] *)

Inductive pstate :=
| START_RECORD | START_FIELD | IN_FIELD | IN_QUOTED_FIELD
| QUOTE_IN_QUOTED_FIELD | EAT_CRNL.

Record reader := mk_reader {
  state : pstate;
  field : string;
  fields : list string
}.

(** [parse_reset] *)
Definition reset : reader := mk_reader START_RECORD EmptyString [].

(** [csv.field_size_limit()], by default. *)
Definition field_limit : Z := 131072.

(** A character is refused once the field holds [field_limit] characters. *)
Definition parse_add_char (c : ascii) (r : reader) : outcome reader :=
  if field_limit <=? len (field r) then Raise CsvError
  else Return (mk_reader (state r) (field r ++ String c EmptyString) (fields r)).

Definition parse_save_field (r : reader) : reader :=
  mk_reader (state r) EmptyString (fields r ++ [field r]).

Definition set_state (st : pstate) (r : reader) : reader :=
  mk_reader st (field r) (fields r).

(** What the reader is fed: a character of a line, or the end-of-line
    mark that follows the last character of every line. *)
Definition event := option ascii.

Definition is_newline (c : ascii) : bool := Ascii.eqb c LF || Ascii.eqb c CR.

Definition start_field (r : reader) (ev : event) : outcome reader :=
  match ev with
  | None => Return (set_state START_RECORD (parse_save_field r))
  | Some c =>
      if is_newline c then Return (set_state EAT_CRNL (parse_save_field r))
      else if Ascii.eqb c DQUOTE then Return (set_state IN_QUOTED_FIELD r)
      else if Ascii.eqb c "," then Return (parse_save_field r)
      else bind (parse_add_char c r) (fun r' => Return (set_state IN_FIELD r'))
  end.

(** [parse_process_char] *)
Definition parse_process_char (r : reader) (ev : event) : outcome reader :=
  match state r with
  | START_RECORD =>
      match ev with
      | None => Return r
      | Some c =>
          if is_newline c then Return (set_state EAT_CRNL r)
          else start_field (set_state START_FIELD r) ev
      end
  | START_FIELD => start_field r ev
  | IN_FIELD =>
      match ev with
      | None => Return (set_state START_RECORD (parse_save_field r))
      | Some c =>
          if is_newline c then Return (set_state EAT_CRNL (parse_save_field r))
          else if Ascii.eqb c "," then Return (set_state START_FIELD (parse_save_field r))
          else parse_add_char c r
      end
  | IN_QUOTED_FIELD =>
      match ev with
      | None => Return r
      | Some c =>
          if Ascii.eqb c DQUOTE then Return (set_state QUOTE_IN_QUOTED_FIELD r)
          else parse_add_char c r
      end
  | QUOTE_IN_QUOTED_FIELD =>
      match ev with
      | None => Return (set_state START_RECORD (parse_save_field r))
      | Some c =>
          if Ascii.eqb c DQUOTE
          then bind (parse_add_char c r) (fun r' => Return (set_state IN_QUOTED_FIELD r'))
          else if Ascii.eqb c "," then Return (set_state START_FIELD (parse_save_field r))
          else if is_newline c then Return (set_state EAT_CRNL (parse_save_field r))
          else bind (parse_add_char c r) (fun r' => Return (set_state IN_FIELD r'))
      end
  | EAT_CRNL =>
      match ev with
      | None => Return (set_state START_RECORD r)
      | Some c => if is_newline c then Return r else Raise CsvError
      end
  end.

Definition at_record_start (r : reader) : bool :=
  match state r with START_RECORD => true | _ => false end.

Definition in_quoted (r : reader) : bool :=
  match state r with IN_QUOTED_FIELD => true | _ => false end.

(** The loop of [Reader_iternext], over all lines: a record is complete
    when the parser is back at the start of a record after a line; at
    the end of the input an unfinished quoted field is kept. *)
Fixpoint read_records (r : reader) (evs : list event) : outcome (list (list string)) :=
  match evs with
  | [] =>
      if negb (is_empty (field r)) || in_quoted r
      then Return [fields (parse_save_field r)]
      else Return []
  | ev :: rest =>
      bind (parse_process_char r ev) (fun r' =>
        match ev with
        | None =>
            if at_record_start r'
            then bind (read_records reset rest) (fun l => Return (fields r' :: l))
            else read_records r' rest
        | Some _ => read_records r' rest
        end)
  end.

(** The lines of a file opened with [newline=""]: a line ends after
    LF, after CR LF, after a CR that no LF follows, and at the end of the
    text.  Each line is fed character by character, then its end mark. *)
Fixpoint line_events (s : string) : list event :=
  match s with
  | String c r =>
      let ends :=
        match r with
        | EmptyString => true
        | String d _ => Ascii.eqb c LF || (Ascii.eqb c CR && negb (Ascii.eqb d LF))
        end in
      Some c :: (if ends then None :: line_events r else line_events r)
  | EmptyString => []
  end.

Definition csv_reader (text : string) : outcome (list (list string)) :=
  read_records reset (line_events text).

(** *** [csv.DictReader] *)

(** The dict of one row: [dict(zip(fieldnames, row))], then [None] under
    the names a short row leaves without value.  (The surplus of a long
    row goes under the key [None], which no [str] key reaches.) *)
Definition dict_row (fieldnames row : list string) : gmap string (option string) :=
  let d := foldl (fun d kv => <[kv.1 := Some kv.2]> d) ∅ (zip fieldnames row) in
  foldl (fun d k => <[k := None]> d) d (drop (length row) fieldnames).

(** [dict_row], one name at a time. *)
Fixpoint dict_fill (d : gmap string (option string)) (names row : list string)
  : gmap string (option string) :=
  match names with
  | [] => d
  | n :: ns => dict_fill (<[n := head row]> d) ns (tail row)
  end.

Definition nonblank (row : list string) : bool :=
  match row with [] => false | _ => true end.

(** [fieldnames] is the first record read, if any; the rows are the
    records after it that are not blank. *)
Definition DictReader (text : string)
  : outcome (option (list string) * list (gmap string (option string))) :=
  bind (csv_reader text) (fun recs =>
    match recs with
    | [] => Return (None, [])
    | names :: rows =>
        Return (Some names,
                map (dict_row names) (filter (fun r => nonblank r = true) rows))
    end).

End Csv.
Import Csv.

(** ** The expense store *)

(** The files of the store: path to content.  Directories are not modelled
    (every parent directory can be created). *)
Abbreviation files := (gmap string string).

Definition header_text : string := writerow STANDARD_COLUMNS.

Definition ensure_csv_header (path : string) (fs : files) : files :=
  match fs !! path with
  | Some content => if is_empty content then <[path := header_text]> fs else fs
  | None => <[path := header_text]> fs
  end.

(** [row.get(key, "")] *)
Definition row_get (row : gmap string (option string)) (key : string) : option string :=
  default (Some EmptyString) (row !! key).

(** [str(x)] of a [str] or of [None] *)
Definition str (x : option string) : string :=
  match x with Some s => s | None => "None" end.

(** [{_standardize_col_name(h): h for h in fieldnames}] *)
Definition build_field_map (fieldnames : list string) : gmap string string :=
  foldl (fun m h => <[_standardize_col_name h := h]> m) ∅ fieldnames.

Section Store.

Variable fromisoformat : string -> option datetime.

(** The body of the loop of [load_expenses]: the expense of the row, or
    nothing when the row is skipped. *)
Definition clean_row (field_map : gmap string string)
    (row : gmap string (option string)) : outcome (option Expense) :=
  let raw_date := row_get row (default EmptyString (field_map !! "date")) in
  let raw_amount := row_get row (default EmptyString (field_map !! "amount")) in
  let raw_category := row_get row (default EmptyString (field_map !! "category")) in
  let raw_desc := row_get row (default EmptyString (field_map !! "description")) in
  bind (_parse_date fromisoformat (str raw_date)) (fun date =>
  bind (_parse_amount (str raw_amount)) (fun amount =>
    let category := strip (str raw_category) in
    let description := strip (str raw_desc) in
    match date, amount with
    | Some d, Some a =>
        if is_empty d || is_empty category || is_empty description
        then Return None
        else Return (Some (mk_Expense d a category description))
    | _, _ => Return None
    end)).

Fixpoint clean_rows (field_map : gmap string string)
    (rows : list (gmap string (option string))) : outcome (list Expense) :=
  match rows with
  | [] => Return []
  | row :: rest =>
      bind (clean_row field_map row) (fun e =>
      bind (clean_rows field_map rest) (fun l =>
        Return (match e with Some x => x :: l | None => l end)))
  end.

(** What [load_expenses] returns for a file of the given content. *)
Definition load_text (text : string) : outcome (list Expense) :=
  bind (DictReader text) (fun '(fieldnames, rows) =>
    match fieldnames with
    | None | Some [] => Return []
    | Some names => clean_rows (build_field_map names) rows
    end).

Definition load_expenses (path : string) (fs : files)
  : files * outcome (list Expense) :=
  let fs' := ensure_csv_header path fs in
  (fs', load_text (default EmptyString (fs' !! path))).

End Store.

Definition expense_row (e : Expense) : list string :=
  [date e; format2 (amount e); category e; description e].

Definition save_text (expenses : list Expense) : string :=
  header_text ++ String.concat EmptyString (map (fun e => writerow (expense_row e)) expenses).

Definition save_expenses (expenses : list Expense) (path : string) (fs : files) : files :=
  <[path := save_text expenses]> fs.

(** What holds of every expense that [load_expenses] returns. *)
Definition kept_expense (e : Expense) : Prop :=
  (exists dt, date e = strftime dt)
  /\ category e <> ""
  /\ description e <> ""
  /\ SFltb (amount e) zero = false.

(** A valid expense of the data model: the date in canonical form, the
    amount above zero and rounded to two decimals, category and description
    non-empty and without surrounding white space. *)
Definition valid_expense (e : Expense) : Prop :=
  canonical_date (date e)
  /\ gt_zero (amount e) = true
  /\ round2 (amount e) = amount e
  /\ category e <> ""
  /\ strip (category e) = category e
  /\ description e <> ""
  /\ strip (description e) = description e.

(** A cell the CSV reader takes back: of [field_limit] characters at most. *)
Definition fits (s : string) : Prop := len s <= field_limit.

(** An expense that is stored and read back as it is: valid, of the year
    1000 or later, and with no cell above the limit of the reader. *)
Definition storable (e : Expense) : Prop :=
  valid_expense e /\ four_digit_year (date e) /\ Forall fits (expense_row e).

(** ** [export_clean_copy] *)

Section CleanCopy.

Variable fromisoformat : string -> option datetime.

(** [source.parent / "expenses_clean.csv"]: the path arithmetic of the
    library, taken as it is. *)
Variable clean_sibling : string -> string.

(** The files afterwards and the path returned. *)
Definition export_clean_copy (source : string) (target : option string) (fs : files)
  : files * outcome string :=
  let target :=
    match target with
    | None => clean_sibling source
    | Some t => t
    end in
  let '(fs1, loaded) := load_expenses fromisoformat source fs in
  match loaded with
  | Return expenses => (save_expenses expenses target fs1, Return target)
  | Raise e => (fs1, Raise e)
  end.

End CleanCopy.

(** ** The writer of [add_expense.py] *)

Module AddExpense.

Definition DATA_FILE : string := "data/expenses.csv".

Definition header_row : list string := ["Date"; "Amount"; "Category"; "Description"].

Definition ensure_csv_header (path : string) (fs : files) : files :=
  match fs !! path with
  | Some content => if is_empty content then <[path := writerow header_row]> fs else fs
  | None => <[path := writerow header_row]> fs
  end.

(** The file is opened for appending: one row is written after what the
    file holds.  (It is written in the encoding of the locale, taken to be
    the UTF-8 in which [utils.py] reads.) *)
Definition add_expense (date : string) (amount : float) (category description : string)
    (fs : files) : files :=
  let fs1 := ensure_csv_header DATA_FILE fs in
  <[DATA_FILE := default EmptyString (fs1 !! DATA_FILE)
                 ++ writerow [date; format2 amount; category; description]]> fs1.

(** Several expenses added one after the other. *)
Definition add_expenses (es : list Expense) (fs : files) : files :=
  foldl (fun fs e => add_expense (date e) (amount e) (category e) (description e) fs) fs es.

(** *** The prompts

    [input()] takes the next line the user types, without its line end;
    at the end of the input it raises [EOFError], which nothing in the
    program catches.  The lines to come are passed along; what is printed
    is not modelled. *)
Inductive reply (A : Type) :=
| Got (a : A) (rest : list string)
| Invalid (rest : list string)
| EndOfInput.
Arguments Got {A} a rest.
Arguments Invalid {A} rest.
Arguments EndOfInput {A}.

(** [today] is [datetime.today()].  A date that does not parse is asked
    for again. *)
Fixpoint prompt_date (today : datetime) (lines : list string) : reply string :=
  match lines with
  | [] => EndOfInput
  | line :: rest =>
      let raw := strip line in
      if is_empty raw then Got (strftime today) rest
      else
        match strptime raw fmt_ymd with
        | Return _ => Got raw rest
        | Raise _ => prompt_date today rest
        end
  end.

(** The conversion returns from inside the [try]; after a failed
    conversion the text is converted once more. *)
Definition prompt_amount (lines : list string) : reply float :=
  match lines with
  | [] => EndOfInput
  | line :: rest =>
      let raw := strip line in
      match py_float raw with
      | Return x => Got x rest
      | Raise _ =>
          match py_float raw with
          | Return x => if le_zero x then Invalid rest else Got (round2 x) rest
          | Raise _ => Invalid rest
          end
      end
  end.

Definition prompt_category (lines : list string) : reply string :=
  match lines with
  | [] => EndOfInput
  | line :: rest =>
      let raw := strip line in
      if is_empty raw then Invalid rest else Got raw rest
  end.

Definition prompt_description (lines : list string) : reply string :=
  match lines with
  | [] => EndOfInput
  | line :: rest =>
      let desc := strip line in
      if is_empty desc then Invalid rest else Got desc rest
  end.

(** How [main] ends: the expense was added, a [ValueError] was caught and
    reported, or the input ended and [EOFError] left the program. *)
Inductive status := Added | Rejected | Crashed.

Definition ask {A} (r : reply A) (fs : files) (k : A -> list string -> files * status)
  : files * status :=
  match r with
  | Got a rest => k a rest
  | Invalid _ => (fs, Rejected)
  | EndOfInput => (fs, Crashed)
  end.

Definition main (today : datetime) (lines : list string) (fs : files) : files * status :=
  ask (prompt_date today lines) fs (fun date l1 =>
  ask (prompt_amount l1) fs (fun amount l2 =>
  ask (prompt_category l2) fs (fun category l3 =>
  ask (prompt_description l3) fs (fun description _ =>
    (add_expense date amount category description fs, Added))))).

End AddExpense.

(** * Properties *)

(** ** Exceptions of the conversions *)

Lemma make_date_cases y m d :
  (valid_ymd y m d = false /\ make_date y m d = Raise ValueError)
  \/ (exists H : valid_ymd y m d = true, make_date y m d = Return (mk_datetime y m d H)).
Proof.
  unfold make_date.
  destruct (Sumbool.sumbool_of_bool (valid_ymd y m d)) as [H|H]; eauto.
Qed.

Lemma strptime_cases s fmt :
  strptime s fmt = Raise ValueError \/ exists dt, strptime s fmt = Return dt.
Proof.
  unfold strptime.
  destruct (regex_match fmt s (1900, 1, 1)) as [[[[y m] d] [|c r]]|]; auto.
  destruct (make_date_cases y m d) as [[_ ->]|[H ->]]; eauto.
Qed.

Lemma float_from_string_inner_cases s :
  float_from_string_inner s = Raise ValueError
  \/ exists x, float_from_string_inner s = Return x.
Proof.
  unfold float_from_string_inner.
  destruct (is_empty _); auto.
  destruct (ascii_strtod _) as [[x [|c r]]|]; eauto.
Qed.

Lemma py_float_cases s :
  py_float s = Raise ValueError \/ exists x, py_float s = Return x.
Proof.
  unfold py_float, string_to_number_with_underscores.
  destruct (contains _ _); [destruct (drop_underscores _ _)|];
    auto using float_from_string_inner_cases.
Qed.

Lemma try_formats_returns fmts v otherwise :
  (exists r, otherwise = Return r) ->
  exists r, try_formats fmts v otherwise = Return r.
Proof.
  intros Ho. induction fmts as [|fmt rest IH]; simpl; auto.
  destruct (strptime_cases v fmt) as [->|[dt ->]]; simpl; eauto.
Qed.

(** ** C3: the field parsers are total *)

(** C3. For every input text the amount parser and the date parser return
    (a value or "no value"); no exception reaches the caller, and equal
    inputs give equal results. *)
Theorem parsers_total_deterministic (iso : string -> option datetime) (s : string) :
  (exists r : option float, _parse_amount s = Return r)
  /\ (exists r : option string, _parse_date iso s = Return r)
  /\ (forall s' : string, s' = s ->
        _parse_amount s' = _parse_amount s /\ _parse_date iso s' = _parse_date iso s).
Proof.
  split; [|split].
  - unfold _parse_amount.
    destruct (is_empty _); eauto.
    destruct (py_float_cases (remove_char "," (remove_char "$" (strip s))))
      as [->|[x ->]]; simpl; eauto.
    destruct (le_zero x); eauto.
  - unfold _parse_date.
    destruct (is_empty _); eauto.
    apply try_formats_returns.
    destruct (iso _); simpl; eauto.
  - intros s' ->. split; reflexivity.
Qed.

(** ** Amounts above zero *)

Lemma gt_zero_not_le_zero x : gt_zero x = true -> le_zero x = false.
Proof. destruct x as [[]|[]| |[] m e]; simpl; auto; discriminate. Qed.

(** ** C5: the date parser *)

Lemma first_some_Some {A B} (f : A -> option B) (l : list A) (b : B) :
  first_some f l = Some b -> exists a, In a l /\ f a = Some b.
Proof.
  induction l as [|a l IH]; simpl; [discriminate|].
  destruct (f a) eqn:E.
  - intros [= <-]. eauto.
  - intros H. destruct (IH H) as (a' & ? & ?). eauto.
Qed.

Lemma alts_d_rest s v r :
  In (v, r) (alts_d s) ->
  (exists a, s = String a r) \/ (exists a b, s = String a (String b r)).
Proof.
  unfold alts_d, alt2. destruct s as [|a [|b r0]]; simpl;
    repeat (case_match; simpl); intuition; simplify_eq; eauto.
Qed.

Lemma alts_Y_digits s v r :
  In (v, r) (alts_Y s) ->
  exists a b c d, s = String a (String b (String c (String d r)))
    /\ isdigit a = true /\ isdigit b = true /\ isdigit c = true /\ isdigit d = true.
Proof.
  unfold alts_Y. destruct s as [|a [|b [|c [|d r0]]]]; simpl; try tauto.
  destruct (isdigit a) eqn:?, (isdigit b) eqn:?, (isdigit c) eqn:?, (isdigit d) eqn:?;
    simpl; try tauto.
  intros [[= <- <-]|[]]. eauto 10.
Qed.

(** A text of the form [D/...] or [DD/...] does not start with a year. *)
Lemma dmy_excludes_ymd s dt :
  strptime s fmt_dmy = Return dt -> strptime s fmt_ymd = Raise ValueError.
Proof.
  intros Hd.
  assert (Hs : (exists a r, s = String a (String "/" r))
               \/ (exists a b r, s = String a (String b (String "/" r)))).
  { unfold strptime in Hd.
    destruct (regex_match fmt_dmy s (1900, 1, 1)) as [x|] eqn:E; [|discriminate].
    simpl in E. apply first_some_Some in E as ([v r] & Hin & Hr).
    destruct r as [|c r]; [discriminate|].
    destruct (Ascii.eqb_spec c "/") as [->|]; [|discriminate].
    apply alts_d_rest in Hin as [(a & ->)|(a & b & ->)]; eauto. }
  unfold strptime.
  destruct (regex_match fmt_ymd s (1900, 1, 1)) as [x|] eqn:E; [|reflexivity].
  exfalso. simpl in E. apply first_some_Some in E as ([v r] & Hin & _).
  apply alts_Y_digits in Hin as (a & b & c & d & -> & Ha & Hb & Hc & Hd').
  destruct Hs as [(? & ? & ?)|(? & ? & ? & ?)]; simplify_eq;
    vm_compute in Hb, Hc; discriminate.
Qed.

Lemma digits_fuel_last (f : nat) (n : Z) (tl : string) :
  n < 10 -> digits_fuel f n tl = String (digit_char n) tl.
Proof.
  intros Hn. destruct f as [|f]; [reflexivity|].
  change (digits_fuel (S f) n tl)
    with (if n <? 10 then String (digit_char n) tl
          else digits_fuel f (n / 10) (String (digit_char n) tl)).
  destruct (Z.ltb_spec n 10); [reflexivity | lia].
Qed.

Lemma digits_fuel_step (f : nat) (n : Z) (tl : string) :
  10 <= n -> digits_fuel (S f) n tl = digits_fuel f (n / 10) (String (digit_char n) tl).
Proof.
  intros Hn.
  change (digits_fuel (S f) n tl)
    with (if n <? 10 then String (digit_char n) tl
          else digits_fuel f (n / 10) (String (digit_char n) tl)).
  destruct (Z.ltb_spec n 10); [lia | reflexivity].
Qed.

(** From the year 1000 on the year is printed with its four digits. *)
Lemma year_text_pad4 (y : Z) : 1000 <= y <= 9999 -> year_text y = pad4 y.
Proof.
  intros Hy. unfold year_text, digits_onto.
  pose proof (Z.log2_le_mono 1000 y ltac:(lia)) as Hlog.
  change (Z.log2 1000) with 9 in Hlog.
  destruct (Z.to_nat (Z.log2 y)) as [|[|[|f]]] eqn:Ef; try lia.
  assert (H1 : 100 <= y / 10) by (apply Z.div_le_lower_bound; lia).
  assert (H2 : 10 <= y / 10 / 10) by (apply Z.div_le_lower_bound; lia).
  assert (H3 : y / 10 / 10 / 10 < 10).
  { rewrite !Z.div_div by lia. apply Z.div_lt_upper_bound; lia. }
  rewrite !digits_fuel_step by lia. rewrite digits_fuel_last by exact H3.
  unfold pad4, pad2. rewrite !Z.div_div by lia. reflexivity.
Qed.

Lemma strftime_four_digit dt : 1000 <= year dt -> four_digit_year (strftime dt).
Proof.
  destruct dt as [y m d H]. cbn [year]. intros Hy.
  exists y, m, d. split; [exact H|]. split; [exact Hy|].
  unfold strftime. cbn [year month day].
  rewrite year_text_pad4; [reflexivity|].
  pose proof H as Hb. unfold valid_ymd in Hb.
  repeat (apply andb_prop in Hb as [Hb ?]). lia.
Qed.

Lemma four_digit_canonical (s : string) : four_digit_year s -> canonical_date s.
Proof. intros (y & m & d & Hv & _ & Hs). exists y, m, d. auto. Qed.

Lemma strftime_canonical dt : 1000 <= year dt -> canonical_date (strftime dt).
Proof. intros H. apply four_digit_canonical, strftime_four_digit, H. Qed.

Lemma canonical_date_length (s : string) : canonical_date s -> String.length s = 10%nat.
Proof. intros (y & m & d & _ & ->). reflexivity. Qed.

Lemma try_formats_strftime fmts v otherwise d :
  (otherwise = Return (Some d) -> exists dt, d = strftime dt) ->
  try_formats fmts v otherwise = Return (Some d) -> exists dt, d = strftime dt.
Proof.
  intros Ho. induction fmts as [|fmt rest IH]; simpl; auto.
  destruct (strptime_cases v fmt) as [->|[dt ->]]; simpl; auto.
  intros [= <-]. eauto.
Qed.

Lemma strptime_empty fmt dt :
  In fmt [fmt_ymd; fmt_dmy; fmt_mdy] -> strptime "" fmt <> Return dt.
Proof. simpl. intros [<-|[<-|[<-|[]]]]; discriminate. Qed.

(** Every date the parser returns was printed by [strftime]. *)
Lemma parse_date_result_strftime (iso : string -> option datetime) (v d : string) :
  _parse_date iso v = Return (Some d) -> exists dt, d = strftime dt.
Proof.
  unfold _parse_date.
  destruct (is_empty (strip v)); [discriminate|].
  apply try_formats_strftime.
  destruct (iso _) as [dt|]; simpl; [|discriminate].
  intros [= <-]. eauto.
Qed.

(** C5. The date parser tries [YYYY-MM-DD], [DD/MM/YYYY], [MM/DD/YYYY] in
    this order on the stripped text and the first format that parses gives
    the result; a text that parses as [DD/MM/YYYY] and as [MM/DD/YYYY] is
    read as [DD/MM/YYYY]; ["03/04/2024"] gives ["2024-04-03"].  The result
    is what [strftime] prints: the canonical form [YYYY-MM-DD] from the year
    1000 on, but not always: ["0999-01-01"] is returned as ["999-01-01"],
    which is not canonical. *)
Theorem parse_date_format_order (iso : string -> option datetime) :
  (forall v dt,
     strptime (strip v) fmt_ymd = Return dt ->
     _parse_date iso v = Return (Some (strftime dt)))
  /\ (forall v dt,
        strptime (strip v) fmt_ymd = Raise ValueError ->
        strptime (strip v) fmt_dmy = Return dt ->
        _parse_date iso v = Return (Some (strftime dt)))
  /\ (forall v dt,
        strptime (strip v) fmt_ymd = Raise ValueError ->
        strptime (strip v) fmt_dmy = Raise ValueError ->
        strptime (strip v) fmt_mdy = Return dt ->
        _parse_date iso v = Return (Some (strftime dt)))
  /\ (forall v dmy mdy,
        strptime (strip v) fmt_dmy = Return dmy ->
        strptime (strip v) fmt_mdy = Return mdy ->
        _parse_date iso v = Return (Some (strftime dmy)))
  /\ _parse_date iso "03/04/2024" = Return (Some "2024-04-03")
  /\ (forall v d, _parse_date iso v = Return (Some d) ->
        exists dt, d = strftime dt /\ (1000 <= year dt -> canonical_date d))
  /\ _parse_date iso "0999-01-01" = Return (Some "999-01-01")
  /\ ~ canonical_date "999-01-01".
Proof.
  assert (Hne : forall v fmt dt, In fmt [fmt_ymd; fmt_dmy; fmt_mdy] ->
                  strptime (strip v) fmt = Return dt -> is_empty (strip v) = false).
  { intros v fmt dt Hin H. destruct (strip v); [|reflexivity].
    exfalso. exact (strptime_empty fmt dt Hin H). }
  assert (H1 : forall v dt,
        strptime (strip v) fmt_ymd = Return dt ->
        _parse_date iso v = Return (Some (strftime dt))).
  { intros v dt H. unfold _parse_date.
    rewrite (Hne v fmt_ymd dt) by (simpl; auto). simpl. rewrite H. reflexivity. }
  assert (H2 : forall v dt,
        strptime (strip v) fmt_ymd = Raise ValueError ->
        strptime (strip v) fmt_dmy = Return dt ->
        _parse_date iso v = Return (Some (strftime dt))).
  { intros v dt Hy H2. unfold _parse_date.
    rewrite (Hne v fmt_dmy dt) by (simpl; auto). simpl. rewrite Hy, H2. reflexivity. }
  split; [exact H1|]. split; [exact H2|]. split; [|split; [|split; [|split; [|split]]]].
  - intros v dt Hy H2' H3. unfold _parse_date.
    rewrite (Hne v fmt_mdy dt) by (simpl; auto). simpl. rewrite Hy, H2', H3. reflexivity.
  - intros v dmy mdy Hd _. apply H2; [|exact Hd].
    exact (dmy_excludes_ymd _ _ Hd).
  - change (_parse_date iso "03/04/2024"
            = Return (Some (strftime (mk_datetime 2024 4 3 eq_refl)))).
    apply H2; vm_compute; reflexivity.
  - intros v d Hd. destruct (parse_date_result_strftime iso v d Hd) as [dt ->].
    exists dt. split; [reflexivity | apply strftime_canonical].
  - change (_parse_date iso "0999-01-01"
            = Return (Some (strftime (mk_datetime 999 1 1 eq_refl)))).
    apply H1. vm_compute. reflexivity.
  - intros H. apply canonical_date_length in H. discriminate H.
Qed.

Lemma parse_date_format_order_witness :
  _parse_date (fun _ => None) " 5/6/2024 "
  = Return (Some (strftime (mk_datetime 2024 6 5 eq_refl))).
Proof.
  apply (proj1 (proj2 (proj2 (proj2 (parse_date_format_order (fun _ => None)))))
           " 5/6/2024 " (mk_datetime 2024 6 5 eq_refl) (mk_datetime 2024 5 6 eq_refl)).
  - vm_compute. reflexivity.
  - vm_compute. reflexivity.
Defined.

(** ** C8: unrecognised headers *)

(** C8, as stated, fails: ["Foo"] is not in the synonym table and is not
    returned unchanged. *)
Lemma standardize_unlisted_not_identity :
  ~ (forall h : string, mapping !! h = None -> _standardize_col_name h = h).
Proof.
  intros H. specialize (H "Foo").
  assert (E : _standardize_col_name "Foo" = "foo") by (vm_compute; reflexivity).
  rewrite E in H. discriminate H. vm_compute. reflexivity.
Qed.

(** C8, amended. A header whose stripped, lower-cased form is not in the
    synonym table is mapped to that stripped, lower-cased form. *)
Theorem standardize_unlisted (h : string) :
  mapping !! lower (strip h) = None ->
  _standardize_col_name h = lower (strip h).
Proof. intros H. unfold _standardize_col_name. rewrite H. reflexivity. Qed.

Lemma standardize_unlisted_witness : _standardize_col_name " Foo " = "foo".
Proof. apply (standardize_unlisted " Foo "). vm_compute. reflexivity. Defined.

(** ** C9: loading a missing or empty file *)

Lemma header_text_eq :
  header_text = "date,amount,category,description" ++ String CR (String LF "").
Proof. reflexivity. Qed.

Lemma load_header_only iso : load_text iso header_text = Return [].
Proof. reflexivity. Qed.

(** C9. When the file at [path] is missing or empty, [load_expenses] writes
    the header row [date,amount,category,description] to it and returns no
    expense; loading again returns no expense and leaves the files as they
    are; and the header step never changes a file that has content. *)
Theorem load_missing_file_creates_header (iso : string -> option datetime)
    (path : string) (fs : files) :
  fs !! path = None \/ fs !! path = Some "" ->
  let fs1 := (load_expenses iso path fs).1 in
  fs1 = <[path := "date,amount,category,description" ++ String CR (String LF "")]> fs
  /\ (load_expenses iso path fs).2 = Return []
  /\ load_expenses iso path fs1 = (fs1, Return [])
  /\ (forall (fs' : files) (content : string),
        fs' !! path = Some content -> content <> "" ->
        ensure_csv_header path fs' = fs').
Proof.
  intros H fs1.
  assert (E1 : ensure_csv_header path fs = <[path := header_text]> fs).
  { unfold ensure_csv_header. destruct H as [-> | ->]; reflexivity. }
  assert (E2 : ensure_csv_header path (<[path := header_text]> fs)
               = <[path := header_text]> fs).
  { unfold ensure_csv_header. rewrite lookup_insert_eq. reflexivity. }
  subst fs1. unfold load_expenses. cbn [fst snd]. rewrite E1, E2.
  rewrite lookup_insert_eq. cbn [default].
  rewrite load_header_only. repeat split.
  intros fs' content Hc Hne. unfold ensure_csv_header. rewrite Hc.
  destruct content; [congruence | reflexivity].
Qed.

Lemma load_missing_file_creates_header_witness :
  (load_expenses (fun _ => None) "data/expenses.csv" ∅).2 = Return [].
Proof.
  apply (load_missing_file_creates_header (fun _ => None) "data/expenses.csv" ∅).
  left. apply lookup_empty.
Defined.

(** ** C2: what a loaded amount can be *)

Lemma parse_amount_result (s : string) (a : float) :
  _parse_amount s = Return (Some a) ->
  exists x, le_zero x = false /\ a = round2 x.
Proof.
  unfold _parse_amount. destruct (is_empty _); [discriminate|].
  destruct (py_float_cases (remove_char "," (remove_char "$" (strip s))))
    as [->|[x ->]]; [discriminate|].
  cbn [bind try_except]. destruct (le_zero x) eqn:E; [discriminate|].
  intros [= <-]. eauto.
Qed.

Lemma nearest_double_not_negative (q : Q) :
  SFltb (nearest_double false q) zero = false.
Proof.
  unfold nearest_double. destruct (Qnum (Qred q)); try reflexivity.
  unfold round_ratio. destruct (SFdiv_core_binary _ _ _ _ _ _) as [[mz ez] lz].
  unfold binary_round_aux.
  destruct (shr_fexp _ _ _ _ _) as [mrs e'].
  destruct (shr_fexp _ _ _ _ _) as [mrs' e''].
  destruct (shr_m mrs'); try reflexivity.
  destruct (e'' <=? emax - prec); reflexivity.
Qed.

(** What does hold of a loaded amount: it is the rounding of a number
    above zero (or of a NaN), and it is never below zero. *)
Lemma round2_not_negative (x : float) :
  le_zero x = false -> SFltb (round2 x) zero = false.
Proof.
  destruct x as [[]|[]| |[] m e]; try discriminate; try reflexivity.
  intros _. apply nearest_double_not_negative.
Qed.

(** Every row that is kept has a date printed by [strftime], a non-empty
    stripped category and description, and an amount that is not below
    zero. *)
Lemma clean_row_kept (iso : string -> option datetime)
    (fm : gmap string string) (row : gmap string (option string)) (e : Expense) :
  clean_row iso fm row = Return (Some e) -> kept_expense e.
Proof.
  unfold clean_row, kept_expense.
  destruct (_parse_date iso _) as [[d|]|] eqn:Ed; cbn [bind]; try discriminate;
    destruct (_parse_amount _) as [[a|]|] eqn:Ea; cbn [bind]; try discriminate.
  destruct (is_empty d) eqn:E1; [discriminate|].
  destruct (strip (str (row_get row (default "" (fm !! "category"))))) as [|c1 r1] eqn:Ec;
    [discriminate|].
  destruct (strip (str (row_get row (default "" (fm !! "description"))))) as [|c2 r2] eqn:Eds;
    [discriminate|].
  cbn [is_empty orb]. intros [= <-]. cbn [date amount category description].
  destruct (parse_amount_result _ _ Ea) as (x & Hx & ->).
  repeat split; try discriminate.
  - exact (parse_date_result_strftime iso _ _ Ed).
  - apply round2_not_negative, Hx.
Qed.

Lemma clean_rows_kept (iso : string -> option datetime) (fm : gmap string string)
    (rows : list (gmap string (option string))) :
  forall l, clean_rows iso fm rows = Return l -> Forall kept_expense l.
Proof.
  induction rows as [|row rows IH]; intros l; cbn [clean_rows].
  - intros [= <-]. constructor.
  - destruct (clean_row iso fm row) as [oe|] eqn:Er; cbn [bind]; [|discriminate].
    destruct (clean_rows iso fm rows) as [l'|] eqn:El; cbn [bind]; [|discriminate].
    intros [= <-]. specialize (IH l' eq_refl).
    destruct oe as [e|]; [|exact IH].
    constructor; [exact (clean_row_kept iso fm row e Er) | exact IH].
Qed.

(** The part of the load invariant that the code keeps. *)
Lemma load_text_kept (iso : string -> option datetime) (text : string) (l : list Expense) :
  load_text iso text = Return l -> Forall kept_expense l.
Proof.
  unfold load_text. destruct (DictReader text) as [[[names|] rows]|]; cbn [bind];
    try discriminate.
  - destruct names; [intros [= <-]; constructor | apply clean_rows_kept].
  - intros [= <-]. constructor.
Qed.

(** C2 fails on the code: a positive amount below half a cent passes the
    test [amt <= 0] and is then rounded to zero, and ["nan"] passes it too. *)
Theorem load_keeps_zero_amount (iso : string -> option datetime) :
  load_text iso
    ("date,amount,category,description" ++ String LF
       ("2024-01-01,0.001,food,lunch" ++ String LF
          ("2024-01-02,nan,food,dinner" ++ String LF "")))
  = Return [mk_Expense "2024-01-01" (S754_zero false) "food" "lunch";
            mk_Expense "2024-01-02" S754_nan "food" "dinner"]
  /\ gt_zero (S754_zero false) = false
  /\ gt_zero S754_nan = false.
Proof. repeat split. Qed.

(** ** The dictionaries built from a header row *)

Lemma dict_row_fill_from (d : gmap string (option string)) (names row : list string) :
  foldl (fun d k => <[k := None]> d)
        (foldl (fun d kv => <[kv.1 := Some kv.2]> d) d (zip names row))
        (drop (length row) names)
  = dict_fill d names row.
Proof.
  revert d row. induction names as [|n ns IH]; intros d row.
  - destruct row; reflexivity.
  - destruct row as [|v vs]; simpl.
    + rewrite <- (IH _ []). destruct ns; reflexivity.
    + apply IH.
Qed.

Lemma dict_row_fill names row : dict_row names row = dict_fill ∅ names row.
Proof. apply dict_row_fill_from. Qed.

Lemma dict_fill_notin (d : gmap string (option string)) names row (k : string) :
  k ∉ names -> dict_fill d names row !! k = d !! k.
Proof.
  revert d row. induction names as [|n ns IH]; intros d row Hk; [reflexivity|].
  apply not_elem_of_cons in Hk as [Hn Hk]. simpl.
  rewrite IH by exact Hk. apply lookup_insert_ne. congruence.
Qed.

(** The value under a name is the cell of the last column of that name, or
    [None] when the row is too short to have that cell. *)
Lemma dict_fill_last (d : gmap string (option string)) (names row : list string)
    (j : nat) (k : string) :
  names !! j = Some k ->
  (forall j', (j < j')%nat -> names !! j' <> Some k) ->
  dict_fill d names row !! k = Some (row !! j).
Proof.
  revert d row j. induction names as [|n ns IH]; intros d row j Hj Hlast; [discriminate|].
  destruct j as [|j]; simpl in *.
  - injection Hj as ->.
    rewrite dict_fill_notin.
    + rewrite lookup_insert_eq. destruct row; reflexivity.
    + intros Hin. apply list_elem_of_lookup in Hin as [i Hi].
      apply (Hlast (S i)); [lia | exact Hi].
  - rewrite (IH _ _ j Hj).
    + destruct row; reflexivity.
    + intros j' Hlt. apply (Hlast (S j')). lia.
Qed.

Lemma last_index_exists (names : list string) (k : string) :
  k ∈ names ->
  exists p, names !! p = Some k /\ forall p', (p < p')%nat -> names !! p' <> Some k.
Proof.
  induction names as [|n ns IH]; intros Hin; [inversion Hin|].
  destruct (decide (k ∈ ns)) as [Hns|Hns].
  - destruct (IH Hns) as (p & Hp & Hlast). exists (S p). split; [exact Hp|].
    intros [|p'] Hlt; [lia|]. apply Hlast. lia.
  - apply elem_of_cons in Hin as [->|Hin]; [|contradiction].
    exists 0%nat. split; [reflexivity|].
    intros [|p'] Hlt Hp; [lia|]. apply Hns. apply list_elem_of_lookup. eauto.
Qed.

Lemma row_get_last names row (j : nat) (k : string) :
  names !! j = Some k ->
  (forall j', (j < j')%nat -> names !! j' <> Some k) ->
  row_get (dict_row names row) k = row !! j.
Proof.
  intros Hj Hlast. unfold row_get.
  rewrite dict_row_fill, (dict_fill_last _ _ _ j k Hj Hlast). reflexivity.
Qed.

(** Changing a cell that is not the last one of its name is not seen. *)
Lemma row_get_insert_hidden names row (i : nat) (v k : string) :
  (names !! i = Some k -> exists p, (i < p)%nat /\ names !! p = Some k) ->
  row_get (dict_row names (<[i := v]> row)) k = row_get (dict_row names row) k.
Proof.
  intros Hi. destruct (decide (k ∈ names)) as [Hin|Hin].
  - destruct (last_index_exists _ _ Hin) as (p & Hp & Hlast).
    rewrite !(row_get_last _ _ p k Hp Hlast).
    apply list_lookup_insert_ne. intros ->.
    destruct (Hi Hp) as (p' & Hlt & Hp'). exact (Hlast p' Hlt Hp').
  - unfold row_get. rewrite !dict_row_fill, !dict_fill_notin by exact Hin. reflexivity.
Qed.

Lemma field_map_from_notin (d : gmap string string) (names : list string) (c : string) :
  (forall h, h ∈ names -> _standardize_col_name h <> c) ->
  foldl (fun m h => <[_standardize_col_name h := h]> m) d names !! c = d !! c.
Proof.
  revert d. induction names as [|n ns IH]; intros d Hc; [reflexivity|]. cbn [foldl].
  rewrite IH.
  - apply lookup_insert_ne. apply Hc. left.
  - intros h Hh. apply Hc. right. exact Hh.
Qed.

Lemma field_map_from_last (d : gmap string string) (names : list string)
    (j : nat) (h : string) :
  names !! j = Some h ->
  (forall j' h', (j < j')%nat -> names !! j' = Some h' ->
     _standardize_col_name h' <> _standardize_col_name h) ->
  foldl (fun m h => <[_standardize_col_name h := h]> m) d names
    !! _standardize_col_name h = Some h.
Proof.
  revert d j. induction names as [|n ns IH]; intros d j Hj Hlast; [discriminate|].
  destruct j as [|j]; cbn [foldl].
  - injection Hj as ->. rewrite field_map_from_notin.
    + apply lookup_insert_eq.
    + intros h' Hin. apply list_elem_of_lookup in Hin as [i Hi].
      apply (Hlast (S i)); [lia | exact Hi].
  - apply (IH _ j Hj). intros j' h' Hlt. apply (Hlast (S j')). lia.
Qed.

Lemma field_map_from_value (d : gmap string string) (names : list string) (c h : string) :
  (forall c' h', d !! c' = Some h' -> _standardize_col_name h' = c') ->
  foldl (fun m h => <[_standardize_col_name h := h]> m) d names !! c = Some h ->
  _standardize_col_name h = c.
Proof.
  revert d. induction names as [|n ns IH]; intros d Hd; cbn [foldl]; [apply Hd|].
  apply IH. intros c' h'. rewrite lookup_insert.
  case_decide; [intros [= <-]; congruence | apply Hd].
Qed.

Lemma field_map_value (names : list string) (c h : string) :
  build_field_map names !! c = Some h -> _standardize_col_name h = c.
Proof. apply field_map_from_value. intros c' h'. rewrite lookup_empty. discriminate. Qed.

(** ** C7: two headers with the same canonical name *)

(** C7. When the headers of columns [i < j] normalise to the same canonical
    field and no later header does, the field map sends the field to the
    header of column [j], the text read for that header is the cell of
    column [j], and the cell of column [i] has no influence on the row's
    validation. *)
Theorem duplicate_target_last_wins (iso : string -> option datetime)
    (names : list string) (i j : nat) (h1 h2 c : string) :
  In c STANDARD_COLUMNS ->
  (i < j)%nat ->
  names !! i = Some h1 ->
  names !! j = Some h2 ->
  _standardize_col_name h1 = c ->
  _standardize_col_name h2 = c ->
  (forall k h, (j < k)%nat -> names !! k = Some h -> _standardize_col_name h <> c) ->
  build_field_map names !! c = Some h2
  /\ (forall row : list string, row_get (dict_row names row) h2 = row !! j)
  /\ (forall (row : list string) (v : string),
        clean_row iso (build_field_map names) (dict_row names (<[i := v]> row))
        = clean_row iso (build_field_map names) (dict_row names row)).
Proof.
  intros Hc Hij Hi Hj E1 E2 Hlast.
  assert (Hmap : build_field_map names !! c = Some h2).
  { rewrite <- E2. apply (field_map_from_last _ _ j); [exact Hj|].
    intros k h Hlt Hk. rewrite E2. exact (Hlast k h Hlt Hk). }
  assert (Hlast2 : forall j', (j < j')%nat -> names !! j' <> Some h2).
  { intros j' Hlt Hk. exact (Hlast j' h2 Hlt Hk E2). }
  split; [exact Hmap|]. split.
  - intros row. exact (row_get_last _ _ j h2 Hj Hlast2).
  - intros row v.
    assert (Hne : c <> "").
    { intros ->. simpl in Hc. intuition discriminate. }
    assert (Hkey : forall c',
              row_get (dict_row names (<[i := v]> row))
                      (default "" (build_field_map names !! c'))
              = row_get (dict_row names row) (default "" (build_field_map names !! c'))).
    { intros c'. apply row_get_insert_hidden. intros Hk.
      rewrite Hi in Hk. injection Hk as Hk.
      destruct (build_field_map names !! c') as [h'|] eqn:Ec'; simpl in Hk.
      - subst h'. apply field_map_value in Ec' as Ec''.
        rewrite E1 in Ec''. subst c'. rewrite Hmap in Ec'.
        injection Ec' as ->. simpl. eauto.
      - subst h1. exfalso. apply Hne. rewrite <- E1. vm_compute. reflexivity. }
    unfold clean_row. rewrite !Hkey. reflexivity.
Qed.

Lemma duplicate_target_last_wins_witness :
  build_field_map ["amount"; "date"; "Debit"; "note"] !! "amount" = Some "Debit".
Proof.
  apply (duplicate_target_last_wins (fun _ => None)
           ["amount"; "date"; "Debit"; "note"] 0 2 "amount" "Debit" "amount").
  - simpl. auto.
  - lia.
  - reflexivity.
  - reflexivity.
  - vm_compute. reflexivity.
  - vm_compute. reflexivity.
  - intros [|[|[|[|[|k]]]]] h Hlt Hk; try lia; try discriminate.
    injection Hk as <-. vm_compute. discriminate.
Defined.

(** ** C6: header synonyms *)

Lemma line_events_LF rest :
  line_events (String LF rest) = Some LF :: None :: line_events rest.
Proof. destruct rest; reflexivity. Qed.

Lemma line_events_CRLF rest :
  line_events (String CR (String LF rest)) = Some CR :: Some LF :: None :: line_events rest.
Proof. destruct rest; reflexivity. Qed.

(** Inside a line the characters are fed one by one. *)
Lemma line_events_plain (pre tail : string) :
  all_chars (fun c => negb (is_newline c)) pre = true ->
  tail <> "" ->
  line_events (pre ++ tail)
  = (map Some (list_ascii_of_string pre) ++ line_events tail)%list.
Proof.
  intros Hpre Htail. induction pre as [|c pre IH]; [reflexivity|].
  simpl in Hpre. apply andb_prop in Hpre as [Hc Hpre].
  change (String c pre ++ tail) with (String c (pre ++ tail)).
  cbn [line_events list_ascii_of_string map app]. rewrite <- (IH Hpre).
  unfold is_newline in Hc. apply negb_true_iff, orb_false_elim in Hc as [-> ->].
  destruct (pre ++ tail) eqn:E; [|reflexivity].
  destruct pre; [contradiction | discriminate].
Qed.

Lemma csv_reader_header_line (pre eol rest : string) (names : list string) :
  all_chars (fun c => negb (is_newline c)) pre = true ->
  eol = String LF "" \/ eol = String CR (String LF "") ->
  (forall evs,
     read_records reset
       (map Some (list_ascii_of_string pre) ++ Some LF :: None :: evs)%list
     = bind (read_records reset evs) (fun l => Return (names :: l))) ->
  (forall evs,
     read_records reset
       (map Some (list_ascii_of_string pre) ++ Some CR :: Some LF :: None :: evs)%list
     = bind (read_records reset evs) (fun l => Return (names :: l))) ->
  csv_reader (pre ++ eol ++ rest)
  = bind (csv_reader rest) (fun l => Return (names :: l)).
Proof.
  intros Hpre Heol H1 H2. unfold csv_reader.
  destruct Heol as [-> | ->].
  - change (String LF "" ++ rest) with (String LF rest).
    rewrite line_events_plain by (auto; discriminate).
    rewrite line_events_LF. apply H1.
  - change (String CR (String LF "") ++ rest) with (String CR (String LF rest)).
    rewrite line_events_plain by (auto; discriminate).
    rewrite line_events_CRLF. apply H2.
Qed.

Lemma last_index_of_4 (a b c d : string) (j : nat) (k : string) :
  NoDup [a; b; c; d] ->
  [a; b; c; d] !! j = Some k ->
  forall j', (j < j')%nat -> [a; b; c; d] !! j' <> Some k.
Proof.
  intros Hnd Hj j' Hlt Hj'.
  pose proof (NoDup_lookup _ _ _ _ Hnd Hj Hj'). lia.
Qed.

Lemma nodup_txn_header : NoDup ["Txn Date"; "Debit"; "Type"; "Merchant"].
Proof. apply (bool_decide_unpack _). vm_compute. exact I. Qed.

Lemma nodup_standard_header : NoDup STANDARD_COLUMNS.
Proof. apply (bool_decide_unpack _). vm_compute. exact I. Qed.

(** Under either header a row is validated from its first four cells. *)
Lemma clean_row_synonyms iso (row : list string) :
  clean_row iso (build_field_map ["Txn Date"; "Debit"; "Type"; "Merchant"])
            (dict_row ["Txn Date"; "Debit"; "Type"; "Merchant"] row)
  = clean_row iso (build_field_map STANDARD_COLUMNS) (dict_row STANDARD_COLUMNS row).
Proof.
  unfold clean_row.
  replace (build_field_map ["Txn Date"; "Debit"; "Type"; "Merchant"] !! "date")
    with (Some "Txn Date") by (vm_compute; reflexivity).
  replace (build_field_map ["Txn Date"; "Debit"; "Type"; "Merchant"] !! "amount")
    with (Some "Debit") by (vm_compute; reflexivity).
  replace (build_field_map ["Txn Date"; "Debit"; "Type"; "Merchant"] !! "category")
    with (Some "Type") by (vm_compute; reflexivity).
  replace (build_field_map ["Txn Date"; "Debit"; "Type"; "Merchant"] !! "description")
    with (Some "Merchant") by (vm_compute; reflexivity).
  replace (build_field_map STANDARD_COLUMNS !! "date")
    with (Some "date") by (vm_compute; reflexivity).
  replace (build_field_map STANDARD_COLUMNS !! "amount")
    with (Some "amount") by (vm_compute; reflexivity).
  replace (build_field_map STANDARD_COLUMNS !! "category")
    with (Some "category") by (vm_compute; reflexivity).
  replace (build_field_map STANDARD_COLUMNS !! "description")
    with (Some "description") by (vm_compute; reflexivity).
  cbn [default].
  rewrite (row_get_last _ row 0 "Txn Date"), (row_get_last _ row 1 "Debit"),
    (row_get_last _ row 2 "Type"), (row_get_last _ row 3 "Merchant"),
    (row_get_last _ row 0 "date"), (row_get_last _ row 1 "amount"),
    (row_get_last _ row 2 "category"), (row_get_last _ row 3 "description");
    first [reflexivity
          | apply last_index_of_4;
            [first [apply nodup_txn_header | apply nodup_standard_header] | reflexivity]].
Qed.

Lemma clean_rows_synonyms iso (rows : list (list string)) :
  clean_rows iso (build_field_map ["Txn Date"; "Debit"; "Type"; "Merchant"])
             (map (dict_row ["Txn Date"; "Debit"; "Type"; "Merchant"]) rows)
  = clean_rows iso (build_field_map STANDARD_COLUMNS)
               (map (dict_row STANDARD_COLUMNS) rows).
Proof.
  induction rows as [|row rows IH]; [reflexivity|].
  cbn [map clean_rows]. rewrite clean_row_synonyms, IH. reflexivity.
Qed.

Lemma load_text_header_synonyms (iso : string -> option datetime) (eol rest : string) :
  eol = String LF "" \/ eol = String CR (String LF "") ->
  load_text iso ("Txn Date,Debit,Type,Merchant" ++ eol ++ rest)
  = load_text iso ("date,amount,category,description" ++ eol ++ rest).
Proof.
  intros Heol. unfold load_text, DictReader.
  rewrite (csv_reader_header_line "Txn Date,Debit,Type,Merchant" eol rest
             ["Txn Date"; "Debit"; "Type"; "Merchant"]);
    [|reflexivity|exact Heol|reflexivity|reflexivity].
  rewrite (csv_reader_header_line "date,amount,category,description" eol rest
             STANDARD_COLUMNS);
    [|reflexivity|exact Heol|reflexivity|reflexivity].
  destruct (csv_reader rest) as [recs|e]; [|reflexivity].
  cbn [bind]. apply clean_rows_synonyms.
Qed.

(** C6. A file whose first line is [Txn Date,Debit,Type,Merchant] loads to
    the same expenses as a file whose first line is
    [date,amount,category,description] and whose text after that line is
    the same; neither file is changed by loading. *)
Theorem header_synonyms_load_identically (iso : string -> option datetime)
    (eol rest : string) (p1 p2 : string) (fs1 fs2 : files) :
  eol = String LF "" \/ eol = String CR (String LF "") ->
  fs1 !! p1 = Some ("Txn Date,Debit,Type,Merchant" ++ eol ++ rest) ->
  fs2 !! p2 = Some ("date,amount,category,description" ++ eol ++ rest) ->
  (load_expenses iso p1 fs1).2 = (load_expenses iso p2 fs2).2
  /\ (load_expenses iso p1 fs1).1 = fs1
  /\ (load_expenses iso p2 fs2).1 = fs2.
Proof.
  intros Heol H1 H2.
  assert (E1 : ensure_csv_header p1 fs1 = fs1)
    by (unfold ensure_csv_header; rewrite H1; reflexivity).
  assert (E2 : ensure_csv_header p2 fs2 = fs2)
    by (unfold ensure_csv_header; rewrite H2; reflexivity).
  unfold load_expenses. cbn [fst snd]. rewrite E1, E2, H1, H2. cbn [default id].
  split; [|split; reflexivity].
  apply load_text_header_synonyms, Heol.
Qed.

Lemma header_synonyms_load_identically_witness :
  (load_expenses (fun _ => None) "bank.csv"
     (<["bank.csv" := "Txn Date,Debit,Type,Merchant" ++ String LF ""
                        ++ "03/04/2024,$1,food,x"]> ∅)).2
  = (load_expenses (fun _ => None) "clean.csv"
       (<["clean.csv" := "date,amount,category,description" ++ String LF ""
                           ++ "03/04/2024,$1,food,x"]> ∅)).2.
Proof.
  apply (header_synonyms_load_identically (fun _ => None) (String LF "")
           "03/04/2024,$1,food,x" "bank.csv" "clean.csv").
  - left. reflexivity.
  - apply lookup_insert_eq.
  - apply lookup_insert_eq.
Defined.

(** ** Reading back what [writerow] wrote *)

Lemma append_assoc (a b c : string) : (a ++ b) ++ c = a ++ (b ++ c).
Proof.
  induction a as [|x a IH]; [reflexivity|].
  change (String x ((a ++ b) ++ c) = String x (a ++ (b ++ c))). f_equal. exact IH.
Qed.

Lemma append_empty_r (a : string) : a ++ "" = a.
Proof.
  induction a as [|x a IH]; [reflexivity|].
  change (String x (a ++ "") = String x a). f_equal. exact IH.
Qed.

Lemma append_nonempty_r (a : string) (c : ascii) (b : string) : a ++ String c b <> "".
Proof. destruct a; discriminate. Qed.

Lemma plain_char (c : ascii) :
  needs_quotes c = false ->
  is_newline c = false /\ Ascii.eqb c "," = false /\ Ascii.eqb c DQUOTE = false.
Proof.
  unfold needs_quotes, is_newline. intros H.
  destruct (Ascii.eqb c ","), (Ascii.eqb c DQUOTE), (Ascii.eqb c CR), (Ascii.eqb c LF);
    simpl in *; auto; discriminate.
Qed.

Lemma line_events_inner (c : ascii) (tail : string) :
  is_newline c = false -> tail <> "" ->
  line_events (String c tail) = Some c :: line_events tail.
Proof.
  intros Hc Ht. destruct tail as [|d tail]; [contradiction|].
  unfold is_newline in Hc. apply orb_false_elim in Hc as [H1 H2].
  cbn [line_events]. rewrite H1, H2. reflexivity.
Qed.

Lemma line_events_cons (c : ascii) (tail : string) :
  tail <> "" ->
  exists b : bool,
    line_events (String c tail)
    = Some c :: (if b then None :: line_events tail else line_events tail).
Proof.
  intros Ht. destruct tail as [|d tail]; [contradiction|].
  eexists. reflexivity.
Qed.

(** *** The length of a field *)

Lemma len_nonneg (s : string) : 0 <= len s.
Proof. unfold len. lia. Qed.

Lemma len_cons (c : ascii) (s : string) : len (String c s) = 1 + len s.
Proof. unfold len. cbn [String.length]. lia. Qed.

Lemma len_app (a b : string) : len (a ++ b) = len a + len b.
Proof.
  induction a as [|c a IH]; [reflexivity|].
  change (String c a ++ b) with (String c (a ++ b)). rewrite !len_cons, IH. lia.
Qed.

Lemma add_char_ok (c : ascii) (st : pstate) (fld : string) (flds : list string) :
  len fld < field_limit ->
  parse_add_char c (mk_reader st fld flds)
  = Return (mk_reader st (fld ++ String c "") flds).
Proof.
  intros H. unfold parse_add_char. cbn [field state fields].
  destruct (Z.leb_spec field_limit (len fld)); [lia | reflexivity].
Qed.

Lemma add_char_full (c : ascii) (st : pstate) (fld : string) (flds : list string) :
  field_limit <= len fld ->
  parse_add_char c (mk_reader st fld flds) = Raise CsvError.
Proof.
  intros H. unfold parse_add_char. cbn [field].
  destruct (Z.leb_spec field_limit (len fld)); [reflexivity | lia].
Qed.

(** An unquoted field is read character by character, as long as it stays
    within the limit. *)
Lemma read_in_field (f fld : string) (flds : list string) (tail : string) :
  all_chars (fun c => negb (needs_quotes c)) f = true ->
  tail <> "" ->
  len fld + len f <= field_limit ->
  read_records (mk_reader IN_FIELD fld flds) (line_events (f ++ tail))
  = read_records (mk_reader IN_FIELD (fld ++ f) flds) (line_events tail).
Proof.
  revert fld. induction f as [|c f IH]; intros fld Hf Ht Hlen.
  - rewrite append_empty_r. reflexivity.
  - simpl in Hf. apply andb_prop in Hf as [Hc Hf].
    apply negb_true_iff, plain_char in Hc as (Hn & Hd & Hq).
    rewrite len_cons in Hlen. pose proof (len_nonneg f).
    change (String c f ++ tail) with (String c (f ++ tail)).
    rewrite line_events_inner by (auto using append_nonempty_r; destruct f, tail; easy).
    cbn [read_records parse_process_char state bind]. rewrite Hn, Hd.
    rewrite add_char_ok by lia. cbn [bind].
    rewrite IH; [rewrite append_assoc; reflexivity|assumption..|].
    rewrite len_app, len_cons. change (len "") with 0. lia.
Qed.

(** Inside quotes every character is kept, a doubled quote as one quote,
    and the end of a line changes nothing. *)
Lemma read_in_quoted (f fld : string) (flds : list string) (tail : string) :
  tail <> "" ->
  len fld + len f <= field_limit ->
  read_records (mk_reader IN_QUOTED_FIELD fld flds) (line_events (double_quotes f ++ tail))
  = read_records (mk_reader IN_QUOTED_FIELD (fld ++ f) flds) (line_events tail).
Proof.
  revert fld. induction f as [|c f IH]; intros fld Ht Hlen.
  - rewrite append_empty_r. reflexivity.
  - assert (Hne : double_quotes f ++ tail <> "")
      by (destruct (double_quotes f), tail; easy).
    rewrite len_cons in Hlen. pose proof (len_nonneg f).
    assert (Hnext : len (fld ++ String c "") + len f <= field_limit).
    { rewrite len_app, len_cons. change (len "") with 0. lia. }
    cbn [double_quotes]. destruct (Ascii.eqb_spec c DQUOTE) as [->|Hq].
    + change (String DQUOTE (String DQUOTE (double_quotes f)) ++ tail)
        with (String DQUOTE (String DQUOTE (double_quotes f ++ tail))).
      rewrite line_events_inner by easy.
      rewrite line_events_inner by easy.
      cbn [read_records parse_process_char state bind Ascii.eqb Bool.eqb].
      unfold set_state. cbn [state field fields bind].
      cbn [read_records parse_process_char state bind Ascii.eqb Bool.eqb].
      rewrite add_char_ok by lia. cbn [bind].
      unfold set_state. cbn [state field fields bind].
      rewrite IH by assumption. rewrite append_assoc. reflexivity.
    + change (String c (double_quotes f) ++ tail)
        with (String c (double_quotes f ++ tail)).
      assert (Hstep : forall evs,
                 read_records (mk_reader IN_QUOTED_FIELD fld flds) (Some c :: evs)
                 = read_records (mk_reader IN_QUOTED_FIELD (fld ++ String c "") flds) evs).
      { intros evs. cbn [read_records parse_process_char state bind].
        apply Ascii.eqb_neq in Hq. rewrite Hq.
        rewrite add_char_ok by lia. reflexivity. }
      destruct (line_events_cons c _ Hne) as [[] ->]; rewrite Hstep.
      * cbn [read_records parse_process_char state bind at_record_start].
        rewrite IH by assumption. rewrite append_assoc. reflexivity.
      * rewrite IH by assumption. rewrite append_assoc. reflexivity.
Qed.

Lemma has_special_false (f : string) :
  has_special f = false -> all_chars (fun c => negb (needs_quotes c)) f = true.
Proof. unfold has_special. apply negb_false_iff. Qed.

Lemma field_limit_pos : 0 < field_limit.
Proof. reflexivity. Qed.

(** The first character of an unquoted field. *)
Lemma read_first_char (c : ascii) (st : pstate) (flds : list string) (evs : list event) :
  st = START_RECORD \/ st = START_FIELD ->
  needs_quotes c = false ->
  read_records (mk_reader st "" flds) (Some c :: evs)
  = read_records (mk_reader IN_FIELD (String c "") flds) evs.
Proof.
  intros Hst Hc. apply plain_char in Hc as (Hn & Hd & Hq).
  destruct Hst as [-> | ->];
    cbn [read_records parse_process_char start_field state bind];
    unfold set_state; cbn [state field fields];
    rewrite ?Hn, ?Hd, ?Hq; cbn [start_field]; rewrite ?Hn, ?Hd, ?Hq;
    rewrite add_char_ok by reflexivity; reflexivity.
Qed.

(** A field within the limit, followed by a comma, is read back and the
    parser stands at the start of the next field. *)
Lemma read_field_comma (f : string) (st : pstate) (flds : list string) (tail : string) :
  st = START_RECORD \/ st = START_FIELD ->
  tail <> "" ->
  fits f ->
  read_records (mk_reader st "" flds) (line_events (quote_field f ++ String "," tail))
  = read_records (mk_reader START_FIELD "" (flds ++ [f])) (line_events tail).
Proof.
  intros Hst Ht Hfit. unfold fits in Hfit. unfold quote_field.
  destruct (has_special f) eqn:Hs.
  - change (String DQUOTE (double_quotes f ++ String DQUOTE "") ++ String "," tail)
      with (String DQUOTE ((double_quotes f ++ String DQUOTE "") ++ String "," tail)).
    rewrite append_assoc.
    change (String DQUOTE "" ++ String "," tail) with (String DQUOTE (String "," tail)).
    rewrite line_events_inner by (auto using append_nonempty_r).
    assert (Hopen : forall evs,
              read_records (mk_reader st "" flds) (Some DQUOTE :: evs)
              = read_records (mk_reader IN_QUOTED_FIELD "" flds) evs).
    { intros evs. destruct Hst as [-> | ->]; reflexivity. }
    rewrite Hopen, read_in_quoted by (try discriminate; exact Hfit).
    rewrite line_events_inner by (auto; discriminate).
    rewrite line_events_inner by (auto; discriminate).
    reflexivity.
  - apply has_special_false in Hs. destruct f as [|c f].
    + change ("" ++ String "," tail) with (String "," tail).
      rewrite line_events_inner by auto.
      destruct Hst as [-> | ->]; reflexivity.
    + simpl in Hs. apply andb_prop in Hs as [Hc Hf].
      apply negb_true_iff in Hc. pose proof (plain_char c Hc) as (Hn & Hd & Hq).
      change (String c f ++ String "," tail) with (String c (f ++ String "," tail)).
      rewrite line_events_inner by (auto using append_nonempty_r).
      rewrite (read_first_char c st flds _ Hst Hc).
      rewrite read_in_field; [|assumption|discriminate|rewrite len_cons in *; exact Hfit].
      rewrite line_events_inner by auto.
      reflexivity.
Qed.

(** The last field of a record, its line terminator and what follows: the
    record is complete and reading goes on after it. *)
Lemma read_field_end (f : string) (flds : list string) (rest : string) :
  fits f ->
  read_records (mk_reader START_FIELD "" flds)
    (line_events (quote_field f ++ lineterminator ++ rest))
  = bind (read_records reset (line_events rest))
         (fun l => Return ((flds ++ [f])%list :: l)).
Proof.
  intros Hfit. unfold fits in Hfit. unfold quote_field, lineterminator.
  change (String CR (String LF "") ++ rest) with (String CR (String LF rest)).
  destruct (has_special f) eqn:Hs.
  - change (String DQUOTE (double_quotes f ++ String DQUOTE "") ++ String CR (String LF rest))
      with (String DQUOTE ((double_quotes f ++ String DQUOTE "") ++ String CR (String LF rest))).
    rewrite append_assoc.
    change (String DQUOTE "" ++ String CR (String LF rest))
      with (String DQUOTE (String CR (String LF rest))).
    rewrite line_events_inner by (auto using append_nonempty_r).
    assert (Hopen : forall evs,
              read_records (mk_reader START_FIELD "" flds) (Some DQUOTE :: evs)
              = read_records (mk_reader IN_QUOTED_FIELD "" flds) evs) by reflexivity.
    rewrite Hopen, read_in_quoted by (try discriminate; exact Hfit).
    rewrite line_events_inner by (auto; discriminate).
    rewrite line_events_CRLF. reflexivity.
  - apply has_special_false in Hs. destruct f as [|c f].
    + change ("" ++ String CR (String LF rest)) with (String CR (String LF rest)).
      rewrite line_events_CRLF. reflexivity.
    + simpl in Hs. apply andb_prop in Hs as [Hc Hf].
      apply negb_true_iff in Hc.
      change (String c f ++ String CR (String LF rest))
        with (String c (f ++ String CR (String LF rest))).
      rewrite line_events_inner
        by (auto using append_nonempty_r; apply (plain_char c Hc)).
      rewrite (read_first_char c START_FIELD flds _ (or_intror eq_refl) Hc).
      rewrite read_in_field; [|assumption|discriminate|rewrite len_cons in *; exact Hfit].
      rewrite line_events_CRLF. reflexivity.
Qed.

(** A written row of four fields within the limit is read back, whatever
    follows it. *)
Lemma read_row_then (f1 f2 f3 f4 rest : string) :
  Forall fits [f1; f2; f3; f4] ->
  csv_reader (writerow [f1; f2; f3; f4] ++ rest)
  = bind (csv_reader rest) (fun l => Return ([f1; f2; f3; f4] :: l)).
Proof.
  intros Hfit.
  apply Forall_cons in Hfit as [H1 Hfit]. apply Forall_cons in Hfit as [H2 Hfit].
  apply Forall_cons in Hfit as [H3 Hfit]. apply Forall_cons in Hfit as [H4 _].
  unfold csv_reader, writerow. cbn [join_fields].
  replace (is_empty (quote_field f1 ++ String "," (quote_field f2
             ++ String "," (quote_field f3 ++ String "," (quote_field f4)))))
    with false by (destruct (quote_field f1); reflexivity).
  cbn [andb].
  rewrite !append_assoc.
  change (String "," (quote_field f2 ++ String "," (quote_field f3
            ++ String "," (quote_field f4))) ++ lineterminator ++ rest)
    with (String "," ((quote_field f2 ++ String "," (quote_field f3
            ++ String "," (quote_field f4))) ++ lineterminator ++ rest)).
  rewrite !append_assoc.
  change (String "," (quote_field f3 ++ String "," (quote_field f4)) ++ lineterminator ++ rest)
    with (String "," ((quote_field f3 ++ String "," (quote_field f4)) ++ lineterminator ++ rest)).
  rewrite !append_assoc.
  change (String "," (quote_field f4) ++ lineterminator ++ rest)
    with (String "," (quote_field f4 ++ lineterminator ++ rest)).
  unfold reset.
  rewrite (read_field_comma f1 START_RECORD) by (auto using append_nonempty_r).
  rewrite (read_field_comma f2 START_FIELD) by (auto using append_nonempty_r).
  rewrite (read_field_comma f3 START_FIELD)
    by (auto; unfold lineterminator; destruct (quote_field f4); discriminate).
  apply read_field_end, H4.
Qed.

(** A row of four fields, written after the header, is read back as it is. *)
Lemma read_written_row (f1 f2 f3 f4 : string) :
  Forall fits [f1; f2; f3; f4] ->
  csv_reader (header_text ++ writerow [f1; f2; f3; f4])
  = Return [STANDARD_COLUMNS; [f1; f2; f3; f4]].
Proof.
  intros Hfit.
  rewrite <- (append_empty_r (writerow [f1; f2; f3; f4])).
  change (header_text ++ ?r)
    with ("date,amount,category,description" ++ String CR (String LF "") ++ r).
  rewrite (csv_reader_header_line _ _ _ STANDARD_COLUMNS);
    [|reflexivity|right; reflexivity|reflexivity|reflexivity].
  rewrite (read_row_then f1 f2 f3 f4 "" Hfit). reflexivity.
Qed.

(** *** A field above the limit *)

Lemma read_in_field_overflow (f fld : string) (flds : list string) (tail : string) :
  all_chars (fun c => negb (needs_quotes c)) f = true ->
  tail <> "" ->
  len fld <= field_limit ->
  field_limit < len fld + len f ->
  read_records (mk_reader IN_FIELD fld flds) (line_events (f ++ tail)) = Raise CsvError.
Proof.
  revert fld. induction f as [|c f IH]; intros fld Hf Ht Hfld Hlen.
  - change (len "") with 0 in Hlen. lia.
  - simpl in Hf. apply andb_prop in Hf as [Hc Hf].
    apply negb_true_iff, plain_char in Hc as (Hn & Hd & Hq).
    rewrite len_cons in Hlen.
    change (String c f ++ tail) with (String c (f ++ tail)).
    rewrite line_events_inner by (auto using append_nonempty_r; destruct f, tail; easy).
    cbn [read_records parse_process_char state bind]. rewrite Hn, Hd.
    destruct (Z.eq_dec (len fld) field_limit) as [Hfull|Hroom].
    + rewrite add_char_full by lia. reflexivity.
    + rewrite add_char_ok by lia. cbn [bind].
      apply IH; try assumption; rewrite len_app, len_cons; change (len "") with 0; lia.
Qed.

Lemma read_in_quoted_overflow (f fld : string) (flds : list string) (tail : string) :
  tail <> "" ->
  len fld <= field_limit ->
  field_limit < len fld + len f ->
  read_records (mk_reader IN_QUOTED_FIELD fld flds) (line_events (double_quotes f ++ tail))
  = Raise CsvError.
Proof.
  revert fld. induction f as [|c f IH]; intros fld Ht Hfld Hlen.
  - change (len "") with 0 in Hlen. lia.
  - assert (Hne : double_quotes f ++ tail <> "")
      by (destruct (double_quotes f), tail; easy).
    rewrite len_cons in Hlen.
    assert (Hnext : len fld < field_limit ->
              len (fld ++ String c "") <= field_limit
              /\ field_limit < len (fld ++ String c "") + len f).
    { intros H. rewrite len_app, len_cons. change (len "") with 0. lia. }
    cbn [double_quotes]. destruct (Ascii.eqb_spec c DQUOTE) as [->|Hq].
    + change (String DQUOTE (String DQUOTE (double_quotes f)) ++ tail)
        with (String DQUOTE (String DQUOTE (double_quotes f ++ tail))).
      rewrite line_events_inner by easy.
      rewrite line_events_inner by easy.
      cbn [read_records parse_process_char state bind Ascii.eqb Bool.eqb].
      unfold set_state. cbn [state field fields bind].
      cbn [read_records parse_process_char state bind Ascii.eqb Bool.eqb].
      destruct (Z.eq_dec (len fld) field_limit) as [Hfull|Hroom].
      * rewrite add_char_full by lia. reflexivity.
      * rewrite add_char_ok by lia. cbn [bind].
        unfold set_state. cbn [state field fields bind].
        apply IH; [assumption|apply Hnext; lia..].
    + change (String c (double_quotes f) ++ tail)
        with (String c (double_quotes f ++ tail)).
      apply Ascii.eqb_neq in Hq.
      destruct (Z.eq_dec (len fld) field_limit) as [Hfull|Hroom].
      * destruct (line_events_cons c _ Hne) as [b ->].
        cbn [read_records parse_process_char state bind]. rewrite Hq.
        rewrite add_char_full by lia. reflexivity.
      * assert (Hstep : forall evs,
                   read_records (mk_reader IN_QUOTED_FIELD fld flds) (Some c :: evs)
                   = read_records (mk_reader IN_QUOTED_FIELD (fld ++ String c "") flds) evs).
        { intros evs. cbn [read_records parse_process_char state bind].
          rewrite Hq. rewrite add_char_ok by lia. reflexivity. }
        destruct (line_events_cons c _ Hne) as [[] ->]; rewrite Hstep.
        -- cbn [read_records parse_process_char state bind at_record_start].
           apply IH; [assumption|apply Hnext; lia..].
        -- apply IH; [assumption|apply Hnext; lia..].
Qed.

(** A field of more than [field_limit] characters stops the reader. *)
Lemma read_field_overflow (f : string) (flds : list string) (tail : string) :
  tail <> "" ->
  field_limit < len f ->
  read_records (mk_reader START_FIELD "" flds) (line_events (quote_field f ++ tail))
  = Raise CsvError.
Proof.
  intros Ht Hlen. unfold quote_field. destruct (has_special f) eqn:Hs.
  - change (String DQUOTE (double_quotes f ++ String DQUOTE "") ++ tail)
      with (String DQUOTE ((double_quotes f ++ String DQUOTE "") ++ tail)).
    rewrite append_assoc.
    change (String DQUOTE "" ++ tail) with (String DQUOTE tail).
    rewrite line_events_inner by (auto using append_nonempty_r).
    assert (Hopen : forall evs,
              read_records (mk_reader START_FIELD "" flds) (Some DQUOTE :: evs)
              = read_records (mk_reader IN_QUOTED_FIELD "" flds) evs) by reflexivity.
    rewrite Hopen. apply read_in_quoted_overflow; [discriminate|discriminate|exact Hlen].
  - apply has_special_false in Hs. destruct f as [|c f].
    + change (len "") with 0 in Hlen. discriminate Hlen.
    + simpl in Hs. apply andb_prop in Hs as [Hc Hf].
      apply negb_true_iff in Hc.
      change (String c f ++ tail) with (String c (f ++ tail)).
      rewrite line_events_inner
        by (auto using append_nonempty_r; try apply (plain_char c Hc); destruct f, tail; easy).
      rewrite (read_first_char c START_FIELD flds _ (or_intror eq_refl) Hc).
      apply read_in_field_overflow; [assumption|assumption|discriminate|].
      rewrite len_cons in Hlen. exact Hlen.
Qed.

(** A row whose last field is above the limit, written after the header. *)
Lemma read_written_row_overflow (f1 f2 f3 f4 : string) :
  Forall fits [f1; f2; f3] ->
  field_limit < len f4 ->
  csv_reader (header_text ++ writerow [f1; f2; f3; f4]) = Raise CsvError.
Proof.
  intros Hfit Hlong.
  apply Forall_cons in Hfit as [H1 Hfit]. apply Forall_cons in Hfit as [H2 Hfit].
  apply Forall_cons in Hfit as [H3 _].
  change (header_text ++ ?r)
    with ("date,amount,category,description" ++ String CR (String LF "") ++ r).
  rewrite (csv_reader_header_line _ _ _ STANDARD_COLUMNS);
    [|reflexivity|right; reflexivity|reflexivity|reflexivity].
  unfold csv_reader, writerow. cbn [join_fields].
  replace (is_empty (quote_field f1 ++ String "," (quote_field f2
             ++ String "," (quote_field f3 ++ String "," (quote_field f4)))))
    with false by (destruct (quote_field f1); reflexivity).
  cbn [andb].
  rewrite !append_assoc.
  change (String "," (quote_field f2 ++ String "," (quote_field f3
            ++ String "," (quote_field f4))) ++ lineterminator)
    with (String "," ((quote_field f2 ++ String "," (quote_field f3
            ++ String "," (quote_field f4))) ++ lineterminator)).
  rewrite !append_assoc.
  change (String "," (quote_field f3 ++ String "," (quote_field f4)) ++ lineterminator)
    with (String "," ((quote_field f3 ++ String "," (quote_field f4)) ++ lineterminator)).
  rewrite !append_assoc.
  change (String "," (quote_field f4) ++ lineterminator)
    with (String "," (quote_field f4 ++ lineterminator)).
  unfold reset.
  rewrite (read_field_comma f1 START_RECORD) by (auto using append_nonempty_r).
  rewrite (read_field_comma f2 START_FIELD) by (auto using append_nonempty_r).
  rewrite (read_field_comma f3 START_FIELD)
    by (auto; unfold lineterminator; destruct (quote_field f4); discriminate).
  rewrite read_field_overflow by (auto; discriminate). reflexivity.
Qed.

(** ** Stripping text that has no white space at its ends *)

Lemma rstrip_by_last (p : ascii -> bool) (s : string) (c : ascii) :
  p c = false -> rstrip_by p (s ++ String c "") = s ++ String c "".
Proof.
  intros Hc. induction s as [|x s IH].
  - simpl. rewrite Hc. reflexivity.
  - change (String x s ++ String c "") with (String x (s ++ String c "")).
    cbn [rstrip_by]. rewrite IH. destruct s; reflexivity.
Qed.

Lemma strip_by_ends (p : ascii -> bool) (c : ascii) (mid : string) (c' : ascii) :
  p c = false -> p c' = false ->
  rstrip_by p (lstrip_by p (String c (mid ++ String c' "")))
  = String c (mid ++ String c' "").
Proof.
  intros Hc Hc'. cbn [lstrip_by]. rewrite Hc.
  change (String c (mid ++ String c' "")) with (String c mid ++ String c' "").
  apply rstrip_by_last. exact Hc'.
Qed.

Lemma strip_by_none (p : ascii -> bool) (s : string) :
  all_chars (fun c => negb (p c)) s = true ->
  lstrip_by p s = s /\ rstrip_by p s = s.
Proof.
  intros Hs. split.
  - destruct s as [|c s]; [reflexivity|]. simpl in *.
    apply andb_prop in Hs as [Hc _]. apply negb_true_iff in Hc. rewrite Hc. reflexivity.
  - induction s as [|c s IH]; [reflexivity|]. simpl in Hs.
    apply andb_prop in Hs as [Hc Hs]. apply negb_true_iff in Hc.
    cbn [rstrip_by]. rewrite (IH Hs), Hc. destruct s; reflexivity.
Qed.

Lemma remove_char_none (x : ascii) (s : string) :
  all_chars (fun c => negb (Ascii.eqb c x)) s = true -> remove_char x s = s.
Proof.
  induction s as [|c s IH]; [reflexivity|]. simpl. intros Hs.
  apply andb_prop in Hs as [Hc Hs]. apply negb_true_iff in Hc.
  rewrite Hc, (IH Hs). reflexivity.
Qed.

Lemma contains_none (x : ascii) (s : string) :
  all_chars (fun c => negb (Ascii.eqb c x)) s = true -> contains x s = false.
Proof.
  induction s as [|c s IH]; [reflexivity|]. simpl. intros Hs.
  apply andb_prop in Hs as [Hc Hs]. apply negb_true_iff in Hc.
  rewrite Hc, (IH Hs). reflexivity.
Qed.

Lemma all_chars_impl (p q : ascii -> bool) (s : string) :
  (forall c, p c = true -> q c = true) ->
  all_chars p s = true -> all_chars q s = true.
Proof.
  intros Hpq. induction s as [|c s IH]; [reflexivity|]. simpl. intros Hs.
  apply andb_prop in Hs as [Hc Hs]. rewrite (Hpq c Hc), (IH Hs). reflexivity.
Qed.

(** ** Decimal digits *)

Lemma below_by_cases (P : Z -> Prop) (b : nat) :
  (forall n : nat, (n < b)%nat -> P (Z.of_nat n)) ->
  forall k : Z, 0 <= k < Z.of_nat b -> P k.
Proof. intros H k Hk. rewrite <- (Z2Nat.id k) by lia. apply H. lia. Qed.

Lemma digit_char_spec (n : Z) :
  isdigit (digit_char n) = true /\ digit_val (digit_char n) = n mod 10.
Proof.
  unfold digit_char.
  pose proof (Z.mod_pos_bound n 10 ltac:(lia)) as Hb.
  revert Hb. generalize (n mod 10) as k.
  apply (below_by_cases (fun k => isdigit (ascii_of_N (Z.to_N (48 + k))) = true
                                  /\ digit_val (ascii_of_N (Z.to_N (48 + k))) = k) 10).
  intros k Hk. do 10 (destruct k as [|k]; [vm_compute; auto|]). lia.
Qed.

Lemma numchar_props (c : ascii) :
  numchar c = true ->
  isspace c = false /\ c_isspace c = false /\ (code c <? 128) = true
  /\ Ascii.eqb c "_" = false /\ Ascii.eqb c "$" = false /\ Ascii.eqb c "," = false
  /\ Ascii.eqb c "-" = false /\ Ascii.eqb c "+" = false.
Proof.
  destruct c as [[] [] [] [] [] [] [] []]; vm_compute; intros H;
    try discriminate H; repeat split; reflexivity.
Qed.

Lemma isdigit_numchar (c : ascii) : isdigit c = true -> numchar c = true.
Proof. unfold numchar. intros ->. reflexivity. Qed.

(** ** Parsing a canonical date *)

Lemma alts_Y_pad4 (y : Z) (r : string) :
  0 <= y <= 9999 -> alts_Y (pad4 y ++ r) = [(y, r)].
Proof.
  intros Hy. unfold pad4, pad2.
  change (alts_Y (String (digit_char (y / 1000)) (String (digit_char (y / 100))
            (String (digit_char (y / 10)) (String (digit_char y) r)))) = [(y, r)]).
  cbn [alts_Y].
  destruct (digit_char_spec (y / 1000)) as [-> ->].
  destruct (digit_char_spec (y / 100)) as [-> ->].
  destruct (digit_char_spec (y / 10)) as [-> ->].
  destruct (digit_char_spec y) as [-> ->].
  cbn [andb]. do 2 f_equal.
  pose proof (Z.div_mod y 10 ltac:(lia)).
  pose proof (Z.div_mod (y / 10) 10 ltac:(lia)).
  pose proof (Z.div_mod (y / 100) 10 ltac:(lia)).
  pose proof (Z.mod_small (y / 1000) 10) as Hs.
  replace (y / 100) with (y / 10 / 10) in * by (rewrite Z.div_div by lia; reflexivity).
  replace (y / 1000) with (y / 10 / 10 / 10) in *
    by (rewrite !Z.div_div by lia; reflexivity).
  assert (0 <= y / 10 / 10 / 10 < 10).
  { split; [repeat apply Z.div_pos; lia|].
    rewrite !Z.div_div by lia. apply Z.div_lt_upper_bound; lia. }
  rewrite Hs by assumption. lia.
Qed.

Lemma alts_m_pad2 (m : Z) (r : string) :
  1 <= m <= 12 -> exists l, alts_m (pad2 m ++ r) = (m, r) :: l.
Proof.
  intros Hm. assert (H : 0 <= m < Z.of_nat 13) by lia. revert H Hm.
  revert m. apply (below_by_cases (fun m => 1 <= m <= 12 -> _) 13).
  intros n Hn Hm.
  do 13 (destruct n as [|n]; [first [lia | vm_compute; eexists; reflexivity]|]). lia.
Qed.

Lemma alts_d_pad2 (d : Z) (r : string) :
  1 <= d <= 31 -> exists l, alts_d (pad2 d ++ r) = (d, r) :: l.
Proof.
  intros Hd. assert (H : 0 <= d < Z.of_nat 32) by lia. revert H Hd.
  revert d. apply (below_by_cases (fun d => 1 <= d <= 31 -> _) 32).
  intros n Hn Hd.
  do 32 (destruct n as [|n]; [first [lia | vm_compute; eexists; reflexivity]|]). lia.
Qed.

Lemma valid_ymd_bounds (y m d : Z) :
  valid_ymd y m d = true -> 1 <= y <= 9999 /\ 1 <= m <= 12 /\ 1 <= d <= 31.
Proof.
  unfold valid_ymd, days_in_month. intros H.
  repeat (apply andb_prop in H as [H ?]).
  repeat match goal with
         | |- context [if ?b then _ else _] => destruct b
         | H : context [if ?b then _ else _] |- _ => destruct b
         end; lia.
Qed.

Lemma regex_match_canonical (y m d : Z) :
  valid_ymd y m d = true ->
  regex_match fmt_ymd (pad4 y ++ "-" ++ pad2 m ++ "-" ++ pad2 d) (1900, 1, 1)
  = Some (y, m, d, "").
Proof.
  intros Hv. apply valid_ymd_bounds in Hv as (Hy & Hm & Hd).
  unfold fmt_ymd. cbn [regex_match].
  rewrite alts_Y_pad4 by lia. cbn [first_some fst snd].
  change ("-" ++ pad2 m ++ "-" ++ pad2 d) with (String "-" (pad2 m ++ "-" ++ pad2 d)).
  cbn [regex_match Ascii.eqb Bool.eqb].
  destruct (alts_m_pad2 m ("-" ++ pad2 d) Hm) as [lm ->].
  cbn [first_some fst snd].
  change ("-" ++ pad2 d) with (String "-" (pad2 d ++ "")).
  cbn [regex_match Ascii.eqb Bool.eqb].
  destruct (alts_d_pad2 d "" Hd) as [ld ->].
  reflexivity.
Qed.

Lemma strptime_canonical (y m d : Z) :
  valid_ymd y m d = true ->
  exists dt, strptime (pad4 y ++ "-" ++ pad2 m ++ "-" ++ pad2 d) fmt_ymd = Return dt
             /\ strftime dt = year_text y ++ "-" ++ pad2 m ++ "-" ++ pad2 d.
Proof.
  intros Hv. unfold strptime. rewrite (regex_match_canonical y m d Hv).
  destruct (make_date_cases y m d) as [[E _]|[H ->]]; [congruence|].
  eexists. split; reflexivity.
Qed.

Lemma canonical_date_stripped (y m d : Z) :
  let s := pad4 y ++ "-" ++ pad2 m ++ "-" ++ pad2 d in
  strip s = s /\ is_empty s = false.
Proof.
  split; [|reflexivity]. unfold strip.
  change (pad4 y ++ "-" ++ pad2 m ++ "-" ++ pad2 d)
    with (String (digit_char (y / 1000))
            ((String (digit_char (y / 100)) (String (digit_char (y / 10))
               (String (digit_char y) ("-" ++ pad2 m ++ "-"
                  ++ String (digit_char (d / 10)) ""))))
             ++ String (digit_char d) "")).
  apply strip_by_ends;
    match goal with
    | |- isspace (digit_char ?n) = false =>
        destruct (digit_char_spec n) as [H _];
        apply isdigit_numchar, numchar_props in H; apply H
    end.
Qed.

(** A canonical date is parsed by the first format and printed again; from
    the year 1000 on it is printed as it was. *)
Lemma parse_date_canonical_text (iso : string -> option datetime) (y m d : Z) :
  valid_ymd y m d = true ->
  _parse_date iso (pad4 y ++ "-" ++ pad2 m ++ "-" ++ pad2 d)
  = Return (Some (year_text y ++ "-" ++ pad2 m ++ "-" ++ pad2 d)).
Proof.
  intros Hv. unfold _parse_date.
  destruct (canonical_date_stripped y m d) as [-> ->].
  destruct (strptime_canonical y m d Hv) as (dt & Hdt & Hs).
  cbn [try_formats]. rewrite Hdt. cbn [bind try_except]. rewrite Hs. reflexivity.
Qed.

Lemma parse_date_canonical (iso : string -> option datetime) (s : string) :
  four_digit_year s -> _parse_date iso s = Return (Some s).
Proof.
  intros (y & m & d & Hv & Hy & ->).
  rewrite (parse_date_canonical_text iso y m d Hv).
  rewrite year_text_pad4; [reflexivity|].
  apply valid_ymd_bounds in Hv. lia.
Qed.

(** ** Converting a formatted amount back *)

Lemma take_digits_digit_mod (n : Z) (tl : string) (a c : Z) :
  take_digits (String (digit_char n) tl) a c
  = take_digits tl (10 * a + n mod 10) (c + 1).
Proof.
  cbn [take_digits]. destruct (digit_char_spec n) as [-> ->]. reflexivity.
Qed.

Lemma take_digits_fuel (f : nat) :
  forall (n : Z) (tl : string),
    0 <= n < 2 ^ (Z.of_nat f + 1) ->
    exists len : Z,
      0 < len /\
      forall a c : Z,
        take_digits (digits_fuel f n tl) a c
        = take_digits tl (a * 10 ^ len + n) (c + len).
Proof.
  pose proof take_digits_digit_mod as Hdigit.
  induction f as [|f IH]; intros n tl Hn.
  - exists 1. split; [lia|]. intros a c.
    change (digits_fuel 0 n tl) with (String (digit_char n) tl).
    rewrite Hdigit, Z.mod_small by (change (2 ^ (Z.of_nat 0 + 1)) with 2 in Hn; lia).
    f_equal. lia.
  - change (digits_fuel (S f) n tl)
      with (if n <? 10 then String (digit_char n) tl
            else digits_fuel f (n / 10) (String (digit_char n) tl)).
    destruct (Z.ltb_spec n 10) as [Hlt|Hge].
    + exists 1. split; [lia|]. intros a c.
      rewrite Hdigit, Z.mod_small by lia. f_equal. lia.
    + destruct (IH (n / 10) (String (digit_char n) tl)) as (len & Hlen & Hrec).
      { split; [apply Z.div_pos; lia|].
        apply Z.div_lt_upper_bound; [lia|].
        replace (Z.of_nat (S f) + 1) with (Z.succ (Z.of_nat f + 1)) in Hn by lia.
        rewrite Z.pow_succ_r in Hn by lia. lia. }
      exists (len + 1). split; [lia|]. intros a c.
      rewrite Hrec, Hdigit. f_equal; [|lia].
      rewrite Z.pow_add_r by lia. change (10 ^ 1) with 10.
      pose proof (Z.div_mod n 10 ltac:(lia)). lia.
Qed.

Lemma digits_fuel_numchar (f : nat) :
  forall (n : Z) (tl : string),
    all_chars numchar tl = true -> all_chars numchar (digits_fuel f n tl) = true.
Proof.
  assert (Hd : forall n tl, all_chars numchar tl = true ->
                 all_chars numchar (String (digit_char n) tl) = true).
  { intros n tl Htl. cbn [all_chars]. rewrite Htl.
    destruct (digit_char_spec n) as [H _]. rewrite (isdigit_numchar _ H). reflexivity. }
  induction f as [|f IH]; intros n tl Htl.
  - apply Hd, Htl.
  - change (digits_fuel (S f) n tl)
      with (if n <? 10 then String (digit_char n) tl
            else digits_fuel f (n / 10) (String (digit_char n) tl)).
    destruct (n <? 10); [apply Hd, Htl | apply IH, Hd, Htl].
Qed.

Lemma digits_fuel_head (f : nat) :
  forall (n : Z) (tl : string),
    exists c r, digits_fuel f n tl = String c r /\ isdigit c = true.
Proof.
  induction f as [|f IH]; intros n tl.
  - exists (digit_char n), tl. split; [reflexivity | apply digit_char_spec].
  - change (digits_fuel (S f) n tl)
      with (if n <? 10 then String (digit_char n) tl
            else digits_fuel f (n / 10) (String (digit_char n) tl)).
    destruct (n <? 10); [|apply IH].
    exists (digit_char n), tl. split; [reflexivity | apply digit_char_spec].
Qed.

Lemma take_sign_plain (c : ascii) (r : string) :
  Ascii.eqb c "-" = false -> Ascii.eqb c "+" = false ->
  take_sign (String c r) = (false, String c r).
Proof. intros H1 H2. cbn [take_sign]. rewrite H1, H2. reflexivity. Qed.

Lemma round_half_even_div_nonneg (a b : Z) :
  0 <= a -> 0 < b -> 0 <= round_half_even_div a b.
Proof.
  intros Ha Hb. unfold round_half_even_div.
  pose proof (Z.div_pos a b Ha Hb) as Hq. unfold Z.div in Hq.
  destruct (Z.div_eucl a b) as [q r].
  destruct (2 * r ?= b); [destruct (Z.even q)| |]; lia.
Qed.

Lemma hundredths_nonneg (m : positive) (e : Z) : 0 <= hundredths m e.
Proof.
  unfold hundredths. destruct (0 <=? e) eqn:E.
  - apply Z.leb_le in E. pose proof (Z.pow_pos_nonneg 2 e). lia.
  - apply round_half_even_div_nonneg; [lia|].
    apply Z.pow_pos_nonneg; lia.
Qed.

(** The text [fixed2] writes for [n] hundredths converts to the double
    nearest to [n / 100]. *)
Lemma py_float_fixed2 (n : Z) :
  0 <= n ->
  let s := fixed2 false n in
  py_float s = Return (nearest_double false (Qmake n 100))
  /\ all_chars numchar s = true /\ is_empty s = false.
Proof.
  intros Hn s.
  set (frac := String (digit_char (n / 10)) (String (digit_char n) "")).
  set (k := n / 100).
  assert (Es : s = digits_fuel (Z.to_nat (Z.log2 k)) k (String "." frac)) by reflexivity.
  assert (Hk : 0 <= k) by (apply Z.div_pos; lia).
  assert (Hnum : all_chars numchar s = true).
  { rewrite Es. apply digits_fuel_numchar. subst frac. cbn [all_chars].
    destruct (digit_char_spec (n / 10)) as [H1 _].
    destruct (digit_char_spec n) as [H2 _].
    rewrite (isdigit_numchar _ H1), (isdigit_numchar _ H2). reflexivity. }
  destruct (digits_fuel_head (Z.to_nat (Z.log2 k)) k (String "." frac))
    as (c & r & Ecr & Hc).
  assert (Hempty : is_empty s = false) by (rewrite Es, Ecr; reflexivity).
  split; [|split; assumption].
  assert (Hstrtod : strtod s = Some (nearest_double false (Qmake n 100), "")).
  { unfold strtod.
    assert (Hsign : take_sign s = (false, s)).
    { rewrite Es, Ecr. apply isdigit_numchar, numchar_props in Hc.
      apply take_sign_plain; apply Hc. }
    rewrite Hsign.
    destruct (take_digits_fuel (Z.to_nat (Z.log2 k)) k (String "." frac))
      as (len & Hlen & Htake).
    { rewrite Z2Nat.id by apply Z.log2_nonneg.
      destruct (Z.eq_dec k 0) as [->|Hk0]; [vm_compute; split; congruence|].
      pose proof (Z.log2_spec k ltac:(lia)). rewrite <- Z.add_1_r in *. lia. }
    rewrite Es, Htake.
    change (take_digits (String "." frac) (0 * 10 ^ len + k) (0 + len))
      with (0 * 10 ^ len + k, 0 + len, String "." frac).
    cbv iota beta. unfold frac.
    change (Ascii.eqb "." ".") with true. cbv iota.
    rewrite !take_digits_digit_mod.
    change (take_digits "" ?a ?c) with (a, c, "").
    cbv iota beta.
    replace (0 + len + (0 + 1 + 1) =? 0) with false by (symmetry; apply Z.eqb_neq; lia).
    cbn [take_exponent].
    replace (10 * (10 * (0 * 10 ^ len + k) + (n / 10) mod 10) + n mod 10) with n.
    - reflexivity.
    - subst k. pose proof (Z.div_mod n 10 ltac:(lia)).
      pose proof (Z.div_mod (n / 10) 10 ltac:(lia)).
      replace (n / 100) with (n / 10 / 10) by (rewrite Z.div_div by lia; reflexivity).
      lia. }
  assert (Hascii : all_chars (fun x => code x <? 128) s = true).
  { apply (all_chars_impl numchar); [|exact Hnum].
    intros x Hx. apply (numchar_props x Hx). }
  unfold py_float, string_to_number_with_underscores, transform. rewrite Hascii.
  rewrite contains_none
    by (apply (all_chars_impl numchar); [|exact Hnum];
        intros x Hx; apply numchar_props in Hx; apply negb_true_iff, Hx).
  unfold float_from_string_inner.
  destruct (strip_by_none c_isspace s) as [-> ->].
  { apply (all_chars_impl numchar); [|exact Hnum].
    intros x Hx; apply numchar_props in Hx; apply negb_true_iff, Hx. }
  rewrite Hempty. unfold ascii_strtod. rewrite Hstrtod. reflexivity.
Qed.

Lemma parse_amount_format2 (a : float) :
  gt_zero a = true -> round2 a = a -> _parse_amount (format2 a) = Return (Some a).
Proof.
  intros Hpos Hr. destruct a as [s|[]| |[] m e]; try discriminate Hpos.
  - vm_compute. reflexivity.
  - destruct (py_float_fixed2 (hundredths m e) (hundredths_nonneg m e))
      as (Hf & Hnum & Hne).
    change (fixed2 false (hundredths m e)) with (format2 (S754_finite false m e)) in *.
    change (nearest_double false (Qmake (hundredths m e) 100))
      with (round2 (S754_finite false m e)) in Hf.
    rewrite Hr in Hf.
    set (a := S754_finite false m e) in *.
    assert (Hstrip : strip (format2 a) = format2 a).
    { unfold strip. destruct (strip_by_none isspace (format2 a)) as [-> ->]; [|reflexivity].
      apply (all_chars_impl numchar); [|exact Hnum].
      intros x Hx. apply numchar_props in Hx. apply negb_true_iff, Hx. }
    unfold _parse_amount. rewrite Hstrip.
    rewrite (remove_char_none "$"), (remove_char_none ",");
      try (apply (all_chars_impl numchar); [|exact Hnum];
           intros x Hx; apply numchar_props in Hx; apply negb_true_iff, Hx).
    rewrite Hne, Hf. cbn [bind try_except].
    rewrite (gt_zero_not_le_zero a Hpos), Hr. reflexivity.
Qed.

(** ** C1: saving one valid expense and loading it back *)

Lemma field_map_standard :
  build_field_map STANDARD_COLUMNS !! "date" = Some "date"
  /\ build_field_map STANDARD_COLUMNS !! "amount" = Some "amount"
  /\ build_field_map STANDARD_COLUMNS !! "category" = Some "category"
  /\ build_field_map STANDARD_COLUMNS !! "description" = Some "description".
Proof. repeat split; vm_compute; reflexivity. Qed.

Lemma year_text_nonempty (y : Z) (r : string) : is_empty (year_text y ++ r) = false.
Proof.
  unfold year_text, digits_onto.
  destruct (digits_fuel_head (Z.to_nat (Z.log2 y)) y "") as (c & t & -> & _).
  reflexivity.
Qed.

Lemma strftime_nonempty (dt : datetime) : is_empty (strftime dt) = false.
Proof. apply year_text_nonempty. Qed.

Lemma parse_date_result_nonempty (iso : string -> option datetime) (v d : string) :
  _parse_date iso v = Return (Some d) -> is_empty d = false.
Proof.
  intros H. destruct (parse_date_result_strftime iso v d H) as [dt ->].
  apply strftime_nonempty.
Qed.

(** What the load returns for one saved expense that is valid and within
    the limit of the reader: the expense with its date printed again. *)
Lemma load_text_written (iso : string -> option datetime) (e : Expense) (y m d : Z) :
  valid_expense e ->
  valid_ymd y m d = true ->
  date e = pad4 y ++ "-" ++ pad2 m ++ "-" ++ pad2 d ->
  Forall fits (expense_row e) ->
  load_text iso (save_text [e])
  = Return [mk_Expense (year_text y ++ "-" ++ pad2 m ++ "-" ++ pad2 d)
                       (amount e) (category e) (description e)].
Proof.
  intros (_ & Hpos & Hr & Hc & Hcs & Hds & Hdss) Hv Hd Hfit.
  change (save_text [e]) with (header_text ++ writerow (expense_row e)).
  unfold load_text, DictReader. unfold expense_row in *.
  rewrite (read_written_row _ _ _ _ Hfit).
  cbn [bind filter map nonblank clean_rows].
  change (clean_rows iso (build_field_map STANDARD_COLUMNS)
            [dict_row STANDARD_COLUMNS
               [date e; format2 (amount e); category e; description e]]
          = Return [mk_Expense (year_text y ++ "-" ++ pad2 m ++ "-" ++ pad2 d)
                               (amount e) (category e) (description e)]).
  cbn [clean_rows]. unfold clean_row.
  destruct field_map_standard as (-> & -> & -> & ->). cbn [default].
  rewrite (row_get_last STANDARD_COLUMNS _ 0 "date"),
    (row_get_last STANDARD_COLUMNS _ 1 "amount"),
    (row_get_last STANDARD_COLUMNS _ 2 "category"),
    (row_get_last STANDARD_COLUMNS _ 3 "description");
    try first [reflexivity
              | apply last_index_of_4; [apply nodup_standard_header | reflexivity]].
  cbn [lookup list_lookup str].
  rewrite Hd, (parse_date_canonical_text iso y m d Hv), (parse_amount_format2 _ Hpos Hr).
  cbn [bind]. rewrite Hcs, Hdss, year_text_nonempty.
  destruct (category e); [contradiction|]. destruct (description e); [contradiction|].
  reflexivity.
Qed.

Lemma load_text_saved (iso : string -> option datetime) (e : Expense) :
  storable e -> load_text iso (save_text [e]) = Return [e].
Proof.
  intros (He & (y & m & d & Hv & Hy & Hd) & Hfit).
  rewrite (load_text_written iso e y m d He Hv Hd Hfit).
  rewrite year_text_pad4 by (apply valid_ymd_bounds in Hv; lia).
  rewrite <- Hd. destruct e; reflexivity.
Qed.

Lemma load_of_saved_text (iso : string -> option datetime) (es : list Expense)
    (path : string) (fs : files) :
  load_expenses iso path (save_expenses es path fs)
  = (save_expenses es path fs, load_text iso (save_text es)).
Proof.
  unfold load_expenses, save_expenses.
  assert (Hkeep : ensure_csv_header path (<[path := save_text es]> fs)
                  = <[path := save_text es]> fs).
  { unfold ensure_csv_header. rewrite lookup_insert_eq. reflexivity. }
  rewrite Hkeep, lookup_insert_eq. reflexivity.
Qed.

(** C1. Saving a single valid expense and loading the file again returns
    that expense when its year is 1000 or later and no cell is longer than
    the limit of the CSV reader.  It does not for every valid expense: the
    date ["0999-01-01"] comes back as ["999-01-01"], and a description of
    more than 131072 characters makes the load raise. *)
Theorem save_load_roundtrip (iso : string -> option datetime) :
  (forall (e : Expense) (path : string) (fs : files),
     storable e ->
     load_expenses iso path (save_expenses [e] path fs)
     = (save_expenses [e] path fs, Return [e]))
  /\ valid_expense
       (mk_Expense "0999-01-01" (S754_finite false 5629499534213120 (-50)) "food" "lunch")
  /\ (forall (path : string) (fs : files),
        (load_expenses iso path
           (save_expenses
              [mk_Expense "0999-01-01" (S754_finite false 5629499534213120 (-50))
                          "food" "lunch"] path fs)).2
        = Return [mk_Expense "999-01-01" (S754_finite false 5629499534213120 (-50))
                             "food" "lunch"])
  /\ (forall (e : Expense) (path : string) (fs : files),
        Forall fits [date e; format2 (amount e); category e] ->
        field_limit < len (description e) ->
        (load_expenses iso path (save_expenses [e] path fs)).2 = Raise CsvError).
Proof.
  assert (Hold : valid_expense
            (mk_Expense "0999-01-01" (S754_finite false 5629499534213120 (-50))
                        "food" "lunch")).
  { unfold valid_expense. cbn [date amount category description].
    split; [exists 999, 1, 1; split; reflexivity|].
    repeat split; try discriminate; vm_compute; reflexivity. }
  split; [|split; [exact Hold|split]].
  - intros e path fs He. rewrite load_of_saved_text, (load_text_saved iso e He). reflexivity.
  - intros path fs. rewrite load_of_saved_text. cbn [snd].
    rewrite (load_text_written iso _ 999 1 1 Hold); [reflexivity..|].
    repeat constructor; vm_compute; intros H; discriminate H.
  - intros e path fs Hfit Hlong. rewrite load_of_saved_text. cbn [snd].
    change (save_text [e]) with (header_text ++ writerow (expense_row e)).
    unfold load_text, DictReader, expense_row.
    rewrite (read_written_row_overflow _ _ _ _ Hfit Hlong). reflexivity.
Qed.

(** A concrete expense of the day [y]-[m]-[d] is storable. *)
Ltac storable_closed y m d :=
  split;
  [ unfold valid_expense; cbn [date amount category description];
    split; [exists y, m, d; split; reflexivity|];
    repeat split; try discriminate; vm_compute; reflexivity
  | split;
    [ exists y, m, d; cbn [date]; split; [reflexivity|split; [lia | reflexivity]]
    | repeat constructor; vm_compute; intros H; discriminate H ] ].

Lemma save_load_roundtrip_witness :
  load_expenses (fun _ => None) "data/expenses.csv"
    (save_expenses
       [mk_Expense "2024-02-29" (S754_finite false 5429388417957888 (-42))
                   "food, drink" ("lunch " ++ String DQUOTE "special")]
       "data/expenses.csv" ∅)
  = (save_expenses
       [mk_Expense "2024-02-29" (S754_finite false 5429388417957888 (-42))
                   "food, drink" ("lunch " ++ String DQUOTE "special")]
       "data/expenses.csv" ∅,
     Return [mk_Expense "2024-02-29" (S754_finite false 5429388417957888 (-42))
                        "food, drink" ("lunch " ++ String DQUOTE "special")]).
Proof.
  apply (proj1 (save_load_roundtrip (fun _ => None))).
  storable_closed 2024 2 29.
Defined.

(** ** C10: deleting ['$'] and [','] before or after stripping *)

Lemma lstrip_remove (p : ascii -> bool) (x : ascii) (s : string) :
  p x = false ->
  lstrip_by p (remove_char x s) = lstrip_by p (remove_char x (lstrip_by p s)).
Proof.
  intros Hx. induction s as [|c s IH]; [reflexivity|].
  cbn [lstrip_by]. destruct (p c) eqn:Hc; [|reflexivity].
  cbn [remove_char]. destruct (Ascii.eqb_spec c x) as [->|_]; [congruence|].
  cbn [lstrip_by]. rewrite Hc. exact IH.
Qed.

Lemma rstrip_remove (p : ascii -> bool) (x : ascii) (s : string) :
  p x = false ->
  rstrip_by p (remove_char x s) = rstrip_by p (remove_char x (rstrip_by p s)).
Proof.
  intros Hx. induction s as [|c s IH]; [reflexivity|].
  cbn [rstrip_by remove_char].
  destruct (Ascii.eqb_spec c x) as [->|Hcx].
  - rewrite IH. destruct (rstrip_by p s) as [|d r].
    + rewrite Hx. cbn [remove_char]. rewrite Ascii.eqb_refl. reflexivity.
    + cbn [remove_char]. rewrite Ascii.eqb_refl. reflexivity.
  - cbn [rstrip_by]. rewrite IH. apply Ascii.eqb_neq in Hcx.
    destruct (rstrip_by p s) as [|d r].
    + cbn [remove_char rstrip_by]. destruct (p c) eqn:Hc; [reflexivity|].
      cbn [remove_char rstrip_by]. rewrite Hcx. cbn [rstrip_by]. rewrite Hc. reflexivity.
    + cbn [remove_char]. rewrite Hcx. reflexivity.
Qed.

Lemma lstrip_rstrip_comm (p : ascii -> bool) (s : string) :
  lstrip_by p (rstrip_by p s) = rstrip_by p (lstrip_by p s).
Proof.
  induction s as [|c s IH]; [reflexivity|].
  cbn [lstrip_by rstrip_by]. destruct (p c) eqn:Hc.
  - rewrite <- IH. destruct (rstrip_by p s) as [|d r]; [reflexivity|].
    cbn [lstrip_by]. rewrite Hc. reflexivity.
  - cbn [rstrip_by]. destruct (rstrip_by p s) as [|d r];
      cbn [lstrip_by]; rewrite Hc; reflexivity.
Qed.

Lemma strip_remove (x : ascii) (s : string) :
  isspace x = false ->
  strip (remove_char x s) = strip (remove_char x (strip s)).
Proof.
  intros Hx. unfold strip.
  rewrite (lstrip_remove isspace x s Hx).
  rewrite <- (lstrip_rstrip_comm isspace (remove_char x (lstrip_by isspace s))).
  rewrite (rstrip_remove isspace x (lstrip_by isspace s) Hx).
  apply lstrip_rstrip_comm.
Qed.

Lemma all_chars_lstrip (q p : ascii -> bool) (s : string) :
  all_chars q s = true -> all_chars q (lstrip_by p s) = true.
Proof.
  induction s as [|c s IH]; [reflexivity|]. intros H.
  cbn [lstrip_by]. destruct (p c); [|exact H].
  simpl in H. apply andb_prop in H as [_ H]. exact (IH H).
Qed.

Lemma all_chars_rstrip (q p : ascii -> bool) (s : string) :
  all_chars q s = true -> all_chars q (rstrip_by p s) = true.
Proof.
  induction s as [|c s IH]; [reflexivity|]. intros H.
  simpl in H. apply andb_prop in H as [Hc H]. specialize (IH H).
  cbn [rstrip_by]. destruct (rstrip_by p s) as [|d r].
  - destruct (p c); [reflexivity|]. simpl. rewrite Hc. reflexivity.
  - cbn [all_chars] in *. rewrite Hc, IH. reflexivity.
Qed.

Lemma all_chars_strip (q : ascii -> bool) (s : string) :
  all_chars q s = true -> all_chars q (strip s) = true.
Proof. intros H. apply all_chars_rstrip, all_chars_lstrip, H. Qed.

Lemma all_chars_remove (q : ascii -> bool) (x : ascii) (s : string) :
  all_chars q s = true -> all_chars q (remove_char x s) = true.
Proof.
  induction s as [|c s IH]; [reflexivity|]. intros H.
  simpl in H. apply andb_prop in H as [Hc H]. specialize (IH H).
  cbn [remove_char]. destruct (Ascii.eqb c x); [exact IH|].
  cbn [all_chars]. rewrite Hc, IH. reflexivity.
Qed.

Lemma remove_char_removed (x : ascii) (s : string) :
  all_chars (fun c => negb (Ascii.eqb c x)) (remove_char x s) = true.
Proof.
  induction s as [|c s IH]; [reflexivity|].
  cbn [remove_char]. destruct (Ascii.eqb c x) eqn:E; [exact IH|].
  cbn [all_chars]. rewrite E, IH. reflexivity.
Qed.

(** The text the amount parser converts is, for the input with the two
    characters deleted, the stripped form of the text it converts for the
    input itself. *)
Lemma deleted_then_stripped (s : string) :
  remove_char "," (remove_char "$" (strip (remove_char "," (remove_char "$" s))))
  = strip (remove_char "," (remove_char "$" (strip s))).
Proof.
  assert (Hkeep : forall t,
             remove_char "," (remove_char "$" (strip (remove_char "," (remove_char "$" t))))
             = strip (remove_char "," (remove_char "$" t))).
  { intros t. rewrite (remove_char_none "$").
    - apply remove_char_none, all_chars_strip, remove_char_removed.
    - apply all_chars_strip, all_chars_remove, remove_char_removed. }
  rewrite Hkeep.
  rewrite (strip_remove "," (remove_char "$" s)) by reflexivity.
  rewrite (strip_remove "$" s) by reflexivity.
  rewrite <- (strip_remove "," (remove_char "$" (strip s))) by reflexivity.
  reflexivity.
Qed.

(** *** Blanks around the text given to [float] *)

Lemma rstrip_blank_last (p : ascii -> bool) (b : ascii) (y : string) :
  p b = true -> rstrip_by p (y ++ String b "") = rstrip_by p y.
Proof.
  intros Hb. induction y as [|c y IH].
  - simpl. rewrite Hb. reflexivity.
  - change (String c y ++ String b "") with (String c (y ++ String b "")).
    cbn [rstrip_by]. rewrite IH. reflexivity.
Qed.

Lemma lstrip_app_last (p : ascii -> bool) (b : ascii) (d : string) :
  p b = true ->
  lstrip_by p (d ++ String b "")
  = if is_empty (lstrip_by p d) then "" else lstrip_by p d ++ String b "".
Proof.
  intros Hb. induction d as [|c d IH].
  - simpl. rewrite Hb. reflexivity.
  - change (String c d ++ String b "") with (String c (d ++ String b "")).
    cbn [lstrip_by]. destruct (p c); [exact IH | reflexivity].
Qed.

Lemma inner_blank_front (b : ascii) (t : string) :
  c_isspace b = true ->
  float_from_string_inner (String b t) = float_from_string_inner t.
Proof. intros Hb. unfold float_from_string_inner. cbn [lstrip_by]. rewrite Hb. reflexivity. Qed.

Lemma inner_blank_back (b : ascii) (t : string) :
  c_isspace b = true ->
  float_from_string_inner (t ++ String b "") = float_from_string_inner t.
Proof.
  intros Hb. unfold float_from_string_inner.
  rewrite (lstrip_app_last c_isspace b t Hb).
  destruct (lstrip_by c_isspace t) as [|c r] eqn:E; [reflexivity|].
  cbn [is_empty].
  change (is_empty (String c r ++ String b "")) with false. cbv iota.
  rewrite rstrip_blank_last by exact Hb. reflexivity.
Qed.

Lemma blank_props (b : ascii) :
  c_isspace b = true ->
  isdigit b = false /\ Ascii.eqb b "_" = false /\ (code b <? 127) = true
  /\ (code b <? 128) = true /\ float_char b = true.
Proof.
  destruct b as [[] [] [] [] [] [] [] []]; vm_compute; intros H;
    try discriminate H; repeat split; reflexivity.
Qed.

Lemma drop_underscores_prev (p p' : ascii) (t : string) :
  isdigit p = isdigit p' -> Ascii.eqb p "_" = Ascii.eqb p' "_" ->
  drop_underscores p t = drop_underscores p' t.
Proof.
  intros H1 H2. destruct t as [|c t]; cbn [drop_underscores]; rewrite ?H1, ?H2; reflexivity.
Qed.

Lemma drop_underscores_front (b : ascii) (t : string) :
  c_isspace b = true ->
  drop_underscores NUL (String b t) = String b <$> drop_underscores NUL t.
Proof.
  intros Hb. apply blank_props in Hb as (Hd & Hu & _).
  cbn [drop_underscores]. rewrite Hu.
  change (Ascii.eqb NUL "_") with false. cbn [andb].
  rewrite (drop_underscores_prev b NUL t);
    [reflexivity | rewrite Hd; reflexivity | rewrite Hu; reflexivity].
Qed.

Lemma drop_underscores_back (b : ascii) (t : string) :
  isdigit b = false -> Ascii.eqb b "_" = false ->
  forall p, drop_underscores p (t ++ String b "")
            = (fun d => d ++ String b "") <$> drop_underscores p t.
Proof.
  intros Hd Hu. induction t as [|c t IH]; intros p.
  - change ("" ++ String b "") with (String b "").
    cbn [drop_underscores]. rewrite Hu, Hd.
    destruct (Ascii.eqb p "_"); reflexivity.
  - change (String c t ++ String b "") with (String c (t ++ String b "")).
    cbn [drop_underscores]. rewrite IH.
    destruct (Ascii.eqb c "_"); [destruct (isdigit p); reflexivity|].
    destruct (Ascii.eqb p "_" && negb (isdigit c)); [reflexivity|].
    destruct (drop_underscores c t); reflexivity.
Qed.

Lemma contains_app_last (x b : ascii) (t : string) :
  contains x (t ++ String b "") = contains x t || Ascii.eqb b x.
Proof.
  induction t as [|c t IH].
  - simpl. destruct (Ascii.eqb b x); reflexivity.
  - change (String c t ++ String b "") with (String c (t ++ String b "")).
    cbn [contains]. rewrite IH. destruct (Ascii.eqb c x); reflexivity.
Qed.

Lemma number_blank_front (b : ascii) (t : string) :
  c_isspace b = true ->
  string_to_number_with_underscores (String b t) = string_to_number_with_underscores t.
Proof.
  intros Hb. unfold string_to_number_with_underscores.
  rewrite (drop_underscores_front b t Hb).
  cbn [contains]. destruct (blank_props b Hb) as (_ & -> & _). cbn [orb].
  destruct (contains "_" t); [|apply inner_blank_front, Hb].
  destruct (drop_underscores NUL t); [|reflexivity].
  apply inner_blank_front, Hb.
Qed.

Lemma number_blank_back (b : ascii) (t : string) :
  c_isspace b = true ->
  string_to_number_with_underscores (t ++ String b "")
  = string_to_number_with_underscores t.
Proof.
  intros Hb. unfold string_to_number_with_underscores.
  destruct (blank_props b Hb) as (Hd & Hu & _).
  rewrite contains_app_last, Hu, orb_false_r.
  rewrite (drop_underscores_back b t Hd Hu).
  destruct (contains "_" t); [|apply inner_blank_back, Hb].
  destruct (drop_underscores NUL t); [|reflexivity].
  apply inner_blank_back, Hb.
Qed.

(** *** The characters of an accepted text *)

Lemma isdigit_float_char (c : ascii) : isdigit c = true -> float_char c = true.
Proof.
  unfold float_char. intros ->.
  apply orb_true_iff. left. apply orb_true_iff. left. apply orb_true_r.
Qed.

Lemma take_sign_chars (s : string) (b : bool) (r : string) :
  take_sign s = (b, r) ->
  all_chars float_char r = true -> all_chars float_char s = true.
Proof.
  destruct s as [|c s]; cbn [take_sign].
  - intros [= <- <-]. auto.
  - destruct (Ascii.eqb_spec c "-") as [->|_]; [intros [= <- <-] H; exact H|].
    destruct (Ascii.eqb_spec c "+") as [->|_]; [intros [= <- <-] H; exact H|].
    intros [= <- <-]. auto.
Qed.

Lemma take_digits_chars (s : string) :
  forall (a c a' c' : Z) (r : string),
    take_digits s a c = (a', c', r) ->
    all_chars float_char r = true -> all_chars float_char s = true.
Proof.
  induction s as [|x s IH]; intros a c a' c' r; cbn [take_digits].
  - intros [= <- <- <-]. auto.
  - destruct (isdigit x) eqn:Hx.
    + intros H Hr. cbn [all_chars].
      rewrite (isdigit_float_char x Hx), (IH _ _ _ _ _ H Hr). reflexivity.
    + intros [= <- <- <-]. auto.
Qed.

Lemma take_exponent_chars (s : string) (e : Z) (r : string) :
  take_exponent s = (e, r) ->
  all_chars float_char r = true -> all_chars float_char s = true.
Proof.
  destruct s as [|c s]; cbn [take_exponent]; [intros [= <- <-]; auto|].
  destruct (Ascii.eqb c "e" || Ascii.eqb c "E") eqn:Hc; [|intros [= <- <-]; auto].
  destruct (take_sign s) as [neg r1] eqn:E1.
  destruct (take_digits r1 0 0) as [[v cnt] r2] eqn:E2.
  destruct (cnt =? 0); intros [= <- <-]; [auto|]. intros Hr.
  cbn [all_chars].
  rewrite (take_sign_chars _ _ _ E1 (take_digits_chars _ _ _ _ _ _ E2 Hr)).
  apply orb_true_iff in Hc as [Hc|Hc]; apply Ascii.eqb_eq in Hc; subst c; reflexivity.
Qed.

Lemma strtod_chars (s : string) (v : float) (r : string) :
  strtod s = Some (v, r) ->
  all_chars float_char r = true -> all_chars float_char s = true.
Proof.
  unfold strtod.
  destruct (take_sign s) as [neg s0] eqn:E0.
  destruct (take_digits s0 0 0) as [[m1 n1] s1] eqn:E1.
  intros H Hr. apply (take_sign_chars _ _ _ E0). apply (take_digits_chars _ _ _ _ _ _ E1).
  destruct s1 as [|c s1'].
  - destruct (n1 + 0 =? 0); [discriminate|].
    destruct (take_exponent "") as [e s3] eqn:E3. injection H as _ <-.
    exact (take_exponent_chars _ _ _ E3 Hr).
  - destruct (Ascii.eqb_spec c ".") as [->|_].
    + destruct (take_digits s1' m1 0) as [[m2 n2] s2] eqn:E2.
      destruct (n1 + n2 =? 0); [discriminate|].
      destruct (take_exponent s2) as [e s3] eqn:E3. injection H as _ <-.
      cbn [all_chars].
      rewrite (take_digits_chars _ _ _ _ _ _ E2 (take_exponent_chars _ _ _ E3 Hr)).
      reflexivity.
    + destruct (n1 + 0 =? 0); [discriminate|].
      destruct (take_exponent (String c s1')) as [e s3] eqn:E3. injection H as _ <-.
      exact (take_exponent_chars _ _ _ E3 Hr).
Qed.

Lemma skip_word_chars (w : string) :
  all_chars (fun a => contains a "infatyn") w = true ->
  forall s r, skip_word w s = Some r ->
              all_chars float_char r = true -> all_chars float_char s = true.
Proof.
  induction w as [|a w IH]; intros Hw s r; cbn [skip_word].
  - intros [= <-]. auto.
  - cbn [all_chars] in Hw. apply andb_prop in Hw as [Ha Hw].
    destruct s as [|c s]; [discriminate|].
    destruct (Ascii.eqb (lower_char c) a && (code c <? 128)) eqn:Hc; [|discriminate].
    intros H Hr. apply andb_prop in Hc as [Hl Hasc]. apply Ascii.eqb_eq in Hl.
    cbn [all_chars]. rewrite (IH Hw _ _ H Hr), andb_true_r.
    unfold float_char. rewrite Hasc, Hl, Ha. apply orb_true_r.
Qed.

Lemma parse_inf_or_nan_chars (s : string) (v : float) (r : string) :
  parse_inf_or_nan s = Some (v, r) ->
  all_chars float_char r = true -> all_chars float_char s = true.
Proof.
  unfold parse_inf_or_nan.
  destruct (take_sign s) as [neg s0] eqn:E0.
  intros H Hr. apply (take_sign_chars _ _ _ E0).
  destruct (skip_word "inf" s0) as [r1|] eqn:E1.
  - apply (skip_word_chars "inf" eq_refl _ _ E1).
    destruct (skip_word "inity" r1) as [r2|] eqn:E2; injection H as _ <-.
    + exact (skip_word_chars "inity" eq_refl _ _ E2 Hr).
    + exact Hr.
  - destruct (skip_word "nan" s0) as [r1|] eqn:E2; [|discriminate].
    injection H as _ <-. exact (skip_word_chars "nan" eq_refl _ _ E2 Hr).
Qed.

Lemma all_chars_unstrip_l (q p : ascii -> bool) (s : string) :
  (forall c, p c = true -> q c = true) ->
  all_chars q (lstrip_by p s) = true -> all_chars q s = true.
Proof.
  intros Hpq. induction s as [|c s IH]; [auto|].
  cbn [lstrip_by]. destruct (p c) eqn:Hc; [|auto].
  intros H. cbn [all_chars]. rewrite (Hpq c Hc), (IH H). reflexivity.
Qed.

Lemma all_chars_unstrip_r (q p : ascii -> bool) (s : string) :
  (forall c, p c = true -> q c = true) ->
  all_chars q (rstrip_by p s) = true -> all_chars q s = true.
Proof.
  intros Hpq. induction s as [|c s IH]; [auto|].
  cbn [rstrip_by]. destruct (rstrip_by p s) as [|d r].
  - destruct (p c) eqn:Hc.
    + intros _. cbn [all_chars]. rewrite (Hpq c Hc), IH; auto.
    + cbn [all_chars]. intros H. apply andb_prop in H as [-> _]. rewrite IH; auto.
  - cbn [all_chars] in *. intros H. apply andb_prop in H as [-> H]. rewrite IH; auto.
Qed.

Lemma inner_chars (t : string) (v : float) :
  float_from_string_inner t = Return v -> all_chars float_char t = true.
Proof.
  unfold float_from_string_inner. destruct (is_empty _); [discriminate|].
  destruct (ascii_strtod _) as [[x [|c r]]|] eqn:E; try discriminate.
  intros _.
  apply (all_chars_unstrip_l float_char c_isspace); [intros c Hc; apply blank_props, Hc|].
  apply (all_chars_unstrip_r float_char c_isspace); [intros c Hc; apply blank_props, Hc|].
  unfold ascii_strtod in E.
  destruct (strtod _) as [[x' r']|] eqn:E1.
  - injection E as -> ->. exact (strtod_chars _ _ _ E1 eq_refl).
  - exact (parse_inf_or_nan_chars _ _ _ E eq_refl).
Qed.

Lemma drop_underscores_chars (t : string) :
  forall p t', drop_underscores p t = Some t' ->
               all_chars float_char t' = true -> all_chars float_char t = true.
Proof.
  induction t as [|c t IH]; intros p t'; cbn [drop_underscores]; [auto|].
  destruct (Ascii.eqb_spec c "_") as [->|_].
  - destruct (isdigit p); [|discriminate]. intros H Ht'.
    cbn [all_chars]. rewrite (IH _ _ H Ht'). reflexivity.
  - destruct (Ascii.eqb p "_" && negb (isdigit c)); [discriminate|].
    destruct (drop_underscores c t) as [d|] eqn:E; [|discriminate].
    intros [= <-]. cbn [all_chars]. intros H. apply andb_prop in H as [-> H].
    rewrite (IH _ _ E H). reflexivity.
Qed.

Lemma number_chars (t : string) (v : float) :
  string_to_number_with_underscores t = Return v -> all_chars float_char t = true.
Proof.
  unfold string_to_number_with_underscores.
  destruct (contains "_" t); [|apply inner_chars].
  destruct (drop_underscores NUL t) as [t'|] eqn:E; [|discriminate].
  intros H. exact (drop_underscores_chars _ _ _ E (inner_chars _ _ H)).
Qed.

Lemma number_cases (t : string) :
  string_to_number_with_underscores t = Raise ValueError
  \/ exists x, string_to_number_with_underscores t = Return x.
Proof.
  unfold string_to_number_with_underscores.
  destruct (contains _ _); [destruct (drop_underscores _ _)|];
    auto using float_from_string_inner_cases.
Qed.

Lemma all_chars_contains (q : ascii -> bool) (x : ascii) (t : string) :
  all_chars q t = true -> contains x t = true -> q x = true.
Proof.
  induction t as [|c t IH]; [discriminate|]. cbn [all_chars contains].
  intros H Hx. apply andb_prop in H as [Hc H].
  destruct (Ascii.eqb_spec c x) as [<-|_]; [exact Hc | exact (IH H Hx)].
Qed.

(** A text with a character [float] never reads is rejected. *)
Lemma number_bad_char (x : ascii) (t : string) :
  float_char x = false -> contains x t = true ->
  string_to_number_with_underscores t = Raise ValueError.
Proof.
  intros Hx Hin. destruct (number_cases t) as [H|[v H]]; [exact H|].
  apply number_chars in H. rewrite (all_chars_contains _ _ _ H Hin) in Hx. discriminate.
Qed.

(** *** White space around the text given to [float] *)

Lemma all_chars_app (q : ascii -> bool) (x y : string) :
  all_chars q (x ++ y) = all_chars q x && all_chars q y.
Proof.
  induction x as [|c x IH]; [reflexivity|].
  change (String c x ++ y) with (String c (x ++ y)).
  cbn [all_chars]. rewrite IH. apply andb_assoc.
Qed.

Lemma transform_nonascii_low (x : string) :
  all_chars (fun c => code c <? 127) x = true -> transform_nonascii x = x.
Proof.
  induction x as [|c x IH]; [reflexivity|]. cbn [all_chars transform_nonascii].
  intros H. apply andb_prop in H as [-> H]. rewrite (IH H). reflexivity.
Qed.

Lemma transform_nonascii_low_app (x y : string) :
  all_chars (fun c => code c <? 127) x = true ->
  transform_nonascii (x ++ y) = x ++ transform_nonascii y.
Proof.
  induction x as [|c x IH]; [reflexivity|]. cbn [all_chars].
  intros H. apply andb_prop in H as [Hc H].
  change (String c x ++ y) with (String c (x ++ y)).
  cbn [transform_nonascii]. rewrite Hc, (IH H). reflexivity.
Qed.

Lemma transform_nonascii_app (x y : string) :
  transform_nonascii (x ++ y) = transform_nonascii x ++ transform_nonascii y
  \/ transform_nonascii (x ++ y) = transform_nonascii x.
Proof.
  induction x as [|c x IH]; [left; reflexivity|].
  change (String c x ++ y) with (String c (x ++ y)).
  cbn [transform_nonascii].
  destruct (code c <? 127); [|destruct (isspace c); [|right; reflexivity]];
    destruct IH as [-> | ->]; auto.
Qed.

Lemma ascii_low_or_del (c : ascii) :
  (code c <? 128) = true -> (code c <? 127) = true \/ c = DEL.
Proof.
  destruct c as [[] [] [] [] [] [] [] []]; vm_compute; intros H;
    try discriminate H; auto.
Qed.

Lemma ascii_text_low_or_del (x : string) :
  all_chars (fun c => code c <? 128) x = true ->
  all_chars (fun c => code c <? 127) x = true \/ contains DEL x = true.
Proof.
  induction x as [|c x IH]; [left; reflexivity|]. cbn [all_chars contains].
  intros H. apply andb_prop in H as [Hc H].
  destruct (ascii_low_or_del c Hc) as [-> | ->].
  - destruct (IH H) as [-> | ->]; [left; reflexivity | right; apply orb_true_r].
  - right. reflexivity.
Qed.

Lemma transform_nonascii_del (x : string) :
  contains DEL x = true -> contains "?" (transform_nonascii x) = true.
Proof.
  induction x as [|c x IH]; [discriminate|]. cbn [contains transform_nonascii].
  destruct (Ascii.eqb_spec c DEL) as [->|_]; [intros _; reflexivity|].
  cbn [orb]. intros H.
  destruct (code c <? 127); [|destruct (isspace c); [|reflexivity]];
    cbn [contains]; rewrite (IH H); apply orb_true_r.
Qed.

Lemma space_kinds (w : ascii) :
  isspace w = true -> info_separator w = false ->
  c_isspace w = true \/ ((code w <? 127) = false /\ (code w <? 128) = false).
Proof.
  destruct w as [[] [] [] [] [] [] [] []]; vm_compute; intros H1 H2;
    try discriminate; auto.
Qed.

(** On an ASCII text the transformation changes nothing that [float]
    accepts. *)
Lemma number_transform_ascii (x : string) :
  all_chars (fun c => code c <? 128) x = true ->
  string_to_number_with_underscores (transform_nonascii x)
  = string_to_number_with_underscores x.
Proof.
  intros Hx. destruct (ascii_text_low_or_del x Hx) as [Hlow|Hdel].
  - rewrite (transform_nonascii_low x Hlow). reflexivity.
  - rewrite (number_bad_char "?" _ eq_refl (transform_nonascii_del x Hdel)).
    rewrite (number_bad_char DEL x eq_refl Hdel). reflexivity.
Qed.

Lemma py_float_space_front (w : ascii) (x : string) :
  isspace w = true -> info_separator w = false ->
  py_float (String w x) = py_float x.
Proof.
  intros Hw Hsep. unfold py_float, transform. cbn [all_chars].
  destruct (space_kinds w Hw Hsep) as [Hb | [H127 H128]].
  - destruct (blank_props w Hb) as (_ & _ & H127 & H128 & _).
    rewrite H128. cbn [andb].
    destruct (all_chars _ x); [apply number_blank_front, Hb|].
    cbn [transform_nonascii]. rewrite H127. apply number_blank_front, Hb.
  - rewrite H128. cbn [andb transform_nonascii]. rewrite H127, Hw.
    rewrite number_blank_front by reflexivity.
    destruct (all_chars _ x) eqn:Hx; [apply number_transform_ascii, Hx | reflexivity].
Qed.

Lemma py_float_space_back (w : ascii) (x : string) :
  isspace w = true -> info_separator w = false ->
  py_float (x ++ String w "") = py_float x.
Proof.
  intros Hw Hsep. unfold py_float, transform. rewrite all_chars_app. cbn [all_chars].
  destruct (space_kinds w Hw Hsep) as [Hb | [H127 H128]].
  - destruct (blank_props w Hb) as (_ & _ & H127 & H128 & _).
    rewrite H128, !andb_true_r.
    destruct (all_chars _ x); [apply number_blank_back, Hb|].
    destruct (transform_nonascii_app x (String w "")) as [-> | ->]; [|reflexivity].
    cbn [transform_nonascii]. rewrite H127. apply number_blank_back, Hb.
  - rewrite H128, andb_false_r.
    assert (Hone : transform_nonascii (String w "") = String " " "").
    { cbn [transform_nonascii]. rewrite H127, Hw. reflexivity. }
    destruct (all_chars _ x) eqn:Hx.
    + destruct (ascii_text_low_or_del x Hx) as [Hlow|Hdel].
      * rewrite (transform_nonascii_low_app x _ Hlow), Hone.
        apply number_blank_back. reflexivity.
      * rewrite (number_bad_char DEL x eq_refl Hdel).
        apply (number_bad_char "?" _ eq_refl), transform_nonascii_del.
        rewrite contains_app_last, Hdel. reflexivity.
    + destruct (transform_nonascii_app x (String w "")) as [-> | ->]; [|reflexivity].
      rewrite Hone. apply number_blank_back. reflexivity.
Qed.

Lemma py_float_lstrip (u : string) :
  all_chars (fun c => negb (info_separator c)) u = true ->
  py_float (lstrip_by isspace u) = py_float u.
Proof.
  induction u as [|w u IH]; [reflexivity|]. cbn [all_chars lstrip_by].
  intros H. apply andb_prop in H as [Hw H]. apply negb_true_iff in Hw.
  destruct (isspace w) eqn:Hs; [|reflexivity].
  rewrite (py_float_space_front w u Hs Hw). exact (IH H).
Qed.

Lemma py_float_app_spaces (ws : string) :
  all_chars isspace ws = true ->
  all_chars (fun c => negb (info_separator c)) ws = true ->
  forall y, py_float (y ++ ws) = py_float y.
Proof.
  induction ws as [|w ws IH]; intros Hs Hn y.
  - rewrite append_empty_r. reflexivity.
  - cbn [all_chars] in Hs, Hn.
    apply andb_prop in Hs as [Hw Hs]. apply andb_prop in Hn as [Hsep Hn].
    apply negb_true_iff in Hsep.
    change (y ++ String w ws) with (y ++ (String w "" ++ ws)).
    rewrite <- append_assoc, (IH Hs Hn). exact (py_float_space_back w y Hw Hsep).
Qed.

Lemma rstrip_split (p : ascii -> bool) (v : string) :
  exists ws, v = rstrip_by p v ++ ws /\ all_chars p ws = true.
Proof.
  induction v as [|c v (ws & Hv & Hws)]; [exists ""; auto|].
  cbn [rstrip_by]. destruct (rstrip_by p v) as [|d r].
  - destruct (p c) eqn:Hc.
    + exists (String c ws). cbn [all_chars]. rewrite Hc, Hws, Hv at 1. auto.
    + exists ws. rewrite Hv at 1. auto.
  - exists ws. rewrite Hv at 1. auto.
Qed.

(** For a text without information separators [float] gives the same
    result before and after [strip]. *)
Lemma py_float_strip (u : string) :
  all_chars (fun c => negb (info_separator c)) u = true ->
  py_float (strip u) = py_float u.
Proof.
  intros Hu. rewrite <- (py_float_lstrip u Hu). unfold strip.
  pose proof (all_chars_lstrip _ isspace u Hu) as Hv.
  destruct (rstrip_split isspace (lstrip_by isspace u)) as (ws & Hsplit & Hws).
  rewrite Hsplit at 2. rewrite Hsplit, all_chars_app in Hv.
  apply andb_prop in Hv as [_ Hv].
  symmetry. apply py_float_app_spaces; assumption.
Qed.

(** C10, as stated, fails: with an information separator next to the
    deleted character, the separator is stripped only once the character
    is gone. *)
Lemma parse_amount_deletion_counterexample :
  ~ (forall s : string,
       _parse_amount s = _parse_amount (remove_char "," (remove_char "$" s))).
Proof.
  intros H. specialize (H (String "$" (String (ascii_of_nat 28) "5"))).
  vm_compute in H. discriminate H.
Qed.

(** C10, amended. For every input without the characters U+001C..U+001F
    the amount parser gives the same result as for the input with every
    ['$'] and [','] deleted; ["1,2$3"] gives 123.00. *)
Theorem parse_amount_ignores_currency_marks :
  (forall s : string,
     all_chars (fun c => negb (info_separator c)) s = true ->
     _parse_amount s = _parse_amount (remove_char "," (remove_char "$" s)))
  /\ (exists x, _parse_amount "1,2$3" = Return (Some x) /\ format2 x = "123.00").
Proof.
  split.
  - intros s Hs. unfold _parse_amount. rewrite deleted_then_stripped.
    set (u := remove_char "," (remove_char "$" (strip s))).
    assert (Hu : all_chars (fun c => negb (info_separator c)) u = true)
      by (apply all_chars_remove, all_chars_remove, all_chars_strip, Hs).
    rewrite (py_float_strip u Hu).
    destruct u as [|c u'] eqn:Eu; [reflexivity|]. rewrite <- Eu in *.
    replace (is_empty u) with false by (rewrite Eu; reflexivity).
    destruct (strip u) as [|d r] eqn:Es; [|reflexivity].
    cbn [is_empty]. rewrite <- (py_float_strip u Hu), Es. reflexivity.
  - eexists. split; vm_compute; reflexivity.
Qed.

Lemma parse_amount_ignores_currency_marks_witness :
  _parse_amount " $1,234.5 " = _parse_amount (remove_char "," (remove_char "$" " $1,234.5 ")).
Proof.
  apply (proj1 parse_amount_ignores_currency_marks " $1,234.5 ").
  vm_compute. reflexivity.
Defined.

(** * Further properties of the store *)

(** ** The exceptions of a load *)

Lemma add_char_cases (c : ascii) (r : reader) :
  (field_limit <= len (field r) /\ parse_add_char c r = Raise CsvError)
  \/ (len (field r) < field_limit
      /\ parse_add_char c r
         = Return (mk_reader (state r) (field r ++ String c "") (fields r))).
Proof.
  unfold parse_add_char. destruct (Z.leb_spec field_limit (len (field r))); auto.
Qed.

(** A character is taken when the field has room; only a line break can
    bring the parser to skip the rest of the line, and the field grows by
    one character at most. *)
Lemma process_char_returns (r : reader) (c : ascii) :
  state r <> EAT_CRNL ->
  len (field r) < field_limit ->
  exists r', parse_process_char r (Some c) = Return r'
             /\ (state r' = EAT_CRNL -> is_newline c = true)
             /\ len (field r') <= len (field r) + 1.
Proof.
  intros Hst Hroom. destruct r as [st fld flds]. cbn [state field] in *.
  assert (Hadd : forall st', parse_add_char c (mk_reader st' fld flds)
                   = Return (mk_reader st' (fld ++ String c "") flds)).
  { intros st'. apply add_char_ok, Hroom. }
  assert (Hgrow : len (fld ++ String c "") <= len fld + 1).
  { rewrite len_app, len_cons. change (len "") with 0. lia. }
  pose proof (len_nonneg fld) as Hpos.
  unfold parse_process_char, start_field. cbn [state].
  destruct st; try contradiction;
    destruct (is_newline c) eqn:Hn;
    destruct (Ascii.eqb c DQUOTE); destruct (Ascii.eqb c ",");
    unfold set_state, parse_save_field; cbn [state field fields];
    rewrite ?Hadd; cbn [bind];
    eexists; (split; [reflexivity|]); cbn [state field];
    (split; [first [intros _; reflexivity | discriminate] | ]);
    first [exact Hgrow | change (len "") with 0; lia | lia].
Qed.

Lemma process_eol_returns (r : reader) :
  exists r', parse_process_char r None = Return r' /\ state r' <> EAT_CRNL
             /\ len (field r') <= len (field r).
Proof.
  destruct r as [st fld flds]. pose proof (len_nonneg fld) as Hpos.
  unfold parse_process_char, start_field. cbn [state].
  destruct st; eexists; (split; [reflexivity|]);
    unfold set_state, parse_save_field; cbn [state field];
    (split; [discriminate|]); first [change (len "") with 0; lia | lia].
Qed.

(** A line break that ends a record is followed by the end of its line, or
    by the LF of a CR LF pair: the parser never meets another character
    while it skips the break.  A text within the limit has no field above
    the limit. *)
Lemma read_records_returns (s : string) :
  forall r : reader,
    (state r = EAT_CRNL -> exists s', s = String LF s') ->
    len (field r) + len s <= field_limit ->
    exists l, read_records r (line_events s) = Return l.
Proof.
  induction s as [|c s IH]; intros r Hr Hlen.
  - cbn [line_events read_records]. destruct (_ || _); eauto.
  - rewrite len_cons in Hlen.
    pose proof (len_nonneg s) as Hs. pose proof (len_nonneg (field r)) as Hf.
    assert (Heol : forall r1 : reader,
               len (field r1) + len s <= field_limit ->
               exists l, read_records r1 (None :: line_events s) = Return l).
    { intros r1 H1. cbn [read_records].
      destruct (process_eol_returns r1) as (r2 & -> & Hr2 & Hl2). cbn [bind].
      destruct (at_record_start r2).
      - destruct (IH reset) as [l ->]; [discriminate|change (len (field reset)) with 0; lia|].
        cbn [bind]. eauto.
      - apply IH; [intros H; contradiction | lia]. }
    change (line_events (String c s))
      with (Some c :: (if match s with
                          | EmptyString => true
                          | String d _ =>
                              Ascii.eqb c LF || (Ascii.eqb c CR && negb (Ascii.eqb d LF))
                          end
                       then None :: line_events s else line_events s)).
    cbn [read_records].
    assert (Hdec : state r = EAT_CRNL \/ state r <> EAT_CRNL)
      by (destruct (state r); (left; reflexivity) || (right; discriminate)).
    destruct Hdec as [Heat|Hne].
    + destruct (Hr Heat) as (s' & [= -> ->]).
      unfold parse_process_char. rewrite Heat.
      change (is_newline LF) with true. cbn [bind].
      destruct s' as [|d s2]; [apply Heol; lia|].
      change (Ascii.eqb LF LF) with true. cbn [orb]. apply Heol. lia.
    + destruct (process_char_returns r c Hne ltac:(lia)) as (r1 & -> & Hr1 & Hl1).
      cbn [bind].
      destruct s as [|d s2]; [apply Heol; lia|].
      destruct (Ascii.eqb c LF || Ascii.eqb c CR && negb (Ascii.eqb d LF)) eqn:Hends;
        [apply Heol; lia|].
      apply IH; [|lia]. intros Heat1. specialize (Hr1 Heat1).
      apply orb_false_elim in Hends as [HLF Hcr].
      unfold is_newline in Hr1. rewrite HLF in Hr1. cbn [orb] in Hr1.
      rewrite Hr1 in Hcr. cbn [andb] in Hcr. apply negb_false_iff in Hcr.
      apply Ascii.eqb_eq in Hcr. subst d. eauto.
Qed.

Lemma csv_reader_returns (text : string) :
  len text <= field_limit -> exists recs, csv_reader text = Return recs.
Proof.
  intros H. apply read_records_returns; [discriminate|].
  change (len (field reset)) with 0. lia.
Qed.

(** The reader raises nothing but its own error. *)
Lemma process_char_error (r : reader) (ev : event) :
  parse_process_char r ev <> Raise ValueError.
Proof.
  unfold parse_process_char, start_field.
  destruct (state r); destruct ev as [c|];
    try discriminate;
    destruct (is_newline c); try discriminate;
    destruct (Ascii.eqb c DQUOTE); try discriminate;
    destruct (Ascii.eqb c ","); try discriminate;
    match goal with
    | |- context [parse_add_char ?c ?x] =>
        destruct (add_char_cases c x) as [[_ ->]|[_ ->]]; discriminate
    end.
Qed.

Lemma read_records_error (evs : list event) :
  forall r : reader, read_records r evs <> Raise ValueError.
Proof.
  induction evs as [|ev evs IH]; intros r.
  - cbn [read_records]. destruct (_ || _); discriminate.
  - cbn [read_records].
    destruct (parse_process_char r ev) as [r'|[]] eqn:E; cbn [bind];
      [|exfalso; exact (process_char_error r ev E)|discriminate].
    destruct ev; [apply IH|].
    destruct (at_record_start r'); [|apply IH].
    destruct (read_records reset evs) as [l|[]] eqn:E2; cbn [bind];
      [discriminate|exfalso; exact (IH reset E2)|discriminate].
Qed.

Lemma parse_amount_returns (s : string) : exists r, _parse_amount s = Return r.
Proof.
  unfold _parse_amount. destruct (is_empty _); eauto.
  destruct (py_float_cases (remove_char "," (remove_char "$" (strip s))))
    as [->|[x ->]]; cbn [bind try_except]; eauto.
  destruct (le_zero x); eauto.
Qed.

Lemma parse_date_returns (iso : string -> option datetime) (s : string) :
  exists r, _parse_date iso s = Return r.
Proof.
  unfold _parse_date. destruct (is_empty _); eauto.
  apply try_formats_returns. destruct (iso _); cbn; eauto.
Qed.

Lemma clean_row_returns (iso : string -> option datetime)
    (fm : gmap string string) (row : gmap string (option string)) :
  exists r, clean_row iso fm row = Return r.
Proof.
  unfold clean_row.
  destruct (parse_date_returns iso (str (row_get row (default "" (fm !! "date")))))
    as [d ->].
  destruct (parse_amount_returns (str (row_get row (default "" (fm !! "amount")))))
    as [a ->].
  cbn [bind]. destruct d, a; eauto. destruct (_ || _); eauto.
Qed.

Lemma clean_rows_returns (iso : string -> option datetime) (fm : gmap string string)
    (rows : list (gmap string (option string))) :
  exists l, clean_rows iso fm rows = Return l.
Proof.
  induction rows as [|row rows [l IH]]; cbn [clean_rows]; eauto.
  destruct (clean_row_returns iso fm row) as [r ->]. rewrite IH. cbn [bind]. eauto.
Qed.

(** Once the reader has returned the records, the load returns. *)
Lemma load_text_of_records (iso : string -> option datetime) (text : string)
    (recs : list (list string)) :
  csv_reader text = Return recs -> exists l, load_text iso text = Return l.
Proof.
  intros Hrecs. unfold load_text, DictReader. rewrite Hrecs. cbn [bind].
  destruct recs as [|names rows]; cbn [bind]; eauto.
  destruct names; eauto. apply clean_rows_returns.
Qed.

Lemma load_text_returns (iso : string -> option datetime) (text : string) :
  len text <= field_limit -> exists l, load_text iso text = Return l.
Proof.
  intros H. destruct (csv_reader_returns text H) as [recs Hrecs].
  exact (load_text_of_records iso text recs Hrecs).
Qed.

Lemma load_text_error (iso : string -> option datetime) (text : string) :
  load_text iso text <> Raise ValueError.
Proof.
  destruct (csv_reader text) as [recs|[]] eqn:E.
  - destruct (load_text_of_records iso text recs E) as [l ->]. discriminate.
  - exfalso. exact (read_records_error _ _ E).
  - unfold load_text, DictReader. rewrite E. discriminate.
Qed.

(** X1. The only exception [load_expenses] can raise is the error of the
    CSV reader for a field above its size limit: no [ValueError] of a
    conversion reaches the caller, and for a file of at most 131072
    characters (or no file) the load returns a list. *)
Theorem load_raises_only_field_limit (iso : string -> option datetime)
    (path : string) (fs : files) :
  (load_expenses iso path fs).2 <> Raise ValueError
  /\ (len (default "" (fs !! path)) <= field_limit ->
      exists l : list Expense, (load_expenses iso path fs).2 = Return l).
Proof.
  unfold load_expenses. cbn [snd]. split; [apply load_text_error|].
  intros Hlen. apply load_text_returns.
  unfold ensure_csv_header. destruct (fs !! path) as [content|] eqn:E.
  - destruct content as [|c content].
    + cbn [is_empty]. rewrite lookup_insert_eq. cbn [default]. discriminate.
    + cbn [is_empty]. rewrite E. exact Hlen.
  - rewrite lookup_insert_eq. cbn [default]. discriminate.
Qed.

Lemma load_raises_only_field_limit_witness :
  exists l : list Expense,
    (load_expenses (fun _ => None) "a.csv"
       (<["a.csv" := "Date,Amount" ++ String CR "x,y"]> ∅)).2 = Return l.
Proof.
  apply (proj2 (load_raises_only_field_limit (fun _ => None) "a.csv"
                  (<["a.csv" := "Date,Amount" ++ String CR "x,y"]> ∅))).
  vm_compute. intros H. discriminate H.
Defined.

(** ** Saving a list of expenses and loading it back *)

Lemma concat_cons (x : string) (xs : list string) :
  String.concat "" (x :: xs) = x ++ String.concat "" xs.
Proof. destruct xs; [symmetry; apply append_empty_r | reflexivity]. Qed.

Lemma read_expense_rows (es : list Expense) :
  Forall (fun e => Forall fits (expense_row e)) es ->
  csv_reader (String.concat "" (map (fun e => writerow (expense_row e)) es))
  = Return (map expense_row es).
Proof.
  induction 1 as [|e es He _ IH]; [reflexivity|].
  cbn [map]. rewrite concat_cons. unfold expense_row at 1. unfold expense_row in He.
  rewrite (read_row_then _ _ _ _ _ He), IH. reflexivity.
Qed.

Lemma read_saved (es : list Expense) :
  Forall (fun e => Forall fits (expense_row e)) es ->
  csv_reader (save_text es) = Return (STANDARD_COLUMNS :: map expense_row es).
Proof.
  intros Hfit. unfold save_text.
  change (header_text ++ ?r)
    with ("date,amount,category,description" ++ String CR (String LF "") ++ r).
  rewrite (csv_reader_header_line _ _ _ STANDARD_COLUMNS);
    [|reflexivity|right; reflexivity|reflexivity|reflexivity].
  rewrite (read_expense_rows es Hfit). reflexivity.
Qed.

Lemma storable_fits (es : list Expense) :
  Forall storable es -> Forall (fun e => Forall fits (expense_row e)) es.
Proof. intros H. apply (Forall_impl _ _ _ H). intros e (_ & _ & He). exact He. Qed.

Lemma clean_row_saved (iso : string -> option datetime) (e : Expense) :
  valid_expense e -> four_digit_year (date e) ->
  clean_row iso (build_field_map STANDARD_COLUMNS) (dict_row STANDARD_COLUMNS (expense_row e))
  = Return (Some e).
Proof.
  intros (Hd & Hpos & Hr & Hc & Hcs & Hds & Hdss) Hy.
  unfold clean_row, expense_row.
  destruct field_map_standard as (-> & -> & -> & ->). cbn [default].
  rewrite (row_get_last STANDARD_COLUMNS _ 0 "date"),
    (row_get_last STANDARD_COLUMNS _ 1 "amount"),
    (row_get_last STANDARD_COLUMNS _ 2 "category"),
    (row_get_last STANDARD_COLUMNS _ 3 "description");
    try first [reflexivity
              | apply last_index_of_4; [apply nodup_standard_header | reflexivity]].
  cbn [lookup list_lookup str].
  rewrite (parse_date_canonical iso _ Hy), (parse_amount_format2 _ Hpos Hr).
  cbn [bind]. rewrite Hcs, Hdss.
  destruct e as [d a c ds]. cbn [date amount category description] in *.
  destruct d as [|? ?]; [destruct Hd as (y & m & dd & _ & Hd); discriminate Hd|].
  destruct c; [contradiction|]. destruct ds; [contradiction|].
  reflexivity.
Qed.

Lemma clean_rows_saved (iso : string -> option datetime) (es : list Expense) :
  Forall storable es ->
  clean_rows iso (build_field_map STANDARD_COLUMNS)
    (map (dict_row STANDARD_COLUMNS) (map expense_row es))
  = Return es.
Proof.
  induction 1 as [|e es (He & Hy & _) _ IH]; [reflexivity|].
  cbn [map clean_rows]. rewrite (clean_row_saved iso e He Hy), IH. reflexivity.
Qed.

Lemma expense_rows_nonblank (es : list Expense) :
  filter (fun r => nonblank r = true) (map expense_row es) = map expense_row es.
Proof.
  induction es as [|e es IH]; [reflexivity|].
  cbn [map]. rewrite filter_cons_True by reflexivity. rewrite IH. reflexivity.
Qed.

Lemma load_text_saved_all (iso : string -> option datetime) (es : list Expense) :
  Forall storable es -> load_text iso (save_text es) = Return es.
Proof.
  intros Hes. unfold load_text, DictReader.
  rewrite (read_saved es (storable_fits es Hes)). cbn [bind].
  rewrite expense_rows_nonblank.
  change (clean_rows iso (build_field_map STANDARD_COLUMNS)
            (map (dict_row STANDARD_COLUMNS) (map expense_row es)) = Return es).
  apply clean_rows_saved, Hes.
Qed.

Lemma ensure_header_saved (es : list Expense) (path : string) (fs : files) :
  ensure_csv_header path (save_expenses es path fs) = save_expenses es path fs.
Proof.
  unfold ensure_csv_header, save_expenses. rewrite lookup_insert_eq. reflexivity.
Qed.

Lemma load_saved (iso : string -> option datetime) (es : list Expense)
    (path : string) (fs : files) :
  Forall storable es ->
  load_expenses iso path (save_expenses es path fs) = (save_expenses es path fs, Return es).
Proof.
  intros Hes. rewrite load_of_saved_text, (load_text_saved_all iso es Hes). reflexivity.
Qed.

(** X2. Saving a list of expenses and loading the file again returns the
    same list, in the same order, and leaves the saved file as it is, when
    every expense is valid, of the year 1000 or later, and has no cell of
    more than 131072 characters; fields with commas, quotes or line breaks
    inside are included. *)
Theorem save_load_roundtrip_list (iso : string -> option datetime) (es : list Expense)
    (path : string) (fs : files) :
  Forall storable es ->
  load_expenses iso path (save_expenses es path fs) = (save_expenses es path fs, Return es).
Proof. apply load_saved. Qed.

(** ** Stripping and lower-casing *)

Lemma lstrip_by_idem (p : ascii -> bool) (s : string) :
  lstrip_by p (lstrip_by p s) = lstrip_by p s.
Proof.
  induction s as [|c s IH]; [reflexivity|].
  cbn [lstrip_by]. destruct (p c) eqn:Hc; [exact IH|].
  cbn [lstrip_by]. rewrite Hc. reflexivity.
Qed.

Lemma rstrip_by_idem (p : ascii -> bool) (s : string) :
  rstrip_by p (rstrip_by p s) = rstrip_by p s.
Proof.
  induction s as [|c s IH]; [reflexivity|].
  cbn [rstrip_by]. destruct (rstrip_by p s) as [|d r] eqn:E.
  - destruct (p c) eqn:Hc; [reflexivity|]. cbn [rstrip_by]. rewrite Hc. reflexivity.
  - cbn [rstrip_by] in *. rewrite IH. reflexivity.
Qed.

Lemma strip_idem (s : string) : strip (strip s) = strip s.
Proof.
  unfold strip.
  rewrite (lstrip_rstrip_comm isspace (lstrip_by isspace s)).
  rewrite lstrip_by_idem, rstrip_by_idem. reflexivity.
Qed.

Lemma lstrip_by_all (p : ascii -> bool) (s : string) :
  all_chars p s = true -> lstrip_by p s = "".
Proof.
  induction s as [|c s IH]; [reflexivity|]. cbn [all_chars lstrip_by].
  intros H. apply andb_prop in H as [-> H]. exact (IH H).
Qed.

Lemma strip_blank (s : string) : all_chars isspace s = true -> strip s = "".
Proof. intros H. unfold strip. rewrite (lstrip_by_all _ _ H). reflexivity. Qed.

Lemma lower_char_idem (c : ascii) : lower_char (lower_char c) = lower_char c.
Proof. destruct c as [[] [] [] [] [] [] [] []]; reflexivity. Qed.

Lemma isspace_lower_char (c : ascii) : isspace (lower_char c) = isspace c.
Proof. destruct c as [[] [] [] [] [] [] [] []]; reflexivity. Qed.

Lemma lower_idem (s : string) : lower (lower s) = lower s.
Proof.
  induction s as [|c s IH]; [reflexivity|].
  cbn [lower]. rewrite lower_char_idem, IH. reflexivity.
Qed.

Lemma lstrip_lower (s : string) :
  lstrip_by isspace (lower s) = lower (lstrip_by isspace s).
Proof.
  induction s as [|c s IH]; [reflexivity|].
  cbn [lower lstrip_by]. rewrite isspace_lower_char.
  destruct (isspace c); [exact IH | reflexivity].
Qed.

Lemma rstrip_lower (s : string) :
  rstrip_by isspace (lower s) = lower (rstrip_by isspace s).
Proof.
  induction s as [|c s IH]; [reflexivity|].
  cbn [lower rstrip_by]. rewrite IH, isspace_lower_char.
  destruct (rstrip_by isspace s); [destruct (isspace c)|]; reflexivity.
Qed.

Lemma strip_lower (s : string) : strip (lower s) = lower (strip s).
Proof. unfold strip. rewrite lstrip_lower, rstrip_lower. reflexivity. Qed.

(** ** The column normaliser *)

Lemma mapping_values (c v : string) :
  mapping !! c = Some v -> v ∈ STANDARD_COLUMNS.
Proof.
  intros H. apply elem_of_list_to_map_2 in H.
  repeat (apply elem_of_cons in H as [H|H];
          [injection H as -> ->; apply (bool_decide_unpack _); vm_compute; exact I|]).
  apply elem_of_nil in H. contradiction.
Qed.

Lemma standardize_standard (v : string) :
  v ∈ STANDARD_COLUMNS -> _standardize_col_name v = v.
Proof.
  intros H. unfold STANDARD_COLUMNS in H.
  repeat (apply elem_of_cons in H as [->|H]; [vm_compute; reflexivity|]).
  apply elem_of_nil in H. contradiction.
Qed.

Lemma standardize_cases (h : string) :
  _standardize_col_name h ∈ STANDARD_COLUMNS
  \/ (mapping !! lower (strip h) = None /\ _standardize_col_name h = lower (strip h)).
Proof.
  unfold _standardize_col_name. destruct (mapping !! lower (strip h)) as [v|] eqn:E.
  - left. exact (mapping_values _ _ E).
  - right. split; reflexivity.
Qed.

Lemma standardize_idem (h : string) :
  _standardize_col_name (_standardize_col_name h) = _standardize_col_name h.
Proof.
  destruct (standardize_cases h) as [Hin|[Hnone ->]].
  - apply standardize_standard, Hin.
  - unfold _standardize_col_name.
    rewrite strip_lower, strip_idem, lower_idem, Hnone. reflexivity.
Qed.

(** X3. The column normaliser does not look at the case of a header or at
    the white space around it, and its results are fixed points: a name it
    returns is returned unchanged when normalised again. *)
Theorem standardize_col_name_stable (h : string) :
  _standardize_col_name (strip h) = _standardize_col_name h
  /\ _standardize_col_name (lower h) = _standardize_col_name h
  /\ _standardize_col_name (_standardize_col_name h) = _standardize_col_name h.
Proof.
  split; [|split].
  - unfold _standardize_col_name. rewrite strip_idem. reflexivity.
  - unfold _standardize_col_name. rewrite strip_lower, lower_idem. reflexivity.
  - apply standardize_idem.
Qed.

(** ** Blank cells *)

Lemma all_chars_false (p : ascii -> bool) (s : string) :
  all_chars p s = false -> exists x, contains x s = true /\ p x = false.
Proof.
  induction s as [|c s IH]; [discriminate|]. cbn [all_chars contains].
  destruct (p c) eqn:Hc.
  - cbn [andb]. intros H. destruct (IH H) as (x & Hx & Hp).
    exists x. rewrite Hx, orb_true_r. auto.
  - intros _. exists c. rewrite Ascii.eqb_refl. auto.
Qed.

Lemma all_chars_removed (q : ascii -> bool) (x : ascii) (s : string) :
  all_chars (fun c => q c || Ascii.eqb c x) s = true ->
  all_chars q (remove_char x s) = true.
Proof.
  induction s as [|c s IH]; [reflexivity|]. cbn [all_chars remove_char].
  intros H. apply andb_prop in H as [Hc H]. specialize (IH H).
  destruct (Ascii.eqb c x); [exact IH|].
  rewrite orb_false_r in Hc. cbn [all_chars]. rewrite Hc, IH. reflexivity.
Qed.

Lemma separator_kept (x : ascii) (t : string) :
  info_separator x = true ->
  all_chars isspace t = true ->
  contains x t = true -> contains x (transform t) = true.
Proof.
  intros Hx Ht Hin. unfold transform.
  destruct (all_chars (fun c => code c <? 128) t); [exact Hin|].
  induction t as [|c t IH]; [discriminate|].
  cbn [all_chars contains transform_nonascii] in *.
  apply andb_prop in Ht as [Hc Ht].
  destruct (code c <? 127) eqn:Hlow.
  - cbn [contains]. destruct (Ascii.eqb c x); [reflexivity|]. exact (IH Ht Hin).
  - rewrite Hc. cbn [contains].
    destruct (Ascii.eqb_spec c x) as [->|_].
    + exfalso. unfold info_separator in Hx. apply andb_prop in Hx as [_ Hx]. lia.
    + rewrite (IH Ht Hin). apply orb_true_r.
Qed.

(** [float] of a text of white space only raises [ValueError]. *)
Lemma py_float_blank (t : string) :
  all_chars isspace t = true -> py_float t = Raise ValueError.
Proof.
  intros Ht.
  destruct (all_chars (fun c => negb (info_separator c)) t) eqn:Hsep.
  - rewrite <- (py_float_lstrip t Hsep), (lstrip_by_all _ _ Ht). reflexivity.
  - apply all_chars_false in Hsep as (x & Hin & Hx). apply negb_false_iff in Hx.
    unfold py_float. apply (number_bad_char x).
    + unfold info_separator in Hx. destruct x as [[] [] [] [] [] [] [] []];
        try discriminate Hx; reflexivity.
    + apply separator_kept; assumption.
Qed.

Lemma parse_amount_blank (s : string) :
  all_chars (fun c => isspace c || Ascii.eqb c "$" || Ascii.eqb c ",") s = true ->
  _parse_amount s = Return None.
Proof.
  intros Hs. unfold _parse_amount.
  destruct (is_empty _); [reflexivity|].
  rewrite py_float_blank; [reflexivity|].
  apply all_chars_removed, all_chars_removed, all_chars_strip.
  revert Hs. apply all_chars_impl. intros c.
  destruct (isspace c), (Ascii.eqb c "$"), (Ascii.eqb c ","); auto.
Qed.

Lemma parse_date_blank (iso : string -> option datetime) (s : string) :
  all_chars isspace s = true -> _parse_date iso s = Return None.
Proof. intros Hs. unfold _parse_date. rewrite (strip_blank s Hs). reflexivity. Qed.

(** X4. A cell that holds nothing but white space gives no date, and a cell
    that holds nothing but white space, ['$'] and [','] gives no amount:
    neither parser reaches an exception or a default value on blank input. *)
Theorem blank_cells_give_no_value (iso : string -> option datetime) (s : string) :
  (all_chars isspace s = true -> _parse_date iso s = Return None)
  /\ (all_chars (fun c => isspace c || Ascii.eqb c "$" || Ascii.eqb c ",") s = true ->
      _parse_amount s = Return None).
Proof. split; [apply parse_date_blank | apply parse_amount_blank]. Qed.

Lemma blank_cells_give_no_value_witness :
  _parse_date (fun _ => None) "   " = Return None
  /\ _parse_amount " $ , " = Return None.
Proof.
  split.
  - apply (proj1 (blank_cells_give_no_value (fun _ => None) "   ")). reflexivity.
  - apply (proj2 (blank_cells_give_no_value (fun _ => None) " $ , ")). reflexivity.
Defined.

(** ** Dates that are parsed again *)

(** X5. A date the parser returns was printed by [strftime], and from the
    year 1000 on it is a fixed point of the parser: parsing it again gives
    the same date, so cleaned dates stay as they are. *)
Theorem parse_date_idempotent (iso : string -> option datetime) (v d : string) :
  _parse_date iso v = Return (Some d) ->
  exists dt, d = strftime dt
             /\ (1000 <= year dt -> _parse_date iso d = Return (Some d)).
Proof.
  intros H. destruct (parse_date_result_strftime iso v d H) as [dt ->].
  exists dt. split; [reflexivity|]. intros Hy.
  apply parse_date_canonical, strftime_four_digit, Hy.
Qed.

Lemma parse_date_idempotent_witness :
  exists dt, "2024-04-03" = strftime dt
             /\ (1000 <= year dt ->
                 _parse_date (fun _ => None) "2024-04-03" = Return (Some "2024-04-03")).
Proof.
  apply (parse_date_idempotent (fun _ => None) " 3/4/2024 " "2024-04-03").
  vm_compute. reflexivity.
Defined.

(** ** What every loaded expense satisfies *)

Lemma clean_row_stripped (iso : string -> option datetime)
    (fm : gmap string string) (row : gmap string (option string)) (e : Expense) :
  clean_row iso fm row = Return (Some e) ->
  strip (category e) = category e /\ strip (description e) = description e.
Proof.
  unfold clean_row.
  destruct (_parse_date iso _) as [[d|]|]; cbn [bind]; try discriminate;
    destruct (_parse_amount _) as [[a|]|]; cbn [bind]; try discriminate.
  destruct (_ || _); [discriminate|].
  intros [= <-]. cbn [category description]. split; apply strip_idem.
Qed.

Lemma clean_rows_all (P : Expense -> Prop) (iso : string -> option datetime)
    (fm : gmap string string) (rows : list (gmap string (option string))) :
  (forall row e, clean_row iso fm row = Return (Some e) -> P e) ->
  forall l, clean_rows iso fm rows = Return l -> Forall P l.
Proof.
  intros HP. induction rows as [|row rows IH]; intros l; cbn [clean_rows].
  - intros [= <-]. constructor.
  - destruct (clean_row iso fm row) as [oe|] eqn:Er; cbn [bind]; [|discriminate].
    destruct (clean_rows iso fm rows) as [l'|] eqn:El; cbn [bind]; [|discriminate].
    intros [= <-]. specialize (IH l' eq_refl).
    destruct oe as [e|]; [|exact IH].
    constructor; [exact (HP row e Er) | exact IH].
Qed.

Lemma load_text_all (P : Expense -> Prop) (iso : string -> option datetime) :
  (forall fm row e, clean_row iso fm row = Return (Some e) -> P e) ->
  forall text l, load_text iso text = Return l -> Forall P l.
Proof.
  intros HP text l. unfold load_text.
  destruct (DictReader text) as [[[names|] rows]|]; cbn [bind]; try discriminate.
  - destruct names; [intros [= <-]; constructor|].
    apply clean_rows_all. apply HP.
  - intros [= <-]. constructor.
Qed.

(** X6. Every expense [load_expenses] returns, from any file, has the date
    of a real calendar day as [strftime] prints it (the canonical form
    [YYYY-MM-DD] from the year 1000 on), a category and a description that
    are not empty and carry no white space at their ends, and an amount
    that is not below zero. *)
Theorem loaded_expenses_are_clean (iso : string -> option datetime)
    (path : string) (fs : files) (l : list Expense) :
  (load_expenses iso path fs).2 = Return l ->
  Forall (fun e => (exists dt, date e = strftime dt
                               /\ (1000 <= year dt -> canonical_date (date e)))
                   /\ category e <> "" /\ strip (category e) = category e
                   /\ description e <> "" /\ strip (description e) = description e
                   /\ SFltb (amount e) zero = false) l.
Proof.
  unfold load_expenses. cbn [snd]. apply load_text_all.
  intros fm row e He.
  destruct (clean_row_kept iso fm row e He) as ((dt & Hd) & Hc & Hds & Ha).
  destruct (clean_row_stripped iso fm row e He) as (Hcs & Hdss).
  split; [|auto 10].
  exists dt. split; [exact Hd|]. rewrite Hd. apply strftime_canonical.
Qed.

(** ** Loading twice *)

Lemma header_text_nonempty : is_empty header_text = false.
Proof. reflexivity. Qed.

Lemma ensure_csv_header_content (path : string) (fs : files) :
  exists content,
    ensure_csv_header path fs !! path = Some content /\ is_empty content = false.
Proof.
  unfold ensure_csv_header. destruct (fs !! path) as [content|] eqn:E.
  - destruct (is_empty content) eqn:Hc.
    + exists header_text. rewrite lookup_insert_eq. auto.
    + exists content. auto.
  - exists header_text. rewrite lookup_insert_eq. auto.
Qed.

Lemma ensure_csv_header_kept (path : string) (fs : files) (content : string) :
  fs !! path = Some content -> is_empty content = false ->
  ensure_csv_header path fs = fs.
Proof. intros E Hc. unfold ensure_csv_header. rewrite E, Hc. reflexivity. Qed.

Lemma ensure_csv_header_idem (path : string) (fs : files) :
  ensure_csv_header path (ensure_csv_header path fs) = ensure_csv_header path fs.
Proof.
  destruct (ensure_csv_header_content path fs) as (content & E & Hc).
  exact (ensure_csv_header_kept _ _ _ E Hc).
Qed.

Lemma ensure_csv_header_other (path p : string) (fs : files) :
  p <> path -> ensure_csv_header path fs !! p = fs !! p.
Proof.
  intros Hp. unfold ensure_csv_header.
  destruct (fs !! path) as [content|]; [destruct (is_empty content)|];
    try reflexivity; apply lookup_insert_ne; congruence.
Qed.

(** X7. Loading is repeatable and local: a second load of the same path
    returns the same result and changes no file, no other path is ever
    touched, and a file that is not empty is left exactly as it is. *)
Theorem load_expenses_repeatable (iso : string -> option datetime)
    (path : string) (fs : files) :
  load_expenses iso path (load_expenses iso path fs).1 = load_expenses iso path fs
  /\ (forall p, p <> path -> (load_expenses iso path fs).1 !! p = fs !! p)
  /\ (forall content, fs !! path = Some content -> content <> "" ->
        (load_expenses iso path fs).1 = fs).
Proof.
  unfold load_expenses. cbn [fst]. split; [|split].
  - rewrite ensure_csv_header_idem. reflexivity.
  - intros p Hp. apply ensure_csv_header_other, Hp.
  - intros content E Hc. apply (ensure_csv_header_kept _ _ content E).
    destruct content; [contradiction | reflexivity].
Qed.

Lemma load_expenses_repeatable_witness :
  (load_expenses (fun _ => None) "a.csv" (<["a.csv" := "x"]> ∅)).1 = <["a.csv" := "x"]> ∅.
Proof.
  apply (proj2 (proj2 (load_expenses_repeatable (fun _ => None) "a.csv"
                         (<["a.csv" := "x"]> ∅))) "x").
  - apply lookup_insert_eq.
  - discriminate.
Defined.

(** ** A header without one of the four columns *)

Lemma clean_row_missing (iso : string -> option datetime)
    (fm : gmap string string) (row : gmap string (option string)) (c : string) :
  c ∈ STANDARD_COLUMNS -> fm !! c = None -> row !! "" = None ->
  clean_row iso fm row = Return None.
Proof.
  intros Hc Hfm Hrow. unfold clean_row.
  assert (Hget : row_get row "" = Some "") by (unfold row_get; rewrite Hrow; reflexivity).
  destruct (parse_date_returns iso (str (row_get row (default "" (fm !! "date")))))
    as [d Ed].
  destruct (parse_amount_returns (str (row_get row (default "" (fm !! "amount")))))
    as [a Ea].
  unfold STANDARD_COLUMNS in Hc.
  repeat (apply elem_of_cons in Hc as [->|Hc]); [| | | |apply elem_of_nil in Hc; contradiction].
  - rewrite Hfm in *. cbn [default] in *. rewrite Hget in *. cbn [str] in *.
    rewrite Ea. reflexivity.
  - rewrite Ed. rewrite Hfm in *. cbn [default] in *. rewrite Hget in *. cbn [str] in *.
    cbn [bind]. destruct d; reflexivity.
  - rewrite Ed, Ea, Hfm. cbn [default bind]. rewrite Hget. cbn [str].
    destruct d, a; try reflexivity.
    change (strip "") with "". cbn [is_empty]. rewrite orb_true_r. reflexivity.
  - rewrite Ed, Ea, Hfm. cbn [default bind]. rewrite Hget. cbn [str].
    destruct d, a; try reflexivity.
    change (strip "") with "". cbn [is_empty]. rewrite orb_true_r. reflexivity.
Qed.

Lemma clean_rows_missing (iso : string -> option datetime)
    (fm : gmap string string) (rows : list (gmap string (option string))) :
  Forall (fun row => clean_row iso fm row = Return None) rows ->
  clean_rows iso fm rows = Return [].
Proof.
  induction 1 as [|row rows Hrow _ IH]; [reflexivity|].
  cbn [clean_rows]. rewrite Hrow, IH. reflexivity.
Qed.

Lemma load_text_missing (iso : string -> option datetime) (text : string)
    (names : list string) (recs : list (list string)) (c : string) :
  csv_reader text = Return (names :: recs) ->
  c ∈ STANDARD_COLUMNS ->
  (forall h, h ∈ names -> _standardize_col_name h <> c) ->
  "" ∉ names ->
  load_text iso text = Return [].
Proof.
  intros Hread Hc Hnames Hblank. unfold load_text, DictReader. rewrite Hread.
  cbn [bind]. destruct names as [|n ns]; [reflexivity|].
  apply clean_rows_missing. apply Forall_forall. intros row Hrow.
  apply list_elem_of_fmap in Hrow as (r & -> & _).
  apply (clean_row_missing iso _ _ c Hc).
  - unfold build_field_map. rewrite field_map_from_notin by exact Hnames.
    apply lookup_empty.
  - rewrite dict_row_fill, dict_fill_notin by exact Hblank. apply lookup_empty.
Qed.

(** X8. When no header of the file normalises to one of the four canonical
    columns (and no header cell is empty), no row can be validated: the
    load returns the empty list, whatever the rows hold, and leaves the
    file as it is. *)
Theorem missing_column_loads_nothing (iso : string -> option datetime)
    (path : string) (fs : files) (text : string)
    (names : list string) (recs : list (list string)) (c : string) :
  fs !! path = Some text ->
  csv_reader text = Return (names :: recs) ->
  c ∈ STANDARD_COLUMNS ->
  (forall h, h ∈ names -> _standardize_col_name h <> c) ->
  "" ∉ names ->
  load_expenses iso path fs = (fs, Return []).
Proof.
  intros Hfile Hread Hc Hnames Hblank. unfold load_expenses.
  assert (Hne : is_empty text = false).
  { destruct text; [discriminate Hread | reflexivity]. }
  rewrite (ensure_csv_header_kept _ _ _ Hfile Hne), Hfile. cbn [default id].
  rewrite (load_text_missing iso text names recs c); auto.
Qed.

Lemma missing_column_loads_nothing_witness :
  load_expenses (fun _ => None) "a.csv"
    (<["a.csv" := writerow ["date"; "amount"; "category"]
                  ++ writerow ["2024-01-01"; "5"; "food"]]> ∅)
  = (<["a.csv" := writerow ["date"; "amount"; "category"]
                  ++ writerow ["2024-01-01"; "5"; "food"]]> ∅, Return []).
Proof.
  apply (missing_column_loads_nothing (fun _ => None) "a.csv" _
           (writerow ["date"; "amount"; "category"] ++ writerow ["2024-01-01"; "5"; "food"])
           ["date"; "amount"; "category"] [["2024-01-01"; "5"; "food"]] "description").
  - apply lookup_insert_eq.
  - reflexivity.
  - apply (bool_decide_unpack _). vm_compute. exact I.
  - intros h Hh. repeat (apply elem_of_cons in Hh as [->|Hh]; [vm_compute; discriminate|]).
    apply elem_of_nil in Hh. contradiction.
  - apply (bool_decide_unpack _). vm_compute. exact I.
Defined.

Lemma loaded_expenses_are_clean_witness :
  Forall (fun e => (exists dt, date e = strftime dt
                               /\ (1000 <= year dt -> canonical_date (date e)))
                   /\ category e <> "" /\ strip (category e) = category e
                   /\ description e <> "" /\ strip (description e) = description e
                   /\ SFltb (amount e) zero = false)
    [mk_Expense "2024-01-01" (S754_zero false) "food" "lunch"].
Proof.
  apply (loaded_expenses_are_clean (fun _ => None) "a.csv"
           (<["a.csv" := "Date, Amount ,Type,Notes" ++ String LF
                           ("1/1/2024,0.001, food ,lunch" ++ String LF
                              ("2/1/2024,-3,food,dinner" ++ String LF ""))]> ∅)).
  reflexivity.
Defined.

Lemma save_load_roundtrip_list_witness :
  load_expenses (fun _ => None) "data/expenses.csv"
    (save_expenses
       [mk_Expense "2024-02-29" (S754_finite false 5429388417957888 (-42))
                   "food, drink" ("lunch " ++ String DQUOTE "special");
        mk_Expense "2023-12-31" (S754_finite false 5629499534213120 (-50))
                   "rent" ("flat" ++ String LF "garage")]
       "data/expenses.csv" ∅)
  = (save_expenses
       [mk_Expense "2024-02-29" (S754_finite false 5429388417957888 (-42))
                   "food, drink" ("lunch " ++ String DQUOTE "special");
        mk_Expense "2023-12-31" (S754_finite false 5629499534213120 (-50))
                   "rent" ("flat" ++ String LF "garage")]
       "data/expenses.csv" ∅,
     Return
       [mk_Expense "2024-02-29" (S754_finite false 5429388417957888 (-42))
                   "food, drink" ("lunch " ++ String DQUOTE "special");
        mk_Expense "2023-12-31" (S754_finite false 5629499534213120 (-50))
                   "rent" ("flat" ++ String LF "garage")]).
Proof.
  apply save_load_roundtrip_list.
  constructor; [|constructor; [|constructor]].
  - storable_closed 2024 2 29.
  - storable_closed 2023 12 31.
Defined.

(** ** Rows of any length *)

Lemma read_fields_end (row : list string) :
  row <> [] ->
  Forall fits row ->
  forall (flds : list string) (rest : string),
    read_records (mk_reader START_FIELD "" flds)
      (line_events (join_fields row ++ lineterminator ++ rest))
    = bind (read_records reset (line_events rest))
           (fun l => Return ((flds ++ row)%list :: l)).
Proof.
  induction row as [|f row IH]; [contradiction|]. intros _ Hfit flds rest.
  apply Forall_cons in Hfit as [Hf Hfit].
  destruct row as [|g row].
  - cbn [join_fields]. apply read_field_end, Hf.
  - change (join_fields (f :: g :: row))
      with (quote_field f ++ String "," (join_fields (g :: row))).
    rewrite append_assoc.
    change (String "," (join_fields (g :: row)) ++ lineterminator ++ rest)
      with (String "," (join_fields (g :: row) ++ lineterminator ++ rest)).
    rewrite (read_field_comma f START_FIELD);
      [|auto|unfold lineterminator; destruct (join_fields (g :: row)); discriminate|exact Hf].
    rewrite IH by (discriminate || exact Hfit). rewrite <- app_assoc. reflexivity.
Qed.

(** A written row of two fields or more, all within the limit, is read
    back, whatever follows. *)
Lemma read_row_general (f g : string) (row : list string) (rest : string) :
  Forall fits (f :: g :: row) ->
  csv_reader (writerow (f :: g :: row) ++ rest)
  = bind (csv_reader rest) (fun l => Return ((f :: g :: row) :: l)).
Proof.
  intros Hfit. apply Forall_cons in Hfit as [Hf Hfit].
  unfold csv_reader, writerow.
  change (join_fields (f :: g :: row))
    with (quote_field f ++ String "," (join_fields (g :: row))).
  replace (is_empty (quote_field f ++ String "," (join_fields (g :: row))))
    with false by (destruct (quote_field f); reflexivity).
  cbn [andb]. rewrite !append_assoc.
  change (String "," (join_fields (g :: row)) ++ lineterminator ++ rest)
    with (String "," (join_fields (g :: row) ++ lineterminator ++ rest)).
  unfold reset.
  rewrite (read_field_comma f START_RECORD);
    [|auto|unfold lineterminator; destruct (join_fields (g :: row)); discriminate|exact Hf].
  apply (read_fields_end (g :: row)); [discriminate | exact Hfit].
Qed.

Lemma read_header_then_row (f g : string) (row : list string) :
  Forall fits (f :: g :: row) ->
  csv_reader (header_text ++ writerow (f :: g :: row))
  = Return [STANDARD_COLUMNS; f :: g :: row].
Proof.
  intros Hfit.
  rewrite <- (append_empty_r (writerow (f :: g :: row))).
  change (header_text ++ ?r)
    with ("date,amount,category,description" ++ String CR (String LF "") ++ r).
  rewrite (csv_reader_header_line _ _ _ STANDARD_COLUMNS);
    [|reflexivity|right; reflexivity|reflexivity|reflexivity].
  rewrite (read_row_general f g row "" Hfit). reflexivity.
Qed.

Lemma canonical_date_nonempty (d : string) : canonical_date d -> is_empty d = false.
Proof. intros (y & m & dd & _ & ->). reflexivity. Qed.

Lemma standard_row_get (row : list string) :
  row_get (dict_row STANDARD_COLUMNS row) "date" = row !! 0%nat
  /\ row_get (dict_row STANDARD_COLUMNS row) "amount" = row !! 1%nat
  /\ row_get (dict_row STANDARD_COLUMNS row) "category" = row !! 2%nat
  /\ row_get (dict_row STANDARD_COLUMNS row) "description" = row !! 3%nat.
Proof.
  repeat split; apply row_get_last;
    first [reflexivity
          | apply last_index_of_4; [apply nodup_standard_header | reflexivity]].
Qed.

Lemma load_text_short_row (iso : string -> option datetime)
    (d a dd : string) (aa : float) (cells : list string) (c ds : string) :
  Forall fits (d :: a :: cells) ->
  _parse_date iso d = Return (Some dd) ->
  _parse_amount a = Return (Some aa) ->
  strip (str (cells !! 0%nat)) = c -> c <> "" ->
  strip (str (cells !! 1%nat)) = ds -> ds <> "" ->
  load_text iso (header_text ++ writerow (d :: a :: cells))
  = Return [mk_Expense dd aa c ds].
Proof.
  intros Hfit Hd Ha Hc Hcne Hds Hdsne.
  unfold load_text, DictReader. rewrite (read_header_then_row d a cells Hfit).
  cbn [bind filter map nonblank clean_rows].
  change (clean_rows iso (build_field_map STANDARD_COLUMNS)
            [dict_row STANDARD_COLUMNS (d :: a :: cells)]
          = Return [mk_Expense dd aa c ds]).
  cbn [clean_rows]. unfold clean_row.
  destruct field_map_standard as (-> & -> & -> & ->). cbn [default id].
  destruct (standard_row_get (d :: a :: cells)) as (-> & -> & -> & ->).
  change ((d :: a :: cells) !! 0%nat) with (Some d).
  change ((d :: a :: cells) !! 1%nat) with (Some a).
  change ((d :: a :: cells) !! 2%nat) with (cells !! 0%nat).
  change ((d :: a :: cells) !! 3%nat) with (cells !! 1%nat).
  cbn [str]. rewrite Hd, Ha. cbn [bind]. rewrite Hc, Hds.
  rewrite (parse_date_result_nonempty iso d dd Hd).
  destruct c; [contradiction|]. destruct ds; [contradiction|]. reflexivity.
Qed.

(** X9. A data row that is shorter than the header is not skipped for its
    missing cells: the reader fills them with [None], the loader turns that
    into the text ["None"], and a row of a date and an amount alone is
    loaded with the category and the description ["None"] (a row of three
    cells with the description ["None"]).  The cells are within the
    reader's limit of 131072 characters. *)
Theorem short_row_loads_None (iso : string -> option datetime)
    (path : string) (fs : files) (d a dd : string) (aa : float) :
  fits d -> fits a ->
  _parse_date iso d = Return (Some dd) ->
  _parse_amount a = Return (Some aa) ->
  (load_expenses iso path (<[path := header_text ++ writerow [d; a]]> fs)).2
  = Return [mk_Expense dd aa "None" "None"]
  /\ (forall c, fits c -> strip c <> "" ->
        (load_expenses iso path (<[path := header_text ++ writerow [d; a; c]]> fs)).2
        = Return [mk_Expense dd aa (strip c) "None"]).
Proof.
  intros Hfd Hfa Hd Ha.
  assert (Hload : forall cells,
             (load_expenses iso path
                (<[path := header_text ++ writerow (d :: a :: cells)]> fs)).2
             = load_text iso (header_text ++ writerow (d :: a :: cells))).
  { intros cells. unfold load_expenses. cbn [snd].
    rewrite (ensure_csv_header_kept _ _ (header_text ++ writerow (d :: a :: cells)));
      [|apply lookup_insert_eq|reflexivity].
    rewrite lookup_insert_eq. reflexivity. }
  split.
  - rewrite Hload. apply (load_text_short_row iso d a dd aa []); auto; discriminate.
  - intros c Hfc Hc. rewrite Hload.
    apply (load_text_short_row iso d a dd aa [c]); auto; discriminate.
Qed.

Lemma short_row_loads_None_witness :
  (load_expenses (fun _ => None) "a.csv"
     (<["a.csv" := header_text ++ writerow ["1/2/2024"; "$3"]]> ∅)).2
  = Return [mk_Expense "2024-02-01" (S754_finite false 6755399441055744 (-51))
                       "None" "None"].
Proof.
  apply (proj1 (short_row_loads_None (fun _ => None) "a.csv" ∅
                  "1/2/2024" "$3" "2024-02-01"
                  (S754_finite false 6755399441055744 (-51))
                  ltac:(vm_compute; intros H; discriminate H)
                  ltac:(vm_compute; intros H; discriminate H)
                  ltac:(vm_compute; reflexivity) ltac:(vm_compute; reflexivity))).
Defined.

(** ** Expenses recorded by [add_expense.py], loaded by [utils.py] *)

Lemma concat_app (xs ys : list string) :
  String.concat "" (xs ++ ys) = String.concat "" xs ++ String.concat "" ys.
Proof.
  induction xs as [|x xs IH]; [reflexivity|].
  change ((x :: xs) ++ ys)%list with (x :: (xs ++ ys))%list.
  rewrite !concat_cons, IH, append_assoc. reflexivity.
Qed.

(** The text of the rows written for a list of expenses. *)
Lemma rows_text_app (l es : list Expense) :
  String.concat "" (map (fun e => writerow (expense_row e)) (l ++ es))
  = String.concat "" (map (fun e => writerow (expense_row e)) l)
    ++ String.concat "" (map (fun e => writerow (expense_row e)) es).
Proof. rewrite map_app. apply concat_app. Qed.

Lemma add_expense_appends (d : string) (a : float) (c ds : string)
    (fs : files) (content : string) :
  fs !! AddExpense.DATA_FILE = Some content -> is_empty content = false ->
  AddExpense.add_expense d a c ds fs
  = <[AddExpense.DATA_FILE := content ++ writerow [d; format2 a; c; ds]]> fs.
Proof.
  intros E Hc. unfold AddExpense.add_expense, AddExpense.ensure_csv_header.
  rewrite E, Hc, E. reflexivity.
Qed.

Lemma add_expense_fresh (d : string) (a : float) (c ds : string) (fs : files) :
  fs !! AddExpense.DATA_FILE = None \/ fs !! AddExpense.DATA_FILE = Some "" ->
  AddExpense.add_expense d a c ds fs
  = <[AddExpense.DATA_FILE :=
        writerow AddExpense.header_row ++ writerow [d; format2 a; c; ds]]> fs.
Proof.
  intros [E|E]; unfold AddExpense.add_expense, AddExpense.ensure_csv_header;
    rewrite E; cbn [is_empty]; rewrite lookup_insert_eq, insert_insert_eq; reflexivity.
Qed.

Lemma add_expenses_append (es : list Expense) :
  forall (fs : files) (content : string),
    fs !! AddExpense.DATA_FILE = Some content -> is_empty content = false ->
    AddExpense.add_expenses es fs
    = <[AddExpense.DATA_FILE :=
          content ++ String.concat "" (map (fun e => writerow (expense_row e)) es)]> fs.
Proof.
  induction es as [|e es IH]; intros fs content E Hc.
  - cbn [map String.concat]. rewrite append_empty_r.
    symmetry. apply insert_id, E.
  - unfold AddExpense.add_expenses. cbn [foldl].
    rewrite (add_expense_appends _ _ _ _ fs content E Hc).
    fold (AddExpense.add_expenses es
            (<[AddExpense.DATA_FILE :=
                 content ++ writerow [date e; format2 (amount e); category e;
                                      description e]]> fs)).
    rewrite (IH _ (content ++ writerow [date e; format2 (amount e); category e;
                                        description e]));
      [|apply lookup_insert_eq|destruct content; [discriminate Hc | reflexivity]].
    rewrite insert_insert_eq. cbn [map]. rewrite concat_cons, append_assoc. reflexivity.
Qed.

Lemma add_expenses_fresh (e : Expense) (es : list Expense) (fs : files) :
  fs !! AddExpense.DATA_FILE = None \/ fs !! AddExpense.DATA_FILE = Some "" ->
  AddExpense.add_expenses (e :: es) fs
  = <[AddExpense.DATA_FILE :=
        writerow AddExpense.header_row
        ++ String.concat "" (map (fun e => writerow (expense_row e)) (e :: es))]> fs.
Proof.
  intros E. unfold AddExpense.add_expenses. cbn [foldl].
  rewrite (add_expense_fresh _ _ _ _ fs E).
  fold (AddExpense.add_expenses es
          (<[AddExpense.DATA_FILE :=
               writerow AddExpense.header_row
               ++ writerow [date e; format2 (amount e); category e; description e]]> fs)).
  rewrite (add_expenses_append es _
             (writerow AddExpense.header_row
              ++ writerow [date e; format2 (amount e); category e; description e]));
    [|apply lookup_insert_eq|reflexivity].
  rewrite insert_insert_eq. cbn [map]. rewrite concat_cons, append_assoc. reflexivity.
Qed.

(** A valid expense is read back from its row under any header of four
    distinct names that the normaliser sends to the four columns, in the
    order date, amount, category, description. *)
Lemma clean_row_valid (iso : string -> option datetime) (n1 n2 n3 n4 : string)
    (e : Expense) :
  NoDup [n1; n2; n3; n4] ->
  build_field_map [n1; n2; n3; n4] !! "date" = Some n1 ->
  build_field_map [n1; n2; n3; n4] !! "amount" = Some n2 ->
  build_field_map [n1; n2; n3; n4] !! "category" = Some n3 ->
  build_field_map [n1; n2; n3; n4] !! "description" = Some n4 ->
  valid_expense e -> four_digit_year (date e) ->
  clean_row iso (build_field_map [n1; n2; n3; n4])
    (dict_row [n1; n2; n3; n4] (expense_row e))
  = Return (Some e).
Proof.
  intros Hnd H1 H2 H3 H4 (Hd & Hpos & Hr & Hc & Hcs & Hds & Hdss) Hy.
  unfold clean_row, expense_row. rewrite H1, H2, H3, H4. cbn [default id].
  rewrite (row_get_last [n1; n2; n3; n4] _ 0 n1),
    (row_get_last [n1; n2; n3; n4] _ 1 n2),
    (row_get_last [n1; n2; n3; n4] _ 2 n3),
    (row_get_last [n1; n2; n3; n4] _ 3 n4);
    try first [reflexivity | apply last_index_of_4; [exact Hnd | reflexivity]].
  cbn [lookup list_lookup str].
  rewrite (parse_date_canonical iso _ Hy), (parse_amount_format2 _ Hpos Hr).
  cbn [bind]. rewrite Hcs, Hdss.
  rewrite (canonical_date_nonempty _ Hd).
  destruct e as [d a c ds]. cbn [date amount category description] in *.
  destruct c; [contradiction|]. destruct ds; [contradiction|].
  reflexivity.
Qed.

Lemma capital_header_fits : Forall fits ["Date"; "Amount"; "Category"; "Description"].
Proof. repeat constructor; vm_compute; intros H; discriminate H. Qed.

Lemma load_text_added (iso : string -> option datetime) (es : list Expense) :
  Forall storable es ->
  load_text iso (writerow AddExpense.header_row
                 ++ String.concat "" (map (fun e => writerow (expense_row e)) es))
  = Return es.
Proof.
  intros Hes. unfold load_text, DictReader, AddExpense.header_row.
  rewrite (read_row_then _ _ _ _ _ capital_header_fits).
  rewrite (read_expense_rows es (storable_fits es Hes)). cbn [bind].
  rewrite expense_rows_nonblank.
  change (clean_rows iso (build_field_map ["Date"; "Amount"; "Category"; "Description"])
            (map (dict_row ["Date"; "Amount"; "Category"; "Description"])
                 (map expense_row es)) = Return es).
  induction Hes as [|e es (He & Hy & _) _ IH]; [reflexivity|].
  cbn [map clean_rows]. rewrite IH.
  rewrite (clean_row_valid iso "Date" "Amount" "Category" "Description" e);
    [reflexivity| |vm_compute; reflexivity..|exact He|exact Hy].
  apply (bool_decide_unpack _). vm_compute. exact I.
Qed.

(** X10. Expenses recorded with [add_expense] into a data file that does
    not exist yet (or is empty) are all returned by [load_expenses], in the
    order they were added, although the two modules write different header
    lines: the capitalised header of [add_expense.py] normalises to the four
    canonical columns.  The expenses are valid, of the year 1000 or later,
    and have no cell of more than 131072 characters. *)
Theorem added_expenses_load_back (iso : string -> option datetime)
    (es : list Expense) (fs : files) :
  fs !! AddExpense.DATA_FILE = None \/ fs !! AddExpense.DATA_FILE = Some "" ->
  Forall storable es ->
  (load_expenses iso AddExpense.DATA_FILE (AddExpense.add_expenses es fs)).2
  = Return es.
Proof.
  intros E Hes. destruct es as [|e es].
  - change (AddExpense.add_expenses [] fs) with fs.
    unfold load_expenses, ensure_csv_header. cbn [snd].
    destruct E as [-> | ->]; cbn [is_empty]; rewrite lookup_insert_eq;
      apply load_header_only.
  - rewrite (add_expenses_fresh e es fs E). unfold load_expenses. cbn [snd].
    rewrite (ensure_csv_header_kept _ _ _ (lookup_insert_eq _ _ _)) by reflexivity.
    rewrite lookup_insert_eq. cbn [default id].
    apply load_text_added, Hes.
Qed.

Lemma added_expenses_load_back_witness :
  (load_expenses (fun _ => None) AddExpense.DATA_FILE
     (AddExpense.add_expenses
        [mk_Expense "2024-02-29" (S754_finite false 5429388417957888 (-42))
                    "food, drink" "lunch";
         mk_Expense "2023-12-31" (S754_finite false 5629499534213120 (-50))
                    "rent" "flat"] ∅)).2
  = Return [mk_Expense "2024-02-29" (S754_finite false 5429388417957888 (-42))
                       "food, drink" "lunch";
            mk_Expense "2023-12-31" (S754_finite false 5629499534213120 (-50))
                       "rent" "flat"].
Proof.
  apply added_expenses_load_back.
  - left. apply lookup_empty.
  - constructor; [|constructor; [|constructor]].
    + storable_closed 2024 2 29.
    + storable_closed 2023 12 31.
Defined.

(** X11. [add_expense] appends to a store that [save_expenses] wrote:
    after saving the expenses [l] to the data file and adding the expenses
    [es], loading returns [l] followed by [es].  All expenses are valid, of
    the year 1000 or later, and have no cell of more than 131072
    characters. *)
Theorem added_after_saved_load_back (iso : string -> option datetime)
    (l es : list Expense) (fs : files) :
  Forall storable l ->
  Forall storable es ->
  (load_expenses iso AddExpense.DATA_FILE
     (AddExpense.add_expenses es (save_expenses l AddExpense.DATA_FILE fs))).2
  = Return (l ++ es)%list.
Proof.
  intros Hl Hes.
  rewrite (add_expenses_append es _ (save_text l));
    [|apply lookup_insert_eq|reflexivity].
  unfold save_expenses. rewrite insert_insert_eq.
  unfold save_text at 1. rewrite append_assoc, <- rows_text_app.
  fold (save_text (l ++ es)). fold (save_expenses (l ++ es) AddExpense.DATA_FILE fs).
  rewrite load_saved by (apply Forall_app; auto). reflexivity.
Qed.

Lemma added_after_saved_load_back_witness :
  (load_expenses (fun _ => None) AddExpense.DATA_FILE
     (AddExpense.add_expenses
        [mk_Expense "2023-12-31" (S754_finite false 5629499534213120 (-50))
                    "rent" "flat"]
        (save_expenses
           [mk_Expense "2024-02-29" (S754_finite false 5429388417957888 (-42))
                       "food, drink" "lunch"]
           AddExpense.DATA_FILE ∅))).2
  = Return [mk_Expense "2024-02-29" (S754_finite false 5429388417957888 (-42))
                       "food, drink" "lunch";
            mk_Expense "2023-12-31" (S754_finite false 5629499534213120 (-50))
                       "rent" "flat"].
Proof.
  apply (added_after_saved_load_back (fun _ => None)
           [mk_Expense "2024-02-29" (S754_finite false 5429388417957888 (-42))
                       "food, drink" "lunch"]
           [mk_Expense "2023-12-31" (S754_finite false 5629499534213120 (-50))
                       "rent" "flat"]).
  - constructor; [|constructor]. storable_closed 2024 2 29.
  - constructor; [|constructor]. storable_closed 2023 12 31.
Defined.

(** ** The clean copy *)

Lemma export_clean_copy_eq (iso : string -> option datetime) (sib : string -> string)
    (source : string) (target : option string) (fs : files) (l : list Expense) :
  (load_expenses iso source fs).2 = Return l ->
  export_clean_copy iso sib source target fs
  = (save_expenses l (default (sib source) target) (ensure_csv_header source fs),
     Return (default (sib source) target)).
Proof.
  unfold export_clean_copy, load_expenses. cbn [snd]. intros ->.
  destruct target; reflexivity.
Qed.

Lemma export_clean_copy_raises (iso : string -> option datetime) (sib : string -> string)
    (source : string) (target : option string) (fs : files) (e : exn) :
  (load_expenses iso source fs).2 = Raise e ->
  export_clean_copy iso sib source target fs = (ensure_csv_header source fs, Raise e).
Proof.
  unfold export_clean_copy, load_expenses. cbn [snd]. intros ->. reflexivity.
Qed.

Lemma load_small_returns (iso : string -> option datetime) (path : string) (fs : files) :
  len (default "" (fs !! path)) <= field_limit ->
  exists l, (load_expenses iso path fs).2 = Return l.
Proof.
  intros Hlen. unfold load_expenses. cbn [snd]. apply load_text_returns.
  unfold ensure_csv_header. destruct (fs !! path) as [content|] eqn:E.
  - destruct content as [|c content].
    + cbn [is_empty]. rewrite lookup_insert_eq. cbn [default]. discriminate.
    + cbn [is_empty]. rewrite E. exact Hlen.
  - rewrite lookup_insert_eq. cbn [default]. discriminate.
Qed.

(** X12. When the load of the source returns, [export_clean_copy] returns
    the target path (the sibling [expenses_clean.csv] of the source by
    default); afterwards the target holds the standard header and one row
    for each expense loaded, a source that is another file and was not
    empty is unchanged, and no third file is touched.  When the load raises
    (a cell above the reader's limit), the export raises the same error and
    writes no target.  For a source of at most 131072 characters the export
    returns. *)
Theorem export_clean_copy_writes_loaded (iso : string -> option datetime)
    (sib : string -> string) (source : string) (target : option string) (fs : files) :
  (forall l : list Expense,
     (load_expenses iso source fs).2 = Return l ->
     exists fs' : files,
       export_clean_copy iso sib source target fs
       = (fs', Return (default (sib source) target))
       /\ fs' !! default (sib source) target = Some (save_text l)
       /\ (forall p, p <> default (sib source) target -> p <> source ->
             fs' !! p = fs !! p)
       /\ (forall content, fs !! source = Some content -> content <> "" ->
             source <> default (sib source) target -> fs' !! source = Some content))
  /\ (forall e : exn,
        (load_expenses iso source fs).2 = Raise e ->
        export_clean_copy iso sib source target fs
        = ((load_expenses iso source fs).1, Raise e))
  /\ (len (default "" (fs !! source)) <= field_limit ->
      (export_clean_copy iso sib source target fs).2
      = Return (default (sib source) target)).
Proof.
  split; [|split].
  - intros l Hl.
    exists (save_expenses l (default (sib source) target) (ensure_csv_header source fs)).
    split; [apply export_clean_copy_eq, Hl|].
    unfold save_expenses. split; [apply lookup_insert_eq|]. split.
    + intros p Hp Hs. rewrite lookup_insert_ne by congruence.
      apply ensure_csv_header_other, Hs.
    + intros content E Hc Hne. rewrite lookup_insert_ne by congruence.
      rewrite (ensure_csv_header_kept _ _ content E); [exact E|].
      destruct content; [contradiction | reflexivity].
  - intros e He. apply export_clean_copy_raises, He.
  - intros Hlen. destruct (load_small_returns iso source fs Hlen) as [l Hl].
    rewrite (export_clean_copy_eq iso sib source target fs l Hl). reflexivity.
Qed.

Lemma export_clean_copy_writes_loaded_witness :
  (export_clean_copy (fun _ => None) (fun _ => "expenses_clean.csv") "in.csv" None
     (<["in.csv" := "x"]> ∅)).2
  = Return "expenses_clean.csv".
Proof.
  apply (proj2 (proj2 (export_clean_copy_writes_loaded (fun _ => None)
                         (fun _ => "expenses_clean.csv") "in.csv" None
                         (<["in.csv" := "x"]> ∅)))).
  vm_compute. intros H. discriminate H.
Defined.

(** X13. The clean copy of a store that [save_expenses] wrote is that
    store again, when the expenses are valid, of the year 1000 or later and
    without a cell of more than 131072 characters: [export_clean_copy]
    gives the target the very content of the source, and loading the target
    returns the same expenses. *)
Theorem export_clean_copy_of_saved (iso : string -> option datetime)
    (sib : string -> string) (source : string) (target : option string)
    (fs : files) (es : list Expense) :
  Forall storable es ->
  export_clean_copy iso sib source target (save_expenses es source fs)
  = (save_expenses es (default (sib source) target) (save_expenses es source fs),
     Return (default (sib source) target))
  /\ (load_expenses iso (default (sib source) target)
        (export_clean_copy iso sib source target (save_expenses es source fs)).1).2
     = Return es.
Proof.
  intros Hes.
  assert (He : export_clean_copy iso sib source target (save_expenses es source fs)
               = (save_expenses es (default (sib source) target)
                    (save_expenses es source fs),
                  Return (default (sib source) target))).
  { rewrite (export_clean_copy_eq iso sib source target _ es).
    - rewrite ensure_header_saved. reflexivity.
    - rewrite (load_saved iso es source fs Hes). reflexivity. }
  split; [exact He|]. rewrite He. cbn [fst].
  rewrite load_saved by exact Hes. reflexivity.
Qed.

Lemma export_clean_copy_of_saved_witness :
  (load_expenses (fun _ => None) "out.csv"
     (export_clean_copy (fun _ => None) (fun _ => "expenses_clean.csv")
        "in.csv" (Some "out.csv")
        (save_expenses
           [mk_Expense "2024-02-29" (S754_finite false 5429388417957888 (-42))
                       "food, drink" "lunch"] "in.csv" ∅)).1).2
  = Return [mk_Expense "2024-02-29" (S754_finite false 5429388417957888 (-42))
                       "food, drink" "lunch"].
Proof.
  apply (proj2 (export_clean_copy_of_saved (fun _ => None)
                  (fun _ => "expenses_clean.csv") "in.csv" (Some "out.csv") ∅
                  [mk_Expense "2024-02-29" (S754_finite false 5429388417957888 (-42))
                              "food, drink" "lunch"]
                  ltac:(constructor; [|constructor]; storable_closed 2024 2 29))).
Defined.

(** ** The file [save_expenses] writes *)

(** X14. [save_expenses] writes a well-formed CSV file: read with
    [csv.reader], the saved file gives the standard header and then, for
    each expense in order, one record of exactly its four fields, provided
    that no field is longer than the 131072 characters the reader accepts.
    Commas, quotes and line breaks inside a field cannot split or merge
    rows. *)
Theorem saved_file_reads_back (es : list Expense) (path : string) (fs : files) :
  Forall (fun e => Forall fits (expense_row e)) es ->
  exists text,
    save_expenses es path fs !! path = Some text
    /\ csv_reader text = Return (STANDARD_COLUMNS :: map expense_row es).
Proof.
  intros Hfit. exists (save_text es).
  split; [apply lookup_insert_eq | apply read_saved, Hfit].
Qed.

Lemma saved_file_reads_back_witness :
  exists text,
    save_expenses
      [mk_Expense ("not a date," ++ String LF "") (S754_zero false) "" (String DQUOTE "")]
      "a.csv" ∅ !! "a.csv" = Some text
    /\ csv_reader text
       = Return [STANDARD_COLUMNS;
                 ["not a date," ++ String LF ""; "0.00"; ""; String DQUOTE ""]].
Proof.
  apply (saved_file_reads_back
           [mk_Expense ("not a date," ++ String LF "") (S754_zero false) ""
                       (String DQUOTE "")] "a.csv" ∅).
  repeat constructor; vm_compute; intros H; discriminate H.
Defined.

(** ** The sign of a converted number *)

Lemma shr_1_nonneg (mrs : shr_record) : 0 <= shr_m mrs -> 0 <= shr_m (shr_1 mrs).
Proof. destruct mrs as [[|[p|p|]|p] r s]; cbn; lia. Qed.

Lemma iter_shr_1_nonneg (p : positive) :
  forall mrs, 0 <= shr_m mrs -> 0 <= shr_m (SpecFloat.iter_pos shr_1 p mrs).
Proof.
  induction p as [p IH|p IH|]; intros mrs H; cbn [SpecFloat.iter_pos].
  - apply IH, IH, shr_1_nonneg, H.
  - apply IH, IH, H.
  - apply shr_1_nonneg, H.
Qed.

Lemma shr_fexp_nonneg (m e : Z) (l : location) :
  0 <= m -> 0 <= shr_m (shr_fexp prec emax m e l).1.
Proof.
  intros Hm. unfold shr_fexp, shr.
  assert (H0 : 0 <= shr_m (shr_record_of_loc m l)) by (destruct l as [|[]]; exact Hm).
  destruct (fexp prec emax (Zdigits2 m + e) - e); cbn [fst]; auto.
  apply iter_shr_1_nonneg, H0.
Qed.

Lemma round_nearest_even_nonneg (m : Z) (l : location) :
  0 <= m -> 0 <= round_nearest_even m l.
Proof. intros Hm. destruct l as [|[]]; cbn; try destruct (Z.even m); lia. Qed.

(** Rounding a magnitude gives a zero, a finite number or an infinity of
    the sign asked for, never a NaN. *)
Lemma binary_round_aux_sign (neg : bool) (m e : Z) (l : location) :
  0 <= m ->
  binary_round_aux prec emax neg m e l = S754_zero neg
  \/ binary_round_aux prec emax neg m e l = S754_infinity neg
  \/ exists m' e', binary_round_aux prec emax neg m e l = S754_finite neg m' e'.
Proof.
  intros Hm. unfold binary_round_aux.
  pose proof (shr_fexp_nonneg m e l Hm) as H1.
  destruct (shr_fexp prec emax m e l) as [mrs' e'] eqn:E1. cbn [fst] in H1.
  pose proof (shr_fexp_nonneg
                (round_nearest_even (shr_m mrs') (loc_of_shr_record mrs')) e' loc_Exact
                (round_nearest_even_nonneg _ _ H1)) as H2.
  destruct (shr_fexp prec emax _ e' loc_Exact) as [mrs'' e''] eqn:E2. cbn [fst] in H2.
  destruct (shr_m mrs'') as [|p|p]; [auto| |lia].
  destruct (e'' <=? emax - prec); eauto.
Qed.

Lemma nearest_double_sign (neg : bool) (q : Q) :
  nearest_double neg q = S754_zero neg
  \/ nearest_double neg q = S754_infinity neg
  \/ exists m e, nearest_double neg q = S754_finite neg m e.
Proof.
  unfold nearest_double. destruct (Qnum (Qred q)) as [|p|p]; auto.
  unfold round_ratio, SFdiv_core_binary.
  set (s := 0 - 0 - _).
  set (m' := match s with Z0 => Zpos p | Zpos _ => Z.shiftl (Zpos p) s | Zneg _ => 0 end).
  assert (Hm' : 0 <= m').
  { subst m'. destruct s; try lia. apply Z.shiftl_nonneg. lia. }
  pose proof (Z.div_pos m' (Zpos (Qden (Qred q))) Hm' ltac:(lia)) as Hq.
  unfold Z.div in Hq.
  destruct (Z.div_eucl m' (Zpos (Qden (Qred q)))) as [qq r].
  apply binary_round_aux_sign, Hq.
Qed.

Lemma nearest_double_negative (q : Q) : le_zero (nearest_double true q) = true.
Proof.
  destruct (nearest_double_sign true q) as [-> | [-> | (m & e & ->)]]; reflexivity.
Qed.

(** ** Converting a formatted amount of either sign *)

Lemma strtod_fixed2 (neg : bool) (n : Z) :
  0 <= n ->
  strtod (fixed2 neg n) = Some (nearest_double neg (Qmake n 100), "")
  /\ all_chars (fun c => numchar c || Ascii.eqb c "-") (fixed2 neg n) = true.
Proof.
  intros Hn.
  set (frac := String (digit_char (n / 10)) (String (digit_char n) "")).
  set (k := n / 100).
  set (s := digits_fuel (Z.to_nat (Z.log2 k)) k (String "." frac)).
  assert (Es : fixed2 neg n = (if neg then "-" else "") ++ s) by reflexivity.
  assert (Hk : 0 <= k) by (apply Z.div_pos; lia).
  assert (Hnum : all_chars numchar s = true).
  { apply digits_fuel_numchar. subst frac. cbn [all_chars].
    destruct (digit_char_spec (n / 10)) as [H1 _].
    destruct (digit_char_spec n) as [H2 _].
    rewrite (isdigit_numchar _ H1), (isdigit_numchar _ H2). reflexivity. }
  destruct (digits_fuel_head (Z.to_nat (Z.log2 k)) k (String "." frac))
    as (c & r & Ecr & Hc).
  fold s in Ecr.
  assert (Hsign : take_sign ((if neg then "-" else "") ++ s) = (neg, s)).
  { destruct neg; [reflexivity|].
    change ("" ++ s) with s. rewrite Ecr.
    apply isdigit_numchar, numchar_props in Hc. apply take_sign_plain; apply Hc. }
  split.
  - rewrite Es. unfold strtod. rewrite Hsign.
    destruct (take_digits_fuel (Z.to_nat (Z.log2 k)) k (String "." frac))
      as (len & Hlen & Htake).
    { rewrite Z2Nat.id by apply Z.log2_nonneg.
      destruct (Z.eq_dec k 0) as [->|Hk0]; [vm_compute; split; congruence|].
      pose proof (Z.log2_spec k ltac:(lia)). rewrite <- Z.add_1_r in *. lia. }
    unfold s. rewrite Htake.
    change (take_digits (String "." frac) (0 * 10 ^ len + k) (0 + len))
      with (0 * 10 ^ len + k, 0 + len, String "." frac).
    cbv iota beta. unfold frac.
    change (Ascii.eqb "." ".") with true. cbv iota.
    rewrite !take_digits_digit_mod.
    change (take_digits "" ?a ?c) with (a, c, "").
    cbv iota beta.
    replace (0 + len + (0 + 1 + 1) =? 0) with false by (symmetry; apply Z.eqb_neq; lia).
    cbn [take_exponent].
    replace (10 * (10 * (0 * 10 ^ len + k) + (n / 10) mod 10) + n mod 10) with n.
    + reflexivity.
    + subst k. pose proof (Z.div_mod n 10 ltac:(lia)).
      pose proof (Z.div_mod (n / 10) 10 ltac:(lia)).
      replace (n / 100) with (n / 10 / 10) by (rewrite Z.div_div by lia; reflexivity).
      lia.
  - rewrite Es, all_chars_app.
    rewrite (all_chars_impl numchar _ s) by (auto; intros x ->; reflexivity).
    destruct neg; reflexivity.
Qed.

(** A text of digits, points and minus signs that [strtod] reads to its
    end is what [float] converts. *)
Lemma py_float_of_strtod (s : string) (v : float) :
  all_chars (fun c => numchar c || Ascii.eqb c "-") s = true ->
  strtod s = Some (v, "") -> py_float s = Return v.
Proof.
  intros Hs Hv.
  assert (Hprops : forall x, numchar x || Ascii.eqb x "-" = true ->
            isspace x = false /\ c_isspace x = false /\ (code x <? 128) = true
            /\ Ascii.eqb x "_" = false).
  { intros x Hx. apply orb_prop in Hx as [Hx|Hx].
    - apply numchar_props in Hx. tauto.
    - apply Ascii.eqb_eq in Hx. subst x. repeat split; reflexivity. }
  assert (Hne : is_empty s = false) by (destruct s; [discriminate Hv | reflexivity]).
  assert (Hall : forall q : ascii -> bool,
             (forall x, numchar x || Ascii.eqb x "-" = true -> q x = true) ->
             all_chars q s = true).
  { intros q Hq. exact (all_chars_impl _ q s Hq Hs). }
  unfold py_float, string_to_number_with_underscores, transform.
  rewrite (Hall (fun c => code c <? 128)) by (intros x Hx; apply Hprops, Hx).
  rewrite contains_none by (apply Hall; intros x Hx; apply negb_true_iff, Hprops, Hx).
  unfold float_from_string_inner.
  destruct (strip_by_none c_isspace s) as [-> ->].
  { apply Hall. intros x Hx. apply negb_true_iff, Hprops, Hx. }
  rewrite Hne. unfold ascii_strtod. rewrite Hv. reflexivity.
Qed.

Lemma parse_amount_of_strtod (s : string) (v : float) :
  all_chars (fun c => numchar c || Ascii.eqb c "-") s = true ->
  strtod s = Some (v, "") ->
  _parse_amount s = if le_zero v then Return None else Return (Some (round2 v)).
Proof.
  intros Hs Hv.
  assert (Hprops : forall x, numchar x || Ascii.eqb x "-" = true ->
            isspace x = false /\ Ascii.eqb x "$" = false /\ Ascii.eqb x "," = false).
  { intros x Hx. apply orb_prop in Hx as [Hx|Hx].
    - apply numchar_props in Hx. tauto.
    - apply Ascii.eqb_eq in Hx. subst x. repeat split; reflexivity. }
  assert (Hall : forall q : ascii -> bool,
             (forall x, numchar x || Ascii.eqb x "-" = true -> q x = true) ->
             all_chars q s = true).
  { intros q Hq. exact (all_chars_impl _ q s Hq Hs). }
  assert (Hstrip : strip s = s).
  { unfold strip. destruct (strip_by_none isspace s) as [-> ->]; [|reflexivity].
    apply Hall. intros x Hx. apply negb_true_iff, Hprops, Hx. }
  unfold _parse_amount. rewrite Hstrip.
  rewrite (remove_char_none "$"), (remove_char_none ",");
    try (apply Hall; intros x Hx; apply negb_true_iff, Hprops, Hx).
  replace (is_empty s) with false by (destruct s; [discriminate Hv | reflexivity]).
  rewrite (py_float_of_strtod s v Hs Hv). cbn [bind try_except].
  destruct (le_zero v); reflexivity.
Qed.

(** The formatted text of an amount that is zero or below gives no amount. *)
Lemma parse_amount_nonpositive (a : float) :
  le_zero a = true -> _parse_amount (format2 a) = Return None.
Proof.
  intros Ha. destruct a as [[]|[]| |[] m e]; try discriminate Ha;
    [vm_compute; reflexivity | vm_compute; reflexivity | vm_compute; reflexivity |].
  destruct (strtod_fixed2 true (hundredths m e) (hundredths_nonneg m e)) as [Hv Hs].
  change (format2 (S754_finite true m e)) with (fixed2 true (hundredths m e)).
  rewrite (parse_amount_of_strtod _ _ Hs Hv), nearest_double_negative. reflexivity.
Qed.

(** ** Rows that are added and then skipped *)

Lemma read_expense_rows_then (es : list Expense) (rest : string) :
  Forall (fun e => Forall fits (expense_row e)) es ->
  csv_reader (String.concat "" (map (fun e => writerow (expense_row e)) es) ++ rest)
  = bind (csv_reader rest) (fun l => Return (map expense_row es ++ l)%list).
Proof.
  induction 1 as [|e es He _ IH].
  - change (csv_reader rest = bind (csv_reader rest) (fun l => Return l)).
    destruct (csv_reader rest); reflexivity.
  - cbn [map]. rewrite concat_cons, append_assoc. unfold expense_row at 1.
    unfold expense_row in He.
    rewrite (read_row_then _ _ _ _ _ He), IH. destruct (csv_reader rest); reflexivity.
Qed.

Lemma clean_rows_app (iso : string -> option datetime) (fm : gmap string string)
    (xs ys : list (gmap string (option string))) :
  clean_rows iso fm (xs ++ ys)
  = bind (clean_rows iso fm xs) (fun a =>
    bind (clean_rows iso fm ys) (fun b => Return (a ++ b)%list)).
Proof.
  induction xs as [|x xs IH].
  - cbn [app clean_rows bind]. destruct (clean_rows iso fm ys); reflexivity.
  - change ((x :: xs) ++ ys)%list with (x :: (xs ++ ys))%list. cbn [clean_rows].
    rewrite IH. destruct (clean_row iso fm x) as [oe|]; cbn [bind]; [|reflexivity].
    destruct (clean_rows iso fm xs) as [a|]; cbn [bind]; [|reflexivity].
    destruct (clean_rows iso fm ys) as [b|]; cbn [bind]; [|reflexivity].
    destruct oe; reflexivity.
Qed.

(** The validation of a row of four cells under a header of four distinct
    names that stand for the four columns. *)
Lemma clean_row_cells (iso : string -> option datetime) (n1 n2 n3 n4 : string)
    (f1 f2 f3 f4 : string) :
  NoDup [n1; n2; n3; n4] ->
  build_field_map [n1; n2; n3; n4] !! "date" = Some n1 ->
  build_field_map [n1; n2; n3; n4] !! "amount" = Some n2 ->
  build_field_map [n1; n2; n3; n4] !! "category" = Some n3 ->
  build_field_map [n1; n2; n3; n4] !! "description" = Some n4 ->
  clean_row iso (build_field_map [n1; n2; n3; n4]) (dict_row [n1; n2; n3; n4] [f1; f2; f3; f4])
  = bind (_parse_date iso f1) (fun date =>
    bind (_parse_amount f2) (fun amount =>
      match date, amount with
      | Some d, Some a =>
          if is_empty d || is_empty (strip f3) || is_empty (strip f4)
          then Return None
          else Return (Some (mk_Expense d a (strip f3) (strip f4)))
      | _, _ => Return None
      end)).
Proof.
  intros Hnd H1 H2 H3 H4.
  unfold clean_row. rewrite H1, H2, H3, H4. cbn [default id].
  rewrite (row_get_last [n1; n2; n3; n4] _ 0 n1),
    (row_get_last [n1; n2; n3; n4] _ 1 n2),
    (row_get_last [n1; n2; n3; n4] _ 2 n3),
    (row_get_last [n1; n2; n3; n4] _ 3 n4);
    first [reflexivity | apply last_index_of_4; [exact Hnd | reflexivity]].
Qed.

Lemma clean_row_bad_amount (iso : string -> option datetime) (n1 n2 n3 n4 : string)
    (f1 f2 f3 f4 : string) :
  NoDup [n1; n2; n3; n4] ->
  build_field_map [n1; n2; n3; n4] !! "date" = Some n1 ->
  build_field_map [n1; n2; n3; n4] !! "amount" = Some n2 ->
  build_field_map [n1; n2; n3; n4] !! "category" = Some n3 ->
  build_field_map [n1; n2; n3; n4] !! "description" = Some n4 ->
  _parse_amount f2 = Return None ->
  clean_row iso (build_field_map [n1; n2; n3; n4]) (dict_row [n1; n2; n3; n4] [f1; f2; f3; f4])
  = Return None.
Proof.
  intros Hnd H1 H2 H3 H4 Ha.
  rewrite (clean_row_cells iso n1 n2 n3 n4 f1 f2 f3 f4 Hnd H1 H2 H3 H4), Ha.
  destruct (parse_date_returns iso f1) as [[d|] ->]; reflexivity.
Qed.

Lemma capital_header_map :
  NoDup AddExpense.header_row
  /\ build_field_map AddExpense.header_row !! "date" = Some "Date"
  /\ build_field_map AddExpense.header_row !! "amount" = Some "Amount"
  /\ build_field_map AddExpense.header_row !! "category" = Some "Category"
  /\ build_field_map AddExpense.header_row !! "description" = Some "Description".
Proof.
  split; [apply (bool_decide_unpack _); vm_compute; exact I|].
  repeat split; vm_compute; reflexivity.
Qed.

(** A file of the header of [add_expense.py] and one row. *)
Lemma load_text_one_added (iso : string -> option datetime) (f1 f2 f3 f4 : string) :
  Forall fits [f1; f2; f3; f4] ->
  load_text iso (writerow AddExpense.header_row ++ writerow [f1; f2; f3; f4])
  = bind (clean_row iso (build_field_map AddExpense.header_row)
                    (dict_row AddExpense.header_row [f1; f2; f3; f4]))
         (fun e => Return (match e with Some x => [x] | None => [] end)).
Proof.
  intros Hfit. unfold load_text, DictReader, AddExpense.header_row.
  rewrite (read_row_then _ _ _ _ _ capital_header_fits).
  rewrite <- (append_empty_r (writerow [f1; f2; f3; f4])).
  rewrite (read_row_then _ _ _ _ _ Hfit).
  reflexivity.
Qed.

Lemma load_text_saved_then_row (iso : string -> option datetime) (l : list Expense)
    (f1 f2 f3 f4 : string) :
  Forall storable l ->
  Forall fits [f1; f2; f3; f4] ->
  load_text iso (save_text l ++ writerow [f1; f2; f3; f4])
  = bind (clean_row iso (build_field_map STANDARD_COLUMNS)
                    (dict_row STANDARD_COLUMNS [f1; f2; f3; f4]))
         (fun e => Return (l ++ match e with Some x => [x] | None => [] end)%list).
Proof.
  intros Hl Hfit. unfold load_text, DictReader, save_text.
  rewrite append_assoc.
  change (header_text ++ ?r)
    with ("date,amount,category,description" ++ String CR (String LF "") ++ r).
  rewrite (csv_reader_header_line _ _ _ STANDARD_COLUMNS);
    [|reflexivity|right; reflexivity|reflexivity|reflexivity].
  rewrite (read_expense_rows_then l _ (storable_fits l Hl)).
  rewrite <- (append_empty_r (writerow [f1; f2; f3; f4])).
  rewrite (read_row_then _ _ _ _ _ Hfit).
  cbn [bind csv_reader line_events read_records is_empty negb orb in_quoted reset state field].
  rewrite filter_app, expense_rows_nonblank.
  rewrite filter_cons_True by reflexivity. rewrite filter_nil, map_app.
  change (clean_rows iso (build_field_map STANDARD_COLUMNS)
            (map (dict_row STANDARD_COLUMNS) (map expense_row l)
             ++ [dict_row STANDARD_COLUMNS [f1; f2; f3; f4]])
          = bind (clean_row iso (build_field_map STANDARD_COLUMNS)
                            (dict_row STANDARD_COLUMNS [f1; f2; f3; f4]))
                 (fun e => Return (l ++ match e with Some x => [x] | None => [] end)%list)).
  rewrite clean_rows_app, (clean_rows_saved iso l Hl). cbn [bind clean_rows].
  destruct (clean_row iso _ _) as [[e|]|]; reflexivity.
Qed.

(** X15. [add_expense] writes any amount it is given.  A row with an
    amount that is zero or below is stored in the data file and then
    skipped by [load_expenses], without disturbing the rows around it: on a
    fresh data file the load returns nothing, after the saved expenses [l]
    it returns [l].  The cells of the row are within the reader's limit of
    131072 characters, and the expenses of [l] are valid, of the year 1000
    or later and within that limit. *)
Theorem nonpositive_amount_added_not_loaded (iso : string -> option datetime)
    (d : string) (a : float) (c ds : string) :
  le_zero a = true ->
  Forall fits [d; format2 a; c; ds] ->
  (forall fs,
     fs !! AddExpense.DATA_FILE = None \/ fs !! AddExpense.DATA_FILE = Some "" ->
     (load_expenses iso AddExpense.DATA_FILE (AddExpense.add_expense d a c ds fs)).2
     = Return [])
  /\ (forall fs l,
        Forall storable l ->
        (load_expenses iso AddExpense.DATA_FILE
           (AddExpense.add_expense d a c ds (save_expenses l AddExpense.DATA_FILE fs))).2
        = Return l).
Proof.
  intros Ha Hfit. pose proof (parse_amount_nonpositive a Ha) as Hbad. split.
  - intros fs E. rewrite (add_expense_fresh d a c ds fs E).
    unfold load_expenses. cbn [snd].
    rewrite (ensure_csv_header_kept _ _ _ (lookup_insert_eq _ _ _)) by reflexivity.
    rewrite lookup_insert_eq. cbn [default id].
    rewrite (load_text_one_added iso _ _ _ _ Hfit).
    destruct capital_header_map as (Hnd & H1 & H2 & H3 & H4).
    unfold AddExpense.header_row in *.
    rewrite (clean_row_bad_amount iso _ _ _ _ d (format2 a) c ds Hnd H1 H2 H3 H4 Hbad).
    reflexivity.
  - intros fs l Hl.
    rewrite (add_expense_appends d a c ds _ (save_text l));
      [|apply lookup_insert_eq|reflexivity].
    unfold load_expenses. cbn [snd].
    rewrite (ensure_csv_header_kept _ _ _ (lookup_insert_eq _ _ _))
      by (unfold save_text; reflexivity).
    rewrite lookup_insert_eq. cbn [default id].
    rewrite (load_text_saved_then_row iso l _ _ _ _ Hl Hfit).
    destruct field_map_standard as (H1 & H2 & H3 & H4).
    unfold STANDARD_COLUMNS in *.
    rewrite (clean_row_bad_amount iso _ _ _ _ d (format2 a) c ds
               nodup_standard_header H1 H2 H3 H4 Hbad).
    cbn [bind]. rewrite app_nil_r. reflexivity.
Qed.

Lemma nonpositive_amount_added_not_loaded_witness :
  (load_expenses (fun _ => None) AddExpense.DATA_FILE
     (AddExpense.add_expense "2024-01-01" (S754_finite true 5629499534213120 (-50))
        "food" "lunch" ∅)).2
  = Return [].
Proof.
  apply (proj1 (nonpositive_amount_added_not_loaded (fun _ => None) "2024-01-01"
                  (S754_finite true 5629499534213120 (-50)) "food" "lunch" eq_refl
                  ltac:(repeat constructor; vm_compute; intros H; discriminate H))).
  left. apply lookup_empty.
Defined.

(** ** The interactive entry of [add_expense.py] *)

Lemma strptime_nonempty (s : string) (dt : datetime) :
  strptime s fmt_ymd = Return dt -> is_empty s = false.
Proof.
  intros H. destruct s; [|reflexivity].
  exfalso. apply (strptime_empty fmt_ymd dt); [left; reflexivity | exact H].
Qed.

Lemma parse_date_of_strptime (iso : string -> option datetime) (s : string) (dt : datetime) :
  strptime (strip s) fmt_ymd = Return dt ->
  _parse_date iso (strip s) = Return (Some (strftime dt)).
Proof.
  intros H. unfold _parse_date. rewrite strip_idem, (strptime_nonempty _ _ H).
  cbn [try_formats]. rewrite H. reflexivity.
Qed.

(** What [main] does with four lines that pass the prompts. *)
Lemma main_adds (today : datetime) (d a c ds : string) (rest : list string)
    (fs : files) (dt : datetime) (x : float) :
  strptime (strip d) fmt_ymd = Return dt ->
  py_float (strip a) = Return x ->
  strip c <> "" -> strip ds <> "" ->
  AddExpense.main today (d :: a :: c :: ds :: rest) fs
  = (AddExpense.add_expense (strip d) x (strip c) (strip ds) fs, AddExpense.Added).
Proof.
  intros Hd Ha Hc Hds.
  assert (Hce : is_empty (strip c) = false)
    by (destruct (strip c); [contradiction | reflexivity]).
  assert (Hdse : is_empty (strip ds) = false)
    by (destruct (strip ds); [contradiction | reflexivity]).
  unfold AddExpense.main.
  cbn [AddExpense.prompt_date]. rewrite (strptime_nonempty _ _ Hd), Hd.
  cbn [AddExpense.ask AddExpense.prompt_amount]. rewrite Ha.
  cbn [AddExpense.ask AddExpense.prompt_category]. rewrite Hce.
  cbn [AddExpense.ask AddExpense.prompt_description]. rewrite Hdse.
  reflexivity.
Qed.

(** X16. An expense typed into [main] on a fresh data file comes back from
    [load_expenses]: the date is accepted and stored as typed (["2024-1-5"]
    is stored so) and the load returns it as [strftime] prints it (the
    canonical form from the year 1000 on); the category and the
    description are stored stripped.  The amount has to be above zero and a
    number of whole cents, which [main] does not check, and no cell is
    longer than the 131072 characters the reader accepts. *)
Theorem main_entry_loads_back (iso : string -> option datetime) (today : datetime)
    (d a c ds : string) (rest : list string) (fs : files)
    (dt : datetime) (x : float) :
  fs !! AddExpense.DATA_FILE = None \/ fs !! AddExpense.DATA_FILE = Some "" ->
  strptime (strip d) fmt_ymd = Return dt ->
  py_float (strip a) = Return x ->
  gt_zero x = true -> round2 x = x ->
  strip c <> "" -> strip ds <> "" ->
  Forall fits [strip d; format2 x; strip c; strip ds] ->
  (AddExpense.main today (d :: a :: c :: ds :: rest) fs).2 = AddExpense.Added
  /\ (load_expenses iso AddExpense.DATA_FILE
        (AddExpense.main today (d :: a :: c :: ds :: rest) fs).1).2
     = Return [mk_Expense (strftime dt) x (strip c) (strip ds)]
  /\ (1000 <= year dt -> canonical_date (strftime dt)).
Proof.
  intros E Hd Ha Hpos Hr Hc Hds Hfit.
  rewrite (main_adds today d a c ds rest fs dt x Hd Ha Hc Hds). cbn [fst snd].
  split; [reflexivity|]. split; [|apply strftime_canonical].
  rewrite (add_expense_fresh _ _ _ _ fs E).
  unfold load_expenses. cbn [snd].
  rewrite (ensure_csv_header_kept _ _ _ (lookup_insert_eq _ _ _)) by reflexivity.
  rewrite lookup_insert_eq. cbn [default id].
  rewrite (load_text_one_added iso _ _ _ _ Hfit).
  destruct capital_header_map as (Hnd & H1 & H2 & H3 & H4).
  unfold AddExpense.header_row in *.
  rewrite (clean_row_cells iso _ _ _ _ (strip d) (format2 x) (strip c) (strip ds)
             Hnd H1 H2 H3 H4).
  rewrite (parse_date_of_strptime iso d dt Hd), (parse_amount_format2 x Hpos Hr).
  cbn [bind]. rewrite !strip_idem.
  rewrite (strftime_nonempty dt).
  destruct (strip c); [contradiction|]. destruct (strip ds); [contradiction|].
  reflexivity.
Qed.

Lemma main_entry_loads_back_witness :
  (load_expenses (fun _ => None) AddExpense.DATA_FILE
     (AddExpense.main (mk_datetime 2024 6 1 eq_refl)
        ["2024-1-5"; " 12.5 "; "food"; " lunch"] ∅).1).2
  = Return [mk_Expense "2024-01-05" (S754_finite false 7036874417766400 (-49))
                       "food" "lunch"].
Proof.
  apply (proj1 (proj2 (main_entry_loads_back (fun _ => None)
                  (mk_datetime 2024 6 1 eq_refl)
                  "2024-1-5" " 12.5 " "food" " lunch" [] ∅
                  (mk_datetime 2024 1 5 eq_refl)
                  (S754_finite false 7036874417766400 (-49))
                  (or_introl (lookup_empty _))
                  ltac:(vm_compute; reflexivity) ltac:(vm_compute; reflexivity)
                  ltac:(vm_compute; reflexivity) ltac:(vm_compute; reflexivity)
                  ltac:(vm_compute; discriminate) ltac:(vm_compute; discriminate)
                  ltac:(repeat constructor; vm_compute; intros H; discriminate H)))).
Defined.

(** X17. [main] accepts every amount that [float] converts: the test
    [<= 0] and the rounding in [prompt_amount] are never reached.  With an
    amount that is zero or below the program still reports success and
    writes the row, and [load_expenses] then returns nothing for it (the
    cells being within the reader's limit of 131072 characters). *)
Theorem main_accepts_nonpositive_amount (iso : string -> option datetime)
    (today : datetime) (d a c ds : string) (rest : list string) (fs : files)
    (dt : datetime) (x : float) :
  fs !! AddExpense.DATA_FILE = None \/ fs !! AddExpense.DATA_FILE = Some "" ->
  strptime (strip d) fmt_ymd = Return dt ->
  py_float (strip a) = Return x ->
  le_zero x = true ->
  strip c <> "" -> strip ds <> "" ->
  (AddExpense.main today (d :: a :: c :: ds :: rest) fs).2 = AddExpense.Added
  /\ (AddExpense.main today (d :: a :: c :: ds :: rest) fs).1 !! AddExpense.DATA_FILE
     = Some (writerow AddExpense.header_row
             ++ writerow [strip d; format2 x; strip c; strip ds])
  /\ (Forall fits [strip d; format2 x; strip c; strip ds] ->
      (load_expenses iso AddExpense.DATA_FILE
         (AddExpense.main today (d :: a :: c :: ds :: rest) fs).1).2
      = Return []).
Proof.
  intros E Hd Ha Hneg Hc Hds.
  rewrite (main_adds today d a c ds rest fs dt x Hd Ha Hc Hds). cbn [fst snd].
  split; [reflexivity|]. rewrite (add_expense_fresh _ _ _ _ fs E).
  split; [apply lookup_insert_eq|]. intros Hfit.
  unfold load_expenses. cbn [snd].
  rewrite (ensure_csv_header_kept _ _ _ (lookup_insert_eq _ _ _)) by reflexivity.
  rewrite lookup_insert_eq. cbn [default id].
  rewrite (load_text_one_added iso _ _ _ _ Hfit).
  destruct capital_header_map as (Hnd & H1 & H2 & H3 & H4).
  unfold AddExpense.header_row in *.
  rewrite (clean_row_bad_amount iso _ _ _ _ (strip d) (format2 x) (strip c) (strip ds)
             Hnd H1 H2 H3 H4 (parse_amount_nonpositive x Hneg)).
  reflexivity.
Qed.

Lemma main_accepts_nonpositive_amount_witness :
  (load_expenses (fun _ => None) AddExpense.DATA_FILE
     (AddExpense.main (mk_datetime 2024 6 1 eq_refl)
        ["2024-01-05"; "-5"; "food"; "lunch"] ∅).1).2
  = Return [].
Proof.
  apply (proj2 (proj2 (main_accepts_nonpositive_amount (fun _ => None)
                  (mk_datetime 2024 6 1 eq_refl)
                  "2024-01-05" "-5" "food" "lunch" [] ∅
                  (mk_datetime 2024 1 5 eq_refl)
                  (S754_finite true 5629499534213120 (-50))
                  (or_introl (lookup_empty _))
                  ltac:(vm_compute; reflexivity) ltac:(vm_compute; reflexivity)
                  ltac:(vm_compute; reflexivity)
                  ltac:(vm_compute; discriminate) ltac:(vm_compute; discriminate)))).
  repeat constructor; vm_compute; intros H; discriminate H.
Defined.

Lemma add_expense_keeps (d : string) (a : float) (c ds : string) (fs : files) :
  (forall p, p <> AddExpense.DATA_FILE ->
     AddExpense.add_expense d a c ds fs !! p = fs !! p)
  /\ (forall content, fs !! AddExpense.DATA_FILE = Some content ->
        exists tail,
          AddExpense.add_expense d a c ds fs !! AddExpense.DATA_FILE
          = Some (content ++ tail)).
Proof.
  split.
  - intros p Hp. unfold AddExpense.add_expense, AddExpense.ensure_csv_header.
    rewrite lookup_insert_ne by congruence.
    destruct (fs !! AddExpense.DATA_FILE) as [content|];
      [destruct (is_empty content)|]; try reflexivity;
      apply lookup_insert_ne; congruence.
  - intros content E. destruct content as [|ch content].
    + rewrite (add_expense_fresh d a c ds fs (or_intror E)), lookup_insert_eq. eauto.
    + rewrite (add_expense_appends d a c ds fs _ E eq_refl), lookup_insert_eq. eauto.
Qed.

(** X18. [main] never loses what is recorded: whatever is typed, files
    other than the data file are untouched, the content the data file had
    is still the beginning of its content afterwards, and unless the
    program reports success no file is changed at all. *)
Theorem main_keeps_recorded_data (today : datetime) (lines : list string) (fs : files) :
  ((AddExpense.main today lines fs).2 <> AddExpense.Added ->
   (AddExpense.main today lines fs).1 = fs)
  /\ (forall p, p <> AddExpense.DATA_FILE ->
        (AddExpense.main today lines fs).1 !! p = fs !! p)
  /\ (forall content, fs !! AddExpense.DATA_FILE = Some content ->
        exists tail,
          (AddExpense.main today lines fs).1 !! AddExpense.DATA_FILE
          = Some (content ++ tail)).
Proof.
  assert (Hsame : forall content, fs !! AddExpense.DATA_FILE = Some content ->
                    exists tail, fs !! AddExpense.DATA_FILE = Some (content ++ tail)).
  { intros content E. exists "". rewrite append_empty_r. exact E. }
  unfold AddExpense.main.
  destruct (AddExpense.prompt_date today lines) as [date l1| |]; cbn [AddExpense.ask fst snd];
    [|auto..].
  destruct (AddExpense.prompt_amount l1) as [amount l2| |]; cbn [AddExpense.ask fst snd];
    [|auto..].
  destruct (AddExpense.prompt_category l2) as [category l3| |]; cbn [AddExpense.ask fst snd];
    [|auto..].
  destruct (AddExpense.prompt_description l3) as [description l4| |];
    cbn [AddExpense.ask fst snd]; [|auto..].
  destruct (add_expense_keeps date amount category description fs) as [Hother Hdata].
  split; [intros H; contradiction|]. split; assumption.
Qed.

Lemma main_keeps_recorded_data_witness :
  (AddExpense.main (mk_datetime 2024 6 1 eq_refl) ["2024-01-05"; "abc"]
     (<[AddExpense.DATA_FILE := "x"]> ∅)).1
  = <[AddExpense.DATA_FILE := "x"]> ∅.
Proof.
  apply (proj1 (main_keeps_recorded_data (mk_datetime 2024 6 1 eq_refl)
                  ["2024-01-05"; "abc"] (<[AddExpense.DATA_FILE := "x"]> ∅))).
  vm_compute. discriminate.
Defined.

(** X19. Every date [prompt_date] returns is one the loader accepts (today
    being of the year 1000 or later): it is today's date as [strftime]
    prints it or the text as typed, and [_parse_date] reads it as a calendar
    day, returned in the canonical form when its year is 1000 or later.
    No date that [main] writes makes [load_expenses] skip the row. *)
Theorem prompt_date_result_loadable (iso : string -> option datetime)
    (today : datetime) (lines : list string) (d : string) (rest : list string) :
  1000 <= year today ->
  AddExpense.prompt_date today lines = AddExpense.Got d rest ->
  exists dt, _parse_date iso d = Return (Some (strftime dt))
             /\ (1000 <= year dt -> canonical_date (strftime dt)).
Proof.
  intros Htoday. induction lines as [|line lines IH]; [discriminate|].
  cbn [AddExpense.prompt_date].
  destruct (is_empty (strip line)).
  - intros [= <- <-]. exists today.
    split; [|apply strftime_canonical].
    apply parse_date_canonical, strftime_four_digit, Htoday.
  - destruct (strptime (strip line) fmt_ymd) as [dt|e] eqn:E; [|exact IH].
    intros [= <- <-]. exists dt.
    split; [exact (parse_date_of_strptime iso line dt E) | apply strftime_canonical].
Qed.

Lemma prompt_date_result_loadable_witness :
  exists dt, _parse_date (fun _ => None) "2024-1-5" = Return (Some (strftime dt))
             /\ (1000 <= year dt -> canonical_date (strftime dt)).
Proof.
  apply (prompt_date_result_loadable (fun _ => None) (mk_datetime 2024 6 1 eq_refl)
           ["5 Jan"; "2024-13-01"; " 2024-1-5 "; "x"] "2024-1-5" ["x"]).
  - cbn [year]. lia.
  - vm_compute. reflexivity.
Defined.

(** ** Dates written with slashes *)

Lemma digit_not_space (n : Z) : isspace (digit_char n) = false.
Proof.
  destruct (digit_char_spec n) as [H _].
  apply isdigit_numchar, numchar_props in H. apply H.
Qed.

Lemma slash_date_stripped (a b y : Z) :
  let s := pad2 a ++ "/" ++ pad2 b ++ "/" ++ pad4 y in
  strip s = s /\ is_empty s = false.
Proof.
  split; [|reflexivity]. unfold strip.
  change (pad2 a ++ "/" ++ pad2 b ++ "/" ++ pad4 y)
    with (String (digit_char (a / 10))
            ((String (digit_char a) ("/" ++ pad2 b ++ "/"
                ++ String (digit_char (y / 1000)) (String (digit_char (y / 100))
                     (String (digit_char (y / 10)) ""))))
             ++ String (digit_char y) "")).
  apply strip_by_ends; apply digit_not_space.
Qed.

Lemma slash_date_not_ymd (a b : Z) (r : string) :
  strptime (pad2 a ++ "/" ++ r) fmt_ymd = Raise ValueError.
Proof.
  unfold strptime, fmt_ymd.
  change (pad2 a ++ "/" ++ r)
    with (String (digit_char (a / 10)) (String (digit_char a) (String "/" r))).
  cbn [regex_match]. destruct r as [|c r]; [reflexivity|].
  cbn [alts_Y]. change (isdigit "/") with false.
  rewrite andb_false_r. reflexivity.
Qed.

Lemma regex_match_dmy (y m d : Z) :
  valid_ymd y m d = true ->
  regex_match fmt_dmy (pad2 d ++ "/" ++ pad2 m ++ "/" ++ pad4 y) (1900, 1, 1)
  = Some (y, m, d, "").
Proof.
  intros Hv. apply valid_ymd_bounds in Hv as (Hy & Hm & Hd).
  unfold fmt_dmy. cbn [regex_match].
  destruct (alts_d_pad2 d ("/" ++ pad2 m ++ "/" ++ pad4 y) Hd) as [ld ->].
  cbn [first_some fst snd].
  change ("/" ++ pad2 m ++ "/" ++ pad4 y) with (String "/" (pad2 m ++ "/" ++ pad4 y)).
  cbn [regex_match Ascii.eqb Bool.eqb].
  destruct (alts_m_pad2 m ("/" ++ pad4 y) Hm) as [lm ->].
  cbn [first_some fst snd].
  change ("/" ++ pad4 y) with (String "/" (pad4 y ++ "")).
  cbn [regex_match Ascii.eqb Bool.eqb].
  rewrite alts_Y_pad4 by lia. reflexivity.
Qed.

Lemma regex_match_mdy (y m d : Z) :
  valid_ymd y m d = true ->
  regex_match fmt_mdy (pad2 m ++ "/" ++ pad2 d ++ "/" ++ pad4 y) (1900, 1, 1)
  = Some (y, m, d, "").
Proof.
  intros Hv. apply valid_ymd_bounds in Hv as (Hy & Hm & Hd).
  unfold fmt_mdy. cbn [regex_match].
  destruct (alts_m_pad2 m ("/" ++ pad2 d ++ "/" ++ pad4 y) Hm) as [lm ->].
  cbn [first_some fst snd].
  change ("/" ++ pad2 d ++ "/" ++ pad4 y) with (String "/" (pad2 d ++ "/" ++ pad4 y)).
  cbn [regex_match Ascii.eqb Bool.eqb].
  destruct (alts_d_pad2 d ("/" ++ pad4 y) Hd) as [ld ->].
  cbn [first_some fst snd].
  change ("/" ++ pad4 y) with (String "/" (pad4 y ++ "")).
  cbn [regex_match Ascii.eqb Bool.eqb].
  rewrite alts_Y_pad4 by lia. reflexivity.
Qed.

(** With a second number above 12 the text is no day/month/year date. *)
Lemma regex_match_dmy_fails (m d : Z) (r : string) :
  1 <= m <= 12 -> 13 <= d <= 31 ->
  regex_match fmt_dmy (pad2 m ++ "/" ++ pad2 d ++ "/" ++ r) (1900, 1, 1) = None.
Proof.
  intros Hm Hd.
  assert (Hm' : 0 <= m < Z.of_nat 13) by lia. revert Hm' Hm. revert m.
  apply (below_by_cases (fun m => 1 <= m <= 12 -> _) 13). intros n Hn Hm.
  assert (Hd' : 0 <= d < Z.of_nat 32) by lia. revert Hd' Hd. revert d.
  apply (below_by_cases (fun d => 13 <= d <= 31 -> _) 32). intros k Hk Hd.
  do 13 (destruct n as [|n];
         [first [lia
                | do 32 (destruct k as [|k]; [first [lia | vm_compute; reflexivity]|]); lia]|]).
  lia.
Qed.

Lemma make_date_valid (y m d : Z) :
  valid_ymd y m d = true ->
  exists dt, make_date y m d = Return dt
             /\ strftime dt = year_text y ++ "-" ++ pad2 m ++ "-" ++ pad2 d.
Proof.
  intros Hv. destruct (make_date_cases y m d) as [[E _]|[H ->]]; [congruence|].
  eexists. split; reflexivity.
Qed.

(** X20. Dates with slashes and two-digit fields: [DD/MM/YYYY] of a real
    calendar day is read as that day, and [MM/DD/YYYY] is read as month and
    day exactly when the day is above 12, so that the text cannot be a
    day/month date.  The result is the year as [strftime] prints it (without
    leading zeros), the month and the day; from the year 1000 on this is the
    canonical [YYYY-MM-DD]. *)
Theorem slash_dates_parse (iso : string -> option datetime) (y m d : Z) :
  valid_ymd y m d = true ->
  _parse_date iso (pad2 d ++ "/" ++ pad2 m ++ "/" ++ pad4 y)
  = Return (Some (year_text y ++ "-" ++ pad2 m ++ "-" ++ pad2 d))
  /\ (12 < d ->
      _parse_date iso (pad2 m ++ "/" ++ pad2 d ++ "/" ++ pad4 y)
      = Return (Some (year_text y ++ "-" ++ pad2 m ++ "-" ++ pad2 d)))
  /\ (1000 <= y ->
      year_text y = pad4 y
      /\ canonical_date (year_text y ++ "-" ++ pad2 m ++ "-" ++ pad2 d)).
Proof.
  intros Hv. destruct (make_date_valid y m d Hv) as (dt & Hdt & Hs).
  pose proof (valid_ymd_bounds y m d Hv) as (Hy & Hm & Hd).
  split; [|split].
  - unfold _parse_date.
    destruct (slash_date_stripped d m y) as [-> ->]. cbn [try_formats].
    rewrite (slash_date_not_ymd d m). cbn [bind try_except].
    unfold strptime at 1. rewrite (regex_match_dmy y m d Hv), Hdt.
    cbn [bind try_except]. rewrite Hs. reflexivity.
  - intros Hbig. unfold _parse_date.
    destruct (slash_date_stripped m d y) as [-> ->]. cbn [try_formats].
    rewrite (slash_date_not_ymd m d). cbn [bind try_except].
    unfold strptime at 1. rewrite (regex_match_dmy_fails m d (pad4 y)) by lia.
    cbn [bind try_except].
    unfold strptime at 1. rewrite (regex_match_mdy y m d Hv), Hdt.
    cbn [bind try_except]. rewrite Hs. reflexivity.
  - intros Hbig. split; [apply year_text_pad4; lia|].
    rewrite (year_text_pad4 y) by lia.
    exists y, m, d. split; [exact Hv | reflexivity].
Qed.

Lemma slash_dates_parse_witness :
  _parse_date (fun _ => None) "02/29/2024" = Return (Some "2024-02-29")
  /\ _parse_date (fun _ => None) "02/01/0999" = Return (Some "999-01-02").
Proof.
  split.
  - apply (proj1 (proj2 (slash_dates_parse (fun _ => None) 2024 2 29 eq_refl))).
    reflexivity.
  - apply (proj1 (slash_dates_parse (fun _ => None) 999 1 2 eq_refl)).
Defined.

(** ** C4: the amount parser *)

Lemma lstrip_by_app_all (p : ascii -> bool) (ws s : string) :
  all_chars p ws = true -> lstrip_by p (ws ++ s) = lstrip_by p s.
Proof.
  induction ws as [|c ws IH]; [reflexivity|]. cbn [all_chars].
  intros H. apply andb_prop in H as [Hc H].
  change (String c ws ++ s) with (String c (ws ++ s)).
  cbn [lstrip_by]. rewrite Hc. exact (IH H).
Qed.

Lemma rstrip_by_all (p : ascii -> bool) (s : string) :
  all_chars p s = true -> rstrip_by p s = "".
Proof.
  induction s as [|c s IH]; [reflexivity|]. cbn [all_chars rstrip_by].
  intros H. apply andb_prop in H as [-> H]. rewrite (IH H). reflexivity.
Qed.

Lemma rstrip_by_app_all (p : ascii -> bool) (s ws : string) :
  all_chars p ws = true -> rstrip_by p (s ++ ws) = rstrip_by p s.
Proof.
  intros H. induction s as [|c s IH]; [exact (rstrip_by_all p ws H)|].
  change (String c s ++ ws) with (String c (s ++ ws)).
  cbn [rstrip_by]. rewrite IH. reflexivity.
Qed.

(** White space around a text does not change what [strip] leaves. *)
Lemma strip_app_space (ws s : string) :
  all_chars isspace ws = true ->
  strip (ws ++ s) = strip s /\ strip (s ++ ws) = strip s.
Proof.
  intros H. unfold strip. split.
  - rewrite (lstrip_by_app_all _ _ _ H). reflexivity.
  - rewrite <- !lstrip_rstrip_comm, (rstrip_by_app_all _ _ _ H). reflexivity.
Qed.

Lemma round_half_even_div_nearest (a b : Z) :
  0 < b ->
  2 * Z.abs (a - round_half_even_div a b * b) <= b
  /\ (2 * Z.abs (a - round_half_even_div a b * b) = b ->
      Z.even (round_half_even_div a b) = true).
Proof.
  intros Hb. unfold round_half_even_div.
  pose proof (Z_div_mod a b ltac:(lia)) as Hdm.
  destruct (Z.div_eucl a b) as [q r]. destruct Hdm as [-> Hr].
  assert (E0 : b * q + r - q * b = r) by ring.
  assert (E1 : b * q + r - (q + 1) * b = r - b) by ring.
  destruct (Z.compare_spec (2 * r) b) as [H|H|H].
  - destruct (Z.even q) eqn:Hq.
    + rewrite E0. split; [lia | intros _; exact Hq].
    + rewrite E1. split; [lia|]. intros _.
      rewrite Z.add_1_r, Z.even_succ, <- Z.negb_even, Hq. reflexivity.
  - rewrite E0. split; lia.
  - rewrite E1. split; lia.
Qed.

(** The hundredths that [round(x, 2)] takes are the rounded ones. *)
Lemma hundredths_rounded (m : positive) (e : Z) :
  rounded_hundredths m e (hundredths m e).
Proof.
  unfold rounded_hundredths, nearest_hundredths, hundredths.
  destruct (0 <=? e) eqn:E.
  - apply Z.leb_le in E.
    rewrite (Z.max_l e 0), (Z.max_r (- e) 0) by lia.
    rewrite Z.pow_0_r, Z.mul_1_r, Z.sub_diag. cbn. split; [lia | discriminate].
  - apply Z.leb_gt in E.
    rewrite (Z.max_r e 0), (Z.max_l (- e) 0) by lia.
    rewrite Z.pow_0_r, Z.mul_1_r.
    apply round_half_even_div_nearest, Z.pow_pos_nonneg; lia.
Qed.

Lemma nearest_even_unique (a b k k' : Z) :
  0 < b ->
  2 * Z.abs (a - k * b) <= b -> (2 * Z.abs (a - k * b) = b -> Z.even k = true) ->
  2 * Z.abs (a - k' * b) <= b -> (2 * Z.abs (a - k' * b) = b -> Z.even k' = true) ->
  k < k' -> False.
Proof.
  intros Hb H1 T1 H2 T2 Hlt.
  assert (Hstep : k * b + b <= k' * b) by nia.
  assert (Ek : k' = k + 1) by nia. subst k'.
  assert (E : (k + 1) * b = k * b + b) by ring. rewrite E in *.
  assert (Hk : Z.even k = true) by (apply T1; lia).
  assert (Hk' : Z.even (k + 1) = true) by (apply T2; lia).
  rewrite Z.add_1_r, Z.even_succ, <- Z.negb_even, Hk in Hk'. discriminate.
Qed.

(** There is one rounded number of hundredths. *)
Lemma rounded_hundredths_unique (m : positive) (e k k' : Z) :
  rounded_hundredths m e k -> rounded_hundredths m e k' -> k' = k.
Proof.
  unfold rounded_hundredths, nearest_hundredths. intros [H1 T1] [H2 T2].
  assert (Hb : 0 < 2 ^ Z.max (- e) 0) by (apply Z.pow_pos_nonneg; lia).
  destruct (Z.lt_total k k') as [H|[H|H]]; [|congruence|].
  - destruct (nearest_even_unique _ _ k k' Hb H1 T1 H2 T2 H).
  - destruct (nearest_even_unique _ _ k' k Hb H2 T2 H1 T1 H).
Qed.

Lemma float_sign_classes (x : float) :
  le_zero x = true \/ gt_zero x = true \/ x = S754_nan.
Proof. destruct x as [[]|[]| |[] m e]; cbn; auto. Qed.

Lemma gt_zero_cases (x : float) :
  gt_zero x = true ->
  x = S754_infinity false \/ exists m e, x = S754_finite false m e.
Proof. destruct x as [[]|[]| |[] m e]; cbn; try discriminate; eauto. Qed.

(** C4. With [v] the input stripped of surrounding white space and of every
    ['$'] and [','], the amount parser returns no value when [v] is empty,
    when [v] is not numeric ([float] rejects it), and when it converts to a
    number at most 0; when it converts to a number above 0 the parser
    returns that number rounded to two decimals: infinity as it is, and for
    a finite number the double nearest to [k/100], where [k] is the one whole
    number of hundredths nearest to it (ties to even).  White space around
    the input changes nothing.  A converted value is at most 0, above 0 or
    NaN, and NaN is returned as a value.  ["$1,234.5"] gives 1234.50,
    ["2.675"] gives 2.67, ["12.345"] gives 12.35, ["0.125"] gives 0.12, and
    ["-5"] and ["0"] give no value. *)
Theorem parse_amount_spec :
  (forall s : string,
     let v := remove_char "," (remove_char "$" (strip s)) in
     (v = "" -> _parse_amount s = Return None)
     /\ (py_float v = Raise ValueError -> _parse_amount s = Return None)
     /\ (forall x, py_float v = Return x -> le_zero x = true ->
           _parse_amount s = Return None)
     /\ (forall x, py_float v = Return x -> gt_zero x = true ->
           _parse_amount s = Return (Some (round2 x))))
  /\ (exists x, _parse_amount "$1,234.5" = Return (Some x) /\ format2 x = "1234.50")
  /\ _parse_amount "-5" = Return None
  /\ _parse_amount "0" = Return None
  /\ (forall x, gt_zero x = true ->
        (x = S754_infinity false /\ round2 x = x)
        \/ exists m e k,
             x = S754_finite false m e
             /\ rounded_hundredths m e k
             /\ (forall k', rounded_hundredths m e k' -> k' = k)
             /\ round2 x = nearest_double false (Qmake k 100))
  /\ (forall ws s, all_chars isspace ws = true ->
        _parse_amount (ws ++ s) = _parse_amount s
        /\ _parse_amount (s ++ ws) = _parse_amount s)
  /\ (forall x, le_zero x = true \/ gt_zero x = true \/ x = S754_nan)
  /\ (forall s, py_float (remove_char "," (remove_char "$" (strip s))) = Return S754_nan ->
        _parse_amount s = Return (Some S754_nan))
  /\ _parse_amount "nan" = Return (Some S754_nan)
  /\ (exists x, _parse_amount "2.675" = Return (Some x)
                /\ py_float "2.67" = Return x /\ py_float "2.675" <> Return x)
  /\ (exists x, _parse_amount "12.345" = Return (Some x)
                /\ py_float "12.35" = Return x /\ py_float "12.345" <> Return x)
  /\ (exists x, _parse_amount "0.125" = Return (Some x)
                /\ py_float "0.12" = Return x /\ py_float "0.125" <> Return x)
  /\ (exists x, _parse_amount (String (ascii_of_nat 28) " 5 ") = Return (Some x)
                /\ py_float "5" = Return x
                /\ py_float (String (ascii_of_nat 28) " 5 ") = Raise ValueError).
Proof.
  split; [|split; [|split; [|split; [|split; [|split; [|split; [|split]]]]]]].
  - intros s v. unfold _parse_amount. fold v.
    repeat split.
    + intros ->. reflexivity.
    + intros ->. destruct (is_empty v); reflexivity.
    + intros x -> Hx. destruct (is_empty v); simpl; [|rewrite Hx]; reflexivity.
    + intros x Hf Hx. destruct v as [|c r] eqn:Ev.
      * vm_compute in Hf. discriminate.
      * simpl is_empty. cbv iota. rewrite Hf. simpl.
        rewrite (gt_zero_not_le_zero _ Hx). reflexivity.
  - eexists. split; vm_compute; reflexivity.
  - vm_compute. reflexivity.
  - vm_compute. reflexivity.
  - intros x Hx. destruct (gt_zero_cases x Hx) as [->|(m & e & ->)].
    + left. split; reflexivity.
    + right. exists m, e, (hundredths m e).
      split; [reflexivity|]. split; [apply hundredths_rounded|].
      split; [|reflexivity].
      intros k' Hk'. exact (rounded_hundredths_unique m e _ k' (hundredths_rounded m e) Hk').
  - intros ws s H. destruct (strip_app_space ws s H) as [E1 E2].
    unfold _parse_amount. rewrite E1, E2. split; reflexivity.
  - exact float_sign_classes.
  - intros s Hf. unfold _parse_amount.
    destruct (remove_char "," (remove_char "$" (strip s))) as [|c r].
    + vm_compute in Hf. discriminate.
    + cbn [is_empty]. rewrite Hf. reflexivity.
  - split; [vm_compute; reflexivity|].
    split; [|split; [|split]]; eexists;
      (split; [vm_compute; reflexivity|]);
      (split; [vm_compute; reflexivity|]);
      first [vm_compute; reflexivity | vm_compute; discriminate].
Qed.

Lemma parse_amount_spec_witness :
  _parse_amount " $12.345 "
  = Return (Some (round2 (S754_finite false 6949617174986097 (-49))))
  /\ round2 (S754_finite false 6949617174986097 (-49))
     = S754_finite false 6952431924753203 (-49).
Proof.
  split.
  - apply (proj2 (proj2 (proj2 (proj1 parse_amount_spec " $12.345 ")))).
    + vm_compute. reflexivity.
    + vm_compute. reflexivity.
  - vm_compute. reflexivity.
Defined.
